(** * Nexys A7 DMA audio demo: a shallow embedding of [helloworld.c]

    The development follows the C file function by function.  Machine
    integers are [Z] with the wrap-around of their C type written out,
    the driver calls of the Xilinx BSP are primitives of a small state
    monad that logs the calls and takes the value the hardware returns
    from a script, and the 32-bit address space is a byte memory. *)

From Stdlib Require Import ZArith Lia Bool.
From stdpp Require Import base list list_numbers strings.

Local Open Scope Z_scope.

(** ** Machine integers *)

Module Int.

(** Truncation to the unsigned C types [u8], [u16] and [u32]. *)
Definition u8 (x : Z) : Z := x mod 2 ^ 8.
Definition u16 (x : Z) : Z := x mod 2 ^ 16.
Definition u32 (x : Z) : Z := x mod 2 ^ 32.

(** Pointers of the MicroBlaze are 32 bits wide ([UINTPTR]); pointer
    arithmetic is addition modulo [2 ^ 32]. *)
Definition ptr_add (p k : Z) : Z := u32 (p + k).

End Int.
Import Int.

(** ** Constants of the board support package

    [xstatus.h] and [xaxidma_hw.h] belong to the Xilinx BSP, not to this
    repository; the values are the ones those headers define. *)

Definition XST_SUCCESS : Z := 0.
Definition XST_FAILURE : Z := 1.
Definition XST_INVALID_PARAM : Z := 15.

Definition XAXIDMA_TX_OFFSET : Z := 0x00.
Definition XAXIDMA_RX_OFFSET : Z := 0x30.
Definition XAXIDMA_SR_OFFSET : Z := 0x04.
Definition XAXIDMA_IRQ_ERROR_MASK : Z := 0x4000.

(** [const u32 max_file_size = 0x7FFFFF], the size of the buffer [file]
    that [main] allocates. *)
Definition max_file_size : Z := 0x7FFFFF.

(** ** Data types of the demo *)

Inductive DemoMode : Set :=
| DEMO_MODE_PAUSED
| DEMO_MODE_HW_TONE_GEN
| DEMO_MODE_SW_TONE_GEN
| DEMO_MODE_RECV_WAV_FILE
| DEMO_MODE_PLAY_WAV_FILE.

Record GpioIn_Data : Set := mkGpioIn {
  buttons : Z;      (* u8 *)
  switches : Z;     (* u16 *)
  button_pe : Z;    (* u8 *)
  button_ne : Z;    (* u8 *)
  switch_pe : Z;    (* u16 *)
  switch_ne : Z     (* u16 *)
}.

Inductive Direction : Set :=
| XAXIDMA_DMA_TO_DEVICE
| XAXIDMA_DEVICE_TO_DMA.

(** A value handed to [xil_printf] after the format string. *)
Inductive PrintArg : Set :=
| ArgInt (n : Z)
| ArgStr (bytes : list Z).

(** The calls that leave the program are logged, in program order; the
    calls that set the drivers up ([init], [init_dma]) have no event. *)
Inductive Event : Set :=
| EvPrint (fmt : string) (args : list PrintArg)
| EvCacheFlush (addr len : Z)
| EvSimpleTransfer (addr len : Z) (dir : Direction)
| EvBusy (dir : Direction)
| EvReadReg (offset : Z)
| EvDmaReset
| EvResetIsDone
| EvGpioRead (channel : Z)
| EvUartResetFifos
| EvUartRecv (addr : Z)
| EvMalloc (size : Z)
| EvMemset (addr val len : Z)
| EvFree (addr : Z)
| EvSleep (seconds : Z)
| EvUsleep (useconds : Z).

(** The state the program runs in.  [inputs] is the script of values
    that the calls returning a value (driver reads, [malloc]) will
    yield, in call order; a run that needs more values than the script
    holds does not return. *)
Record World : Type := mkWorld {
  mode : DemoMode;          (* p_demo_inst->mode *)
  last : GpioIn_Data;       (* the static variable of get_gpio_data *)
  mem : Z -> Z;             (* byte memory, indexed by 32-bit address *)
  inputs : list Z;
  trace : list Event
}.

Definition with_mode (d : DemoMode) (w : World) : World :=
  mkWorld d (last w) (mem w) (inputs w) (trace w).
Definition with_last (g : GpioIn_Data) (w : World) : World :=
  mkWorld (mode w) g (mem w) (inputs w) (trace w).
Definition with_mem (m : Z -> Z) (w : World) : World :=
  mkWorld (mode w) (last w) m (inputs w) (trace w).
Definition with_inputs (i : list Z) (w : World) : World :=
  mkWorld (mode w) (last w) (mem w) i (trace w).
Definition with_trace (t : list Event) (w : World) : World :=
  mkWorld (mode w) (last w) (mem w) (inputs w) t.

(** ** The monad of the embedding: state, and [None] for a run that
    does not return *)

Definition M (A : Type) : Type := World -> option (A * World).

#[global] Instance M_ret : MRet M := fun A a w => Some (a, w).
#[global] Instance M_bind : MBind M := fun A B k m w =>
  match m w with
  | Some (a, w') => k a w'
  | None => None
  end.

Definition emit (e : Event) : M unit :=
  fun w => Some (tt, with_trace (trace w ++ [e]) w).

Definition input : M Z := fun w =>
  match inputs w with
  | [] => None
  | v :: rest => Some (v, with_inputs rest w)
  end.

Definition get_mem : M (Z -> Z) := fun w => Some (mem w, w).
Definition put_mem (m : Z -> Z) : M unit := fun w => Some (tt, with_mem m w).
Definition get_mode : M DemoMode := fun w => Some (mode w, w).
Definition set_mode (d : DemoMode) : M unit := fun w => Some (tt, with_mode d w).
Definition get_last : M GpioIn_Data := fun w => Some (last w, w).
Definition set_last (g : GpioIn_Data) : M unit := fun w => Some (tt, with_last g w).

(** A loop whose every iteration makes at least one call that consumes
    the script: [body s] returns [inl s'] to go round again with the
    loop variables [s'], and [inr r] to leave the loop with [r].  The
    script bounds the number of iterations, so its length is fuel
    enough ([loop_fuel_enough] below); a loop that outlives the script
    does not return. *)
Fixpoint loop_fuel {S A} (fuel : nat) (body : S -> M (S + A)) (s : S) : M A :=
  match fuel with
  | O => fun _ => None
  | Datatypes.S fuel' =>
      r ← body s;
      match r with
      | inl s' => loop_fuel fuel' body s'
      | inr a => mret a
      end
  end.

Definition loop {S A} (body : S -> M (S + A)) (s : S) : M A :=
  fun w => loop_fuel (Datatypes.S (length (inputs w))) body s w.

(** ** Memory access *)

Definition load8 (m : Z -> Z) (p : Z) : Z := u8 (m (u32 p)).

Definition store8 (m : Z -> Z) (p v : Z) : Z -> Z :=
  fun a => if a =? u32 p then u8 v else m a.

(** A [u16] read through a [u16*]; the MicroBlaze of this design is
    little-endian, as is the WAV file that [buf2u16] decodes. *)
Definition load16 (m : Z -> Z) (p : Z) : Z :=
  Z.lor (Z.shiftl (load8 m (ptr_add p 1)) 8) (load8 m p).

(** The array a [u8*] points to, as the function from index to byte. *)
Definition array_at (m : Z -> Z) (p : Z) : Z -> Z :=
  fun k => load8 m (ptr_add p k).

(** ** Calls into the BSP and the C library *)

Definition xil_printf (fmt : string) (args : list PrintArg) : M unit :=
  emit (EvPrint fmt args).

Definition Xil_DCacheFlushRange (addr len : Z) : M unit :=
  emit (EvCacheFlush addr len).

Definition XAxiDma_SimpleTransfer (addr len : Z) (dir : Direction) : M Z :=
  emit (EvSimpleTransfer addr len dir);; v ← input; mret (u32 v).

Definition XAxiDma_Busy (dir : Direction) : M Z :=
  emit (EvBusy dir);; v ← input; mret (u32 v).

Definition XAxiDma_ReadReg (offset : Z) : M Z :=
  emit (EvReadReg offset);; v ← input; mret (u32 v).

Definition XAxiDma_Reset : M unit := emit EvDmaReset.

Definition XAxiDma_ResetIsDone : M Z :=
  emit EvResetIsDone;; v ← input; mret (u32 v).

Definition XGpio_DiscreteRead (channel : Z) : M Z :=
  emit (EvGpioRead channel);; v ← input; mret (u32 v).

Definition XUartLite_ResetFifos : M unit := emit EvUartResetFifos.

(** [XUartLite_Recv(inst, p, 1)]: a scripted value in [0, 255] is a byte
    that has arrived, stored at [p], and the call returns 1; any other
    value means the receive FIFO is empty, and the call returns 0. *)
Definition XUartLite_Recv1 (p : Z) : M Z :=
  emit (EvUartRecv p);;
  v ← input;
  if (0 <=? v) && (v <? 256)
  then m ← get_mem; put_mem (store8 m p v);; mret 1
  else mret 0.

Definition malloc (size : Z) : M Z :=
  emit (EvMalloc size);; p ← input; mret (u32 p).

Definition free (p : Z) : M unit := emit (EvFree p).
Definition sleep (s : Z) : M unit := emit (EvSleep s).
Definition usleep (us : Z) : M unit := emit (EvUsleep us).

(** [memset(p, val, len)] fills the [len] bytes from [p] on. *)
Definition mem_fill (m : Z -> Z) (p val len : Z) : Z -> Z :=
  fun a => if u32 (a - p) <? len then u8 val else m a.

Definition memset (addr val len : Z) : M unit :=
  emit (EvMemset addr val len);;
  m ← get_mem;
  put_mem (mem_fill m addr val len).

(** A [u32] written through a [u32*], and an array of them, in the
    byte order of the little-endian MicroBlaze. *)
Definition store32 (m : Z -> Z) (p v : Z) : Z -> Z :=
  store8 (store8 (store8 (store8 m p v)
                         (ptr_add p 1) (Z.shiftr v 8))
                 (ptr_add p 2) (Z.shiftr v 16))
         (ptr_add p 3) (Z.shiftr v 24).

Fixpoint store_words (m : Z -> Z) (p : Z) (ws : list Z) : Z -> Z :=
  match ws with
  | [] => m
  | v :: ws' => store_words (store32 m p v) (ptr_add p 4) ws'
  end.

(** ** [get_gpio_data] *)

Definition get_gpio_data : M GpioIn_Data :=
  l ← get_last;
  b ← XGpio_DiscreteRead 1;
  s ← XGpio_DiscreteRead 2;
  let data_buttons := u8 b in
  let data_switches := u16 s in
  let data :=
    {| buttons := data_buttons;
       switches := data_switches;
       button_pe := u8 (Z.land data_buttons (Z.lnot (buttons l)));
       button_ne := u8 (Z.land (Z.lnot data_buttons) (buttons l));
       switch_pe := u16 (Z.land data_switches (Z.lnot (switches l)));
       switch_ne := u16 (Z.land (Z.lnot data_switches) (switches l)) |} in
  set_last data;;
  mret data.

(** ** [dma_receive] and [dma_send] *)

(** [while (XAxiDma_Busy(inst, dir));] and the [do ... while (busy)] of
    [dma_receive]: poll, and leave when the flag reads zero. *)
Definition poll_busy (dir : Direction) (_ : unit) : M (unit + unit) :=
  busy ← XAxiDma_Busy dir;
  mret (if busy =? 0 then inr tt else inl tt).

Definition wait_not_busy (dir : Direction) : M unit :=
  loop (poll_busy dir) tt.

Definition dma_receive (buffer length : Z) : M Z :=
  Xil_DCacheFlushRange buffer length;;
  status ← XAxiDma_SimpleTransfer buffer length XAXIDMA_DEVICE_TO_DMA;
  if negb (status =? XST_SUCCESS) then
    xil_printf "ERROR: failed to kick off S2MM transfer\r\n" [];;
    mret XST_FAILURE
  else
    wait_not_busy XAXIDMA_DEVICE_TO_DMA;;
    sr ← XAxiDma_ReadReg (XAXIDMA_RX_OFFSET + XAXIDMA_SR_OFFSET);
    if negb (Z.land sr XAXIDMA_IRQ_ERROR_MASK =? 0) then
      xil_printf "ERROR: AXI DMA returned an error during the S2MM transfer\r\n" [];;
      mret XST_FAILURE
    else
      Xil_DCacheFlushRange buffer length;;
      mret XST_SUCCESS.

(** In [dma_send] the test of [status] guards the [xil_printf] alone:
    there is no [return] after it, and the function goes on to the
    busy-wait. *)
Definition dma_send (buffer length : Z) : M Z :=
  Xil_DCacheFlushRange buffer length;;
  status ← XAxiDma_SimpleTransfer buffer length XAXIDMA_DMA_TO_DEVICE;
  (if negb (status =? XST_SUCCESS)
   then xil_printf "ERROR: failed to kick off MM2S transfer\r\n" []
   else mret tt);;
  wait_not_busy XAXIDMA_DMA_TO_DEVICE;;
  sr ← XAxiDma_ReadReg (XAXIDMA_TX_OFFSET + XAXIDMA_SR_OFFSET);
  if negb (Z.land sr XAXIDMA_IRQ_ERROR_MASK =? 0) then
    xil_printf "ERROR: AXI DMA returned an error during the MM2S transfer\r\n" [];;
    mret XST_FAILURE
  else
    Xil_DCacheFlushRange buffer length;;
    mret XST_SUCCESS.

(** ** [dma_reset] *)

Definition poll_reset_done (_ : unit) : M (unit + unit) :=
  done ← XAxiDma_ResetIsDone;
  mret (if done =? 0 then inl tt else inr tt).

Definition dma_reset : M unit :=
  XAxiDma_Reset;;
  loop poll_reset_done tt.

(** ** [uart_recv], [buf2str], [buf2u32], [buf2u16] *)

Definition uart_recv_step (buffer length received_count : Z) : M (Z + Z) :=
  if received_count <? length then
    n ← XUartLite_Recv1 (ptr_add buffer received_count);
    mret (inl (u32 (received_count + n)))
  else mret (inr received_count).

Definition uart_recv (buffer length : Z) : M Z :=
  loop (uart_recv_step buffer length) 0.

(** The contents of [str] after [buf2str(buffer, str, length)]: the
    [length] bytes copied, then the terminating zero. *)
Definition buf2str (buffer : Z -> Z) (length : Z) : list Z :=
  (buffer <$> seqZ 0 length) ++ [0].

Definition buf2u32 (buffer : Z -> Z) : Z :=
  Z.lor (Z.lor (Z.lor (u32 (Z.shiftl (u32 (buffer 3)) 24))
                      (u32 (Z.shiftl (u32 (buffer 2)) 16)))
               (u32 (Z.shiftl (u32 (buffer 1)) 8)))
        (u32 (buffer 0)).

Definition buf2u16 (buffer : Z -> Z) : Z :=
  u16 (Z.lor (Z.shiftl (u16 (buffer 1)) 8) (u16 (buffer 0))).

(** Fields of the three raw WAV structures.  Every member is an array
    of [u8], so the structures have no padding and a field lies at the
    sum of the sizes before it. *)
Module Wav.
Definition sizeof_HeaderRaw : Z := 12.

Definition riff (m : Z -> Z) (p : Z) := array_at m p.
Definition overall_size (m : Z -> Z) (p : Z) := array_at m (ptr_add p 4).
Definition wave (m : Z -> Z) (p : Z) := array_at m (ptr_add p 8).

Definition fmt_chunk_marker (m : Z -> Z) (p : Z) := array_at m p.
Definition fmt_chunk_size (m : Z -> Z) (p : Z) := array_at m (ptr_add p 4).
Definition format_type (m : Z -> Z) (p : Z) := array_at m (ptr_add p 8).
Definition channels (m : Z -> Z) (p : Z) := array_at m (ptr_add p 10).
Definition sample_rate (m : Z -> Z) (p : Z) := array_at m (ptr_add p 12).
Definition byte_rate (m : Z -> Z) (p : Z) := array_at m (ptr_add p 16).
Definition block_align (m : Z -> Z) (p : Z) := array_at m (ptr_add p 20).
Definition bits_per_sample (m : Z -> Z) (p : Z) := array_at m (ptr_add p 22).

Definition data_chunk_header (m : Z -> Z) (p : Z) := array_at m p.
Definition data_chunk_size (m : Z -> Z) (p : Z) := array_at m (ptr_add p 4).
End Wav.

(** ** The sample loop of [dma_sw_tone_gen] *)

(** The variables of the [for] loop.  The block that [malloc] returned
    is used as an array of 128 [u32] and is kept as such while the loop
    runs.  [time] is a [float] that starts at 0 and is incremented by
    one: it only takes the integer values up to 48, which a [float]
    holds exactly, and is kept as an integer. *)
Record ToneLoop : Set := mkToneLoop {
  tl_sample : Z;          (* u16 sample *)
  tl_time : Z;            (* float time *)
  tl_temp : list Z;       (* u8 temp[5] *)
  tl_buffer : list Z;     (* ((u32* )buffer)[0 .. 127] *)
  tl_i : Z                (* int i *)
}.

(** [(temp[hi] << 8) + temp[lo]], stored to a [u32]. *)
Definition pack_word (hi lo : Z) : Z := u32 (Z.shiftl hi 8 + lo).

Section Demo.

(** [Y], the value of the expression
    [(A * sin(2*3.14159*f*time_step) + A)*(127/A)] at a given [time],
    as the integer the conversion of the [double] yields.  [sin]
    belongs to the C library and floating point is not modelled. *)
Variable sine_sample : Z -> Z.

(** What the uninitialised [temp[5]] holds when the function starts. *)
Variable temp_init : list Z.

Definition buffer_size : Z := 128.

(** The byte that the pass at [time] stores into [temp]. *)
Definition tone_sample (time : Z) : Z := u8 (sine_sample time).

(** The first [n] samples, in the order of the loop. *)
Definition tone_samples (n : nat) : list Z :=
  (fun k => tone_sample (Z.of_nat k)) <$> seq 0 n.

Definition tone_init : ToneLoop :=
  {| tl_sample := 0; tl_time := 0; tl_temp := temp_init;
     tl_buffer := replicate (Z.to_nat buffer_size) 0; tl_i := 0 |}.

(** One pass through the body of the [for] loop, with the [time++]
    that ends it and the [sample++] of the loop header.  A write past
    the 128 words would leave the list as it is; under the guard
    [sample < 256] the index stays below 128 ([tone_iter_inv] below). *)
Definition tone_body (st : ToneLoop) : ToneLoop :=
  let sample := tl_sample st in
  let Y := tone_sample (tl_time st) in
  let temp := tl_temp st in
  let i := tl_i st in
  let '(temp', buffer', i') :=
    if sample mod 4 =? 0 then (<[0%nat := Y]> temp, tl_buffer st, i)
    else if sample mod 4 =? 1 then (<[1%nat := Y]> temp, tl_buffer st, i)
    else if sample mod 4 =? 2 then (<[2%nat := Y]> temp, tl_buffer st, i)
    else if sample mod 4 =? 3 then
      let temp3 := <[3%nat := Y]> temp in
      let buffer1 :=
        <[Z.to_nat i := pack_word (temp3 !!! 3%nat) (temp3 !!! 2%nat)]>
          (tl_buffer st) in
      let buffer2 :=
        <[Z.to_nat (i + 1) := pack_word (temp3 !!! 1%nat) (temp3 !!! 0%nat)]>
          buffer1 in
      (temp3, buffer2, i + 2)
    else (temp, tl_buffer st, i) in
  {| tl_sample := u16 (sample + 1); tl_time := tl_time st + 1;
     tl_temp := temp'; tl_buffer := buffer'; tl_i := i' |}.

(** [sample < 256 && time < 48] *)
Definition tone_guard (st : ToneLoop) : bool :=
  (tl_sample st <? 256) && (tl_time st <? 48).

(** The [for] loop; [None] when [fuel] passes through the body do not
    reach the end of the loop. *)
Fixpoint tone_loop (fuel : nat) (st : ToneLoop) : option ToneLoop :=
  if tone_guard st then
    match fuel with
    | O => None
    | S fuel' => tone_loop fuel' (tone_body st)
    end
  else Some st.

(** The state after [n] passes through the body. *)
Definition tone_iter (n : nat) (st : ToneLoop) : ToneLoop :=
  Nat.iter n tone_body st.

(** The length [i*4] that the call of [dma_send] after the loop gets. *)
Definition tone_send_length (st : ToneLoop) : Z := u32 (tl_i st * 4).

(** ** [dma_sw_tone_gen] *)

(** The body of the [while (1)] that sends the buffer until a button
    is pressed. *)
Definition send_until_button (buffer length : Z) (_ : unit)
  : M (unit + unit) :=
  status ← dma_send buffer length;
  gpio ← get_gpio_data;
  mret (if negb (button_pe gpio =? 0) then inr tt else inl tt).

Definition dma_sw_tone_gen : M unit :=
  buffer ← malloc (buffer_size * 4);
  memset buffer 0 (buffer_size * 4);;
  usleep 10000;;
  match tone_loop 256 tone_init with
  | None => fun _ => None
  | Some st =>
      m ← get_mem;
      put_mem (store_words m buffer (tl_buffer st));;
      loop (send_until_button buffer (tone_send_length st)) tt;;
      set_mode DEMO_MODE_PAUSED;;
      xil_printf "Exiting SW tone gen mode\r\n" [];;
      memset buffer 0 (buffer_size * 4);;
      status ← dma_send buffer (u32 (buffer_size * 4));
      free buffer;;
      dma_reset
  end.

(** ** [play_wav] *)

(** [(u8)((u16)(wav_data[i] + 32768) >> 8)] for the [u16] that
    [wav_data[i]] reads. *)
Definition downscale (wav_sample : Z) : Z :=
  u8 (Z.shiftr (u16 (wav_sample + 32768)) 8).

(** The [for] loop that fills [dma_data], from index [i] on, [n]
    elements. *)
Fixpoint downscale_loop (n : nat) (i wav_data dma_data : Z) (m : Z -> Z)
  : Z -> Z :=
  match n with
  | O => m
  | S n' =>
      downscale_loop n' (i + 1) wav_data dma_data
        (store8 m (ptr_add dma_data i)
           (downscale (load16 m (ptr_add wav_data (2 * i)))))
  end.

(** [p_format] and [p_data] as [play_wav] and [recv_wav] compute
    them from [file]. *)
Definition format_ptr (file : Z) : Z := ptr_add file 12.

Definition data_ptr (m : Z -> Z) (file : Z) : Z :=
  let p_format := format_ptr file in
  ptr_add p_format (u32 (8 + buf2u32 (Wav.fmt_chunk_size m p_format))).

(** [buf2u32(p_data->data_chunk_size) * sizeof(u8) / sizeof(u16)] *)
Definition dma_data_length (m : Z -> Z) (file : Z) : Z :=
  u32 (buf2u32 (Wav.data_chunk_size m (data_ptr m file)) * 1) / 2.

Definition play_wav (file : Z) : M unit :=
  m ← get_mem;
  let p_data := data_ptr m file in
  let wav_data := ptr_add p_data 8 in
  xil_printf "preparing for playback\r\n" [];;
  if load8 m file =? 0 then
    xil_printf "Must receive a WAV file to be able to play\r\n" [];;
    set_mode DEMO_MODE_PAUSED
  else
    let dma_data_length := dma_data_length m file in
    dma_data ← malloc dma_data_length;
    put_mem (downscale_loop (Z.to_nat dma_data_length) 0 wav_data dma_data m);;
    status ← dma_send dma_data dma_data_length;
    xil_printf "sleep for a while\r\n" [];;
    sleep 2;;
    free dma_data;;
    dma_reset;;
    set_mode DEMO_MODE_PAUSED;;
    xil_printf "Exiting play mode\r\n" [].

(** ** [recv_wav] *)

(** [var = buf2u32(p_header->overall_size)-4], an [unsigned int]. *)
Definition receive_length (m : Z -> Z) (file : Z) : Z :=
  u32 (buf2u32 (Wav.overall_size m file) - 4).

Definition recv_wav (file : Z) : M unit :=
  if file =? 0 then
    xil_printf "Memory fault" [];;
    set_mode DEMO_MODE_PAUSED
  else
    XUartLite_ResetFifos;;
    xil_printf "Demo waiting for a WAV file...\r\n" [];;
    received ← uart_recv file Wav.sizeof_HeaderRaw;
    xil_printf "header received\r\n" [];;
    m ← get_mem;
    let var := receive_length m file in
    received ← uart_recv (ptr_add file Wav.sizeof_HeaderRaw) var;
    m ← get_mem;
    let p_header := file in
    let p_format := format_ptr file in
    let p_data := data_ptr m file in
    let int32 (b : Z -> Z) := ArgInt (buf2u32 b) in
    let int16 (b : Z -> Z) := ArgInt (buf2u16 b) in
    let str4 (b : Z -> Z) := ArgStr (buf2str b 4) in
    xil_printf "file info: \r\n" [];;
    xil_printf "  header:\r\n" [];;
    xil_printf "    riff: '%s'\r\n" [str4 (Wav.riff m p_header)];;
    xil_printf "    overall_size: %d\r\n" [int32 (Wav.overall_size m p_header)];;
    xil_printf "    wave: '%s'\r\n" [str4 (Wav.wave m p_header)];;
    xil_printf "  format:\r\n" [];;
    xil_printf "    fmt_chunk_marker: '%s'\r\n" [str4 (Wav.fmt_chunk_marker m p_format)];;
    xil_printf "    fmt_chunk_size: %d\r\n" [int32 (Wav.fmt_chunk_size m p_format)];;
    xil_printf "    format_type: %d\r\n" [int16 (Wav.format_type m p_format)];;
    xil_printf "    channels: %d\r\n" [int16 (Wav.channels m p_format)];;
    xil_printf "    sample_rate: %d\r\n" [int32 (Wav.sample_rate m p_format)];;
    xil_printf "    byte_rate: %d\r\n" [int32 (Wav.byte_rate m p_format)];;
    xil_printf "    block_align: %d\r\n" [int16 (Wav.block_align m p_format)];;
    xil_printf "    bits_per_sample: %d\r\n" [int16 (Wav.bits_per_sample m p_format)];;
    xil_printf "  data:\r\n" [];;
    xil_printf "    fmt_chunk_marker: '%s'\r\n" [str4 (Wav.data_chunk_header m p_data)];;
    xil_printf "    data_chunk_size: %d\r\n" [int32 (Wav.data_chunk_size m p_data)];;
    play_wav file;;
    xil_printf "Exiting receive mode\r\n" [].

(** ** One iteration of the loop of [main] *)

(** [switch (data.button_pe)] *)
Definition mode_transition (button_pe : Z) : M unit :=
  if button_pe =? 0x01 then
    set_mode DEMO_MODE_PAUSED;;
    xil_printf "\nDemo paused\r\n" []
  else if button_pe =? 0x04 then
    set_mode DEMO_MODE_RECV_WAV_FILE;;
    xil_printf "\nDemo prepared to receive wav file\r\n" [];;
    sleep 1
  else if button_pe =? 0x08 then
    set_mode DEMO_MODE_PLAY_WAV_FILE;;
    xil_printf "\nDemo playing back wav file\r\n" []
  else if button_pe =? 0x10 then
    set_mode DEMO_MODE_SW_TONE_GEN;;
    xil_printf "\nDemo generating 261 Hz tone in SW\r\n" []
  else mret tt.

(** [switch (device.mode)] *)
Definition mode_action (file : Z) : M unit :=
  d ← get_mode;
  match d with
  | DEMO_MODE_PAUSED => mret tt
  | DEMO_MODE_HW_TONE_GEN => mret tt
  | DEMO_MODE_RECV_WAV_FILE => recv_wav file
  | DEMO_MODE_PLAY_WAV_FILE => play_wav file
  | DEMO_MODE_SW_TONE_GEN => dma_sw_tone_gen
  end.

Definition main_iteration (file : Z) : M unit :=
  data ← get_gpio_data;
  mode_transition (button_pe data);;
  mode_action file.

End Demo.

(** ** The word layout of the tone buffer *)

(** The range of an 8-bit sample. *)
Definition is_u8 (s : Z) : Prop := 0 <= s < 256.

(** The words that the sample loop writes for a sequence of samples:
    two per complete group of four, [(s3 << 8) + s2] and then
    [(s1 << 8) + s0]; an incomplete group at the end leaves no word. *)
Fixpoint pack_samples (samples : list Z) : list Z :=
  match samples with
  | s0 :: s1 :: s2 :: s3 :: rest =>
      pack_word s3 s2 :: pack_word s1 s0 :: pack_samples rest
  | _ => []
  end.

(** The layout in the words of the specification:
    word0 = [(s3<<8)|s2], word1 = [(s1<<8)|s0]. *)
Fixpoint pack_samples_spec (samples : list Z) : list Z :=
  match samples with
  | s0 :: s1 :: s2 :: s3 :: rest =>
      Z.lor (Z.shiftl s3 8) s2 :: Z.lor (Z.shiftl s1 8) s0
        :: pack_samples_spec rest
  | _ => []
  end.

(** Reading the samples back under that layout.  The program has no
    such function (the reader is the audio peripheral); it follows the
    layout of the specification: the low byte of word1, its next byte,
    the low byte of word0, its next byte. *)
Fixpoint unpack_words_spec (words : list Z) : list Z :=
  match words with
  | word0 :: word1 :: rest =>
      Z.land word1 0xFF :: Z.land (Z.shiftr word1 8) 0xFF
        :: Z.land word0 0xFF :: Z.land (Z.shiftr word0 8) 0xFF
        :: unpack_words_spec rest
  | _ => []
  end.

(** What holds after [4 * q + r] passes through the body of the sample
    loop, [r < 4]: the counters, the [r] samples of the open group in
    [temp], and in the buffer the words of the [q] complete groups,
    followed by the zeros of the [memset]. *)
Definition tone_inv (sine_sample : Z -> Z) (q r : nat) (st : ToneLoop) : Prop :=
  tl_sample st = Z.of_nat (4 * q + r) /\
  tl_time st = Z.of_nat (4 * q + r) /\
  tl_i st = Z.of_nat (2 * q) /\
  length (tl_temp st) = 5%nat /\
  (forall j, (j < r)%nat ->
     tl_temp st !! j = Some (tone_sample sine_sample (Z.of_nat (4 * q + j)))) /\
  tl_buffer st =
    pack_samples (tone_samples sine_sample (4 * q)) ++ replicate (128 - 2 * q) 0.

(** ** The script as a measure of the loops *)

(** A computation that hands back no more of the script than it got. *)
Definition keeps_script {A} (m : M A) : Prop :=
  forall w a w', m w = Some (a, w') ->
    (length (inputs w') <= length (inputs w))%nat.

(** A computation that uses up at least one value of the script. *)
Definition uses_script {A} (m : M A) : Prop :=
  forall w a w', m w = Some (a, w') ->
    (length (inputs w') < length (inputs w))%nat.

(** A loop body that uses up the script whenever it goes round again. *)
Definition consumes {S A} (body : S -> M (S + A)) : Prop :=
  forall s w s' w', body s w = Some (inl s', w') ->
    (length (inputs w') < length (inputs w))%nat.

(** ** Worlds used in the examples *)

(** The values of [Y] over one period, [time] from 0 to 47. *)
Definition sine_table (time : Z) : Z :=
  [127; 143; 159; 175; 190; 204; 216; 227; 236; 244; 249; 252;
   253; 252; 249; 244; 236; 227; 216; 204; 190; 175; 159; 143;
   127; 110; 94; 78; 63; 49; 37; 26; 17; 9; 4; 1;
   0; 1; 4; 9; 17; 26; 37; 49; 63; 78; 94; 110] !!! Z.to_nat time.

(** A memory that holds the bytes [l] from address [base] on. *)
Definition bytes_at (base : Z) (l : list Z) (m : Z -> Z) : Z -> Z :=
  fun a =>
    if (base <=? a) && (a <? base + Z.of_nat (length l))
    then l !!! Z.to_nat (a - base)
    else m a.

(** The kick-off is refused ([XST_INVALID_PARAM], the answer of
    [XAxiDma_SimpleTransfer] to a length of zero), the channel is idle
    and the status register shows no error. *)
Definition refused_kickoff : World :=
  {| mode := DEMO_MODE_PLAY_WAV_FILE;
     last := mkGpioIn 8 0 8 0 0 0;
     mem := fun _ => 0;
     inputs := [XST_INVALID_PARAM; 0; 0];
     trace := [] |}.

(** A file pointer [0x80000000] whose format chunk declares a size of
    [0x800000]: the data chunk would lie past the [max_file_size] bytes
    of the buffer, where memory happens to hold a chunk of 4 bytes. *)
Definition oversized_format_chunk : World :=
  {| mode := DEMO_MODE_PLAY_WAV_FILE;
     last := mkGpioIn 8 0 8 0 0 0;
     mem := bytes_at 0x80000000
              [82; 73; 70; 70; 36; 0; 128; 0; 87; 65; 86; 69;
               102; 109; 116; 32; 0; 0; 128; 0]
              (bytes_at 0x80800014
                 [100; 97; 116; 97; 4; 0; 0; 0; 0; 0; 255; 127]
                 (fun _ => 0));
     inputs := [0x81000000; 0; 0; 0; 1];
     trace := [] |}.

(** A WAV file of 52 bytes: 16-bit mono PCM, a data chunk of four
    samples (0, -32768, 32767, 256); its header declares 44. *)
Definition minimal_wav : list Z :=
  [82; 73; 70; 70; 44; 0; 0; 0; 87; 65; 86; 69;
   102; 109; 116; 32; 16; 0; 0; 0; 1; 0; 1; 0;
   0x80; 0x3E; 0; 0; 0; 0x7D; 0; 0; 2; 0; 16; 0;
   100; 97; 116; 97; 8; 0; 0; 0;
   0x00; 0x00; 0x00; 0x80; 0xFF; 0x7F; 0x00; 0x01].

(** The file arrives on the UART, with one poll of an empty FIFO after
    the third byte; then come the answers to [malloc], to the transfer
    and to the reset. *)
Definition receiving_minimal_wav : World :=
  {| mode := DEMO_MODE_RECV_WAV_FILE;
     last := mkGpioIn 4 0 4 0 0 0;
     mem := fun _ => 0;
     inputs := take 3 minimal_wav ++ [-1] ++ drop 3 minimal_wav ++
               [0x81000000; 0; 0; 0; 1];
     trace := [] |}.

(** The hardware reports busy on each of [polls]. *)
Definition all_busy (polls : list Z) : Prop :=
  Forall (fun v => u32 v <> 0) polls.

(** ** [dma_forward] *)

(** [#define VERBOSE 0] *)
Definition VERBOSE : bool := false.

Definition BUFFER_SIZE_WORDS : Z := 256.
Definition BUFFER_SIZE_BYTES : Z := 1024.

(** A [u32] read through a [u32*]. *)
Definition load32 (m : Z -> Z) (p : Z) : Z :=
  Z.lor (Z.lor (Z.lor (Z.shiftl (load8 m (ptr_add p 3)) 24)
                      (Z.shiftl (load8 m (ptr_add p 2)) 16))
               (Z.shiftl (load8 m (ptr_add p 1)) 8))
        (load8 m p).

(** The first [for] loop, from index [i] on, [n] rounds: one call of
    [dma_receive] for each word, at [(u32)buffer + sizeof(u32) * i];
    what the call returns is dropped. *)
Fixpoint forward_receives (n : nat) (buffer i : Z) : M unit :=
  match n with
  | O => mret tt
  | S n' =>
      status ← dma_receive (ptr_add buffer (4 * i)) 4;
      forward_receives n' buffer (i + 1)
  end.

(** The loop under [if (VERBOSE)] that prints the words. *)
Fixpoint print_words (n : nat) (buffer word : Z) : M unit :=
  match n with
  | O => mret tt
  | S n' =>
      m ← get_mem;
      xil_printf "    %08x\r\n" [ArgInt (load32 m (ptr_add buffer (4 * word)))];;
      print_words n' buffer (word + 1)
  end.

Definition dma_forward : M unit :=
  xil_printf "entered dma_forward\r\n" [];;
  buffer ← malloc BUFFER_SIZE_BYTES;
  memset buffer 0 BUFFER_SIZE_BYTES;;
  xil_printf "  1.\r\n" [];;
  forward_receives (Z.to_nat BUFFER_SIZE_WORDS) buffer 0;;
  xil_printf "  2.\r\n" [];;
  (if VERBOSE then
     xil_printf "data received:\r\n" [];;
     print_words (Z.to_nat BUFFER_SIZE_WORDS) buffer 0
   else mret tt);;
  status ← dma_send buffer BUFFER_SIZE_BYTES;
  xil_printf "  3.\r\n" [];;
  free buffer.

(** The word requests of [dma_forward] for a block at [buffer], from
    index [i] on. *)
Definition word_requests (buffer i : Z) (n : nat)
  : list (Z * Z * Direction) :=
  (fun k => (ptr_add buffer (4 * k), 4, XAXIDMA_DEVICE_TO_DMA)) <$>
  seqZ i (Z.of_nat n).

(** [malloc] answers [0x80A00000]; the engine refuses every second
    request for a word and reports an error on the others; the send
    that follows goes through. *)
Definition forwarding : World :=
  {| mode := DEMO_MODE_HW_TONE_GEN;
     last := mkGpioIn 0 0 0 0 0 0;
     mem := fun _ => 0xA5;
     inputs := 0x80A00000 ::
               mjoin (replicate 128 [XST_FAILURE; XST_SUCCESS; 0; 0x4000]) ++
               [XST_SUCCESS; 0; 0];
     trace := [] |}.

(** ** [init_dma] and [init]

    The calls that set the drivers up take what they return from the
    script, like the other calls into the BSP; the trace has no event
    for them.  The calls that return nothing only write registers of
    the devices, which the state does not hold. *)

(** [xaxidma_hw.h] *)
Definition XAXIDMA_IRQ_ALL_MASK : Z := 0x00007000.

Definition XAxiDma_LookupConfig (device_id : Z) : M Z :=
  v ← input; mret (u32 v).

Definition XAxiDma_CfgInitialize (cfg_ptr : Z) : M Z :=
  v ← input; mret (u32 v).

Definition XAxiDma_HasSg : M Z := v ← input; mret (u32 v).

Definition XAxiDma_IntrDisable (mask : Z) (dir : Direction) : M unit :=
  mret tt.

(** [p_dma_inst->TxBdRing.MaxTransferLen], a field that
    [XAxiDma_CfgInitialize] has set. *)
Definition MaxTransferLen : M Z := v ← input; mret (u32 v).

Definition XGpio_Initialize (device_id : Z) : M Z := v ← input; mret (u32 v).

Definition XGpio_SetDataDirection (device_id channel mask : Z) : M unit :=
  mret tt.

Definition XGpio_GetDataDirection (device_id channel : Z) : M Z :=
  v ← input; mret (u32 v).

Definition XUartLite_Initialize (device_id : Z) : M Z :=
  v ← input; mret (u32 v).

Definition XUartLite_DisableInterrupt : M unit := mret tt.

Definition init_dma (dma_device_id : Z) : M Z :=
  cfg_ptr ← XAxiDma_LookupConfig dma_device_id;
  if cfg_ptr =? 0 then
    xil_printf
      "ERROR! No hardware configuration found for AXI DMA with device id %d.\r\n"
      [ArgInt dma_device_id];;
    mret XST_FAILURE
  else
    status ← XAxiDma_CfgInitialize cfg_ptr;
    if negb (status =? XST_SUCCESS) then
      xil_printf "ERROR! Initialization of AXI DMA failed with %d\r\n"
        [ArgInt status];;
      mret XST_FAILURE
    else
      sg ← XAxiDma_HasSg;
      if negb (sg =? 0) then
        xil_printf "ERROR! Device configured as SG mode.\r\n" [];;
        mret XST_FAILURE
      else
        XAxiDma_IntrDisable XAXIDMA_IRQ_ALL_MASK XAXIDMA_DEVICE_TO_DMA;;
        XAxiDma_IntrDisable XAXIDMA_IRQ_ALL_MASK XAXIDMA_DMA_TO_DEVICE;;
        XAxiDma_Reset;;
        loop poll_reset_done tt;;
        len ← MaxTransferLen;
        xil_printf "Note: MaxTransferLen=%d\r\n" [ArgInt len];;
        mret XST_SUCCESS.

Section Board.

(** The device ids of [xparameters.h], which the hardware design
    generates. *)
Variable XPAR_GPIO_OUT_DEVICE_ID : Z.
Variable XPAR_GPIO_IN_DEVICE_ID : Z.
Variable XPAR_AXI_UARTLITE_0_DEVICE_ID : Z.
Variable XPAR_AXI_DMA_0_DEVICE_ID : Z.

(** The two reads of a data direction are arguments of one call of
    [xil_printf]; C leaves their order open, and they are taken here
    from left to right.  What [XUartLite_Initialize] returns is
    dropped. *)
Definition init : M Z :=
  status ← XGpio_Initialize XPAR_GPIO_OUT_DEVICE_ID;
  if negb (status =? XST_SUCCESS) then mret XST_FAILURE
  else
    XGpio_SetDataDirection XPAR_GPIO_OUT_DEVICE_ID 1 0xFF;;
    XGpio_SetDataDirection XPAR_GPIO_OUT_DEVICE_ID 2 0x0000;;
    d1 ← XGpio_GetDataDirection XPAR_GPIO_OUT_DEVICE_ID 1;
    d2 ← XGpio_GetDataDirection XPAR_GPIO_OUT_DEVICE_ID 2;
    xil_printf "%08x %08x\r\n" [ArgInt d1; ArgInt d2];;
    status ← XGpio_Initialize XPAR_GPIO_IN_DEVICE_ID;
    if negb (status =? XST_SUCCESS) then mret XST_FAILURE
    else
      XGpio_SetDataDirection XPAR_GPIO_IN_DEVICE_ID 1 0x00;;
      XGpio_SetDataDirection XPAR_GPIO_IN_DEVICE_ID 2 0xFFFF;;
      d1 ← XGpio_GetDataDirection XPAR_GPIO_IN_DEVICE_ID 1;
      d2 ← XGpio_GetDataDirection XPAR_GPIO_IN_DEVICE_ID 2;
      xil_printf "%08x %08x\r\n" [ArgInt d1; ArgInt d2];;
      uart_status ← XUartLite_Initialize XPAR_AXI_UARTLITE_0_DEVICE_ID;
      XUartLite_DisableInterrupt;;
      status ← init_dma XPAR_AXI_DMA_0_DEVICE_ID;
      if negb (status =? XST_SUCCESS) then mret XST_FAILURE
      else mret XST_SUCCESS.

(** ** [main] *)

Variable sine_sample : Z -> Z.
Variable temp_init : list Z.

(** [main] up to its loop; the result is the global [file].  The
    caches that the [#ifdef]s enable are not part of the state. *)
Definition main_start : M Z :=
  file ← malloc max_file_size;
  memset file 0 max_file_size;;
  xil_printf "----------------------------------------\r\n" [];;
  xil_printf "entering main\r\n" [];;
  status ← init;
  (if negb (status =? XST_SUCCESS) then
     xil_printf "ERROR: Demo not initialized correctly\r\n" [];;
     sleep 1
   else xil_printf "Demo started\r\n" []);;
  set_mode DEMO_MODE_SW_TONE_GEN;;
  mret file.

(** The first [n] rounds of the [while (1)]. *)
Fixpoint main_rounds (n : nat) (file : Z) : M unit :=
  match n with
  | O => mret tt
  | S n' =>
      main_iteration sine_sample temp_init file;;
      main_rounds n' file
  end.

(** [main] cut after [n] rounds of its loop, which has no exit. *)
Definition main (n : nat) : M unit :=
  file ← main_start;
  main_rounds n file.

End Board.

(** The board comes up: [malloc] answers [0x80000000], every driver
    initialises (the UART excepted, whose failure goes unnoticed), and
    the reset of the engine is done at the second poll.  No button is
    down at the first poll of the loop; the tone then plays once, until
    the C button goes down. *)
Definition powering_up : World :=
  {| mode := DEMO_MODE_PAUSED;
     last := mkGpioIn 0 0 0 0 0 0;
     mem := fun _ => 0xFF;
     inputs := [0x80000000;
                XST_SUCCESS; 0xFF; 0; XST_SUCCESS; 0; 0xFFFF; XST_FAILURE;
                0x4000; XST_SUCCESS; 0; 0; 1; 0x3FFF;
                0; 0;
                0x80900000; 0; 0; 0; 0x01; 0; 0; 0; 0; 1];
     trace := [] |}.

(** The same start on a board whose DMA engine is not found. *)
Definition powering_up_without_dma : World :=
  {| mode := DEMO_MODE_PAUSED;
     last := mkGpioIn 0 0 0 0 0 0;
     mem := fun _ => 0xFF;
     inputs := [0x80000000;
                XST_SUCCESS; 0xFF; 0; XST_SUCCESS; 0; 0xFFFF; XST_SUCCESS;
                0;
                0; 0;
                0x80900000; XST_FAILURE; 0; 0; 0x01; 0; XST_FAILURE; 0; 0; 1];
     trace := [] |}.

(** ** What a run adds to the trace and does to the mode *)

(** Every event that a returning run of [m] adds to the trace
    satisfies [P]; the events before it stay. *)
Definition emits {A} (P : Event -> Prop) (m : M A) : Prop :=
  forall w a w', m w = Some (a, w') ->
    exists t, trace w' = trace w ++ t /\ Forall P t.

(** A returning run of [m] leaves the part [f] of the state (the mode,
    the snapshot of the inputs) as it found it. *)
Definition keeps {B A} (f : World -> B) (m : M A) : Prop :=
  forall w a w', m w = Some (a, w') -> f w' = f w.

(** A returning run of [m] ends in [DEMO_MODE_PAUSED]. *)
Definition ends_paused {A} (m : M A) : Prop :=
  forall w a w', m w = Some (a, w') -> mode w' = DEMO_MODE_PAUSED.

(** An event other than the start of a transfer from the device to
    memory (the S2MM channel). *)
Definition not_s2mm (e : Event) : Prop :=
  match e with
  | EvSimpleTransfer _ _ XAXIDMA_DEVICE_TO_DMA => False
  | _ => True
  end.

(** The hardware reports the reset pending on each of [polls]. *)
Definition all_pending (polls : list Z) : Prop :=
  Forall (fun v => u32 v = 0) polls.


(** A to-device transfer of 96 bytes: the kick-off is accepted, the
    engine is busy for two polls, and the status register then shows
    the error bit. *)
Definition failing_transfer : World :=
  {| mode := DEMO_MODE_SW_TONE_GEN;
     last := mkGpioIn 0 0 0 0 0 0;
     mem := fun _ => 0;
     inputs := [XST_SUCCESS; 1; 1; 0; 0x4000; 7];
     trace := [] |}.


(** The L button goes down while the demo is paused; the 52-byte file
    then arrives on the UART and is played. *)
Definition pressing_receive : World :=
  {| mode := DEMO_MODE_PAUSED;
     last := mkGpioIn 0 0 0 0 0 0;
     mem := fun _ => 0;
     inputs := [0x04; 0] ++ minimal_wav ++ [0x81000000; 0; 0; 0; 1];
     trace := [] |}.


(** The tone plays once; the R button goes down and stops it, and is
    still down at the next poll of the main loop. *)
Definition stopping_the_tone : World :=
  {| mode := DEMO_MODE_SW_TONE_GEN;
     last := mkGpioIn 0 0 0 0 0 0;
     mem := fun _ => 0;
     inputs := [0x80900000; 0; 0; 0; 0x08; 0; 0; 0; 0; 1; 0x08; 0];
     trace := [] |}.


(** ** Bytes from the UART *)

(** The values of the script that are bytes: the polls of
    [XUartLite_Recv] that found the FIFO not empty. *)
Definition arrived (polls : list Z) : list Z :=
  filter (fun v => 0 <= v < 256) polls.

(** Memory after the bytes [bs] were stored at [p + rc], [p + rc + 1],
    and so on. *)
Fixpoint store_bytes_from (m : Z -> Z) (p rc : Z) (bs : list Z) : Z -> Z :=
  match bs with
  | [] => m
  | b :: bs' => store_bytes_from (store8 m (ptr_add p rc) b) p (rc + 1) bs'
  end.

(** ** The block that [play_wav] allocates *)

(** An event that is no call of [malloc] or [free], does not start a
    transfer and does not reset the engine. *)
Definition quiet (e : Event) : Prop :=
  match e with
  | EvMalloc _ | EvFree _ | EvSimpleTransfer _ _ _ | EvDmaReset => False
  | _ => True
  end.

(** The 52-byte file lies at [0x80000000]; [malloc] will answer
    [0x81000000], the transfer is accepted and finds the engine idle,
    and the reset is done at the second poll. *)
Definition holding_minimal_wav : World :=
  {| mode := DEMO_MODE_PLAY_WAV_FILE;
     last := mkGpioIn 8 0 8 0 0 0;
     mem := bytes_at 0x80000000 minimal_wav (fun _ => 0);
     inputs := [0x81000000; 0; 0; 0; 0; 1];
     trace := [] |}.

(** ** The transfers a run asks for *)

(** The transfers started in a trace, in order: address, length and
    direction of each call of [XAxiDma_SimpleTransfer]. *)
Definition transfers (t : list Event) : list (Z * Z * Direction) :=
  omap (fun e => match e with
                 | EvSimpleTransfer addr len dir => Some (addr, len, dir)
                 | _ => None
                 end) t.

(** * Properties *)

(** ** Arithmetic of the machine integers *)

Module IntFacts.

Lemma u8_range x : 0 <= u8 x < 256.
Proof. unfold u8. apply Z.mod_pos_bound. lia. Qed.

Lemma u16_range x : 0 <= u16 x < 65536.
Proof. unfold u16. apply Z.mod_pos_bound. lia. Qed.

Lemma u32_range x : 0 <= u32 x < 4294967296.
Proof. unfold u32. apply Z.mod_pos_bound. lia. Qed.

Lemma u8_small x : 0 <= x < 256 -> u8 x = x.
Proof. intros H. unfold u8. apply Z.mod_small. lia. Qed.

Lemma u16_small x : 0 <= x < 65536 -> u16 x = x.
Proof. intros H. unfold u16. apply Z.mod_small. lia. Qed.

Lemma u32_small x : 0 <= x < 4294967296 -> u32 x = x.
Proof. intros H. unfold u32. apply Z.mod_small. lia. Qed.

Lemma ptr_add_assoc p a b : ptr_add (ptr_add p a) b = ptr_add p (a + b).
Proof.
  unfold ptr_add, u32. rewrite Zplus_mod_idemp_l. f_equal. lia.
Qed.

Lemma ptr_add_u32_r p k : ptr_add p (u32 k) = ptr_add p k.
Proof. unfold ptr_add, u32. apply Zplus_mod_idemp_r. Qed.

(** Below [2 ^ n] the bits from [n] on are clear. *)
Lemma testbit_above b n m :
  0 <= n -> 0 <= b < 2 ^ n -> n <= m -> Z.testbit b m = false.
Proof.
  intros Hn Hb Hm.
  rewrite <- (Z.mod_small b (2 ^ n)) by lia.
  apply Z.mod_pow2_bits_high. lia.
Qed.

(** A value shifted past [b] shares no bit with [b]: or-ing the two
    adds them. *)
Lemma lor_shiftl_add a b n :
  0 <= n -> 0 <= b < 2 ^ n -> Z.lor (Z.shiftl a n) b = a * 2 ^ n + b.
Proof.
  intros Hn Hb.
  assert (Hland : Z.land (Z.shiftl a n) b = 0).
  { apply Z.bits_inj'. intros m Hm.
    rewrite Z.land_spec, Z.bits_0.
    destruct (Z_lt_le_dec m n) as [Hlt | Hge].
    - rewrite Z.shiftl_spec_low by lia. reflexivity.
    - rewrite (testbit_above b n m) by lia. apply andb_false_r. }
  pose proof (Z.add_lor_land (Z.shiftl a n) b) as Hadd.
  rewrite Hland, Z.add_0_r in Hadd. rewrite Hadd.
  rewrite Z.shiftl_mul_pow2 by lia. reflexivity.
Qed.

Lemma lor_range a b n :
  0 <= n -> 0 <= a < 2 ^ n -> 0 <= b < 2 ^ n -> 0 <= Z.lor a b < 2 ^ n.
Proof.
  intros Hn Ha Hb.
  rewrite <- (Z.mod_small a (2 ^ n)), <- (Z.mod_small b (2 ^ n)) by lia.
  rewrite <- !Z.land_ones by lia.
  rewrite <- Z.land_lor_distr_l, Z.land_ones by lia.
  apply Z.mod_pos_bound. lia.
Qed.

End IntFacts.
Import IntFacts.

(** ** [buf2u32] *)

Lemma buf2u32_range (buffer : Z -> Z) : 0 <= buf2u32 buffer < 2 ^ 32.
Proof.
  unfold buf2u32.
  repeat apply lor_range; try lia; apply u32_range.
Qed.

(** [buf2u32] reads its four bytes least significant first. *)
Lemma buf2u32_little_endian (buffer : Z -> Z) :
  (forall k, 0 <= buffer k < 256) ->
  buf2u32 buffer =
    buffer 0 + 2 ^ 8 * buffer 1 + 2 ^ 16 * buffer 2 + 2 ^ 24 * buffer 3.
Proof.
  intros Hb. unfold buf2u32.
  pose proof (Hb 0) as H0. pose proof (Hb 1) as H1.
  pose proof (Hb 2) as H2. pose proof (Hb 3) as H3.
  rewrite (u32_small (buffer 0)), (u32_small (buffer 1)),
    (u32_small (buffer 2)), (u32_small (buffer 3)) by lia.
  rewrite !Z.shiftl_mul_pow2 by lia.
  change (2 ^ 8) with 256. change (2 ^ 16) with 65536.
  change (2 ^ 24) with 16777216.
  rewrite (u32_small (buffer 3 * _)), (u32_small (buffer 2 * _)),
    (u32_small (buffer 1 * _)) by lia.
  replace (buffer 3 * 16777216) with (Z.shiftl (buffer 3) 24)
    by (rewrite Z.shiftl_mul_pow2 by lia; reflexivity).
  rewrite (lor_shiftl_add _ (buffer 2 * 65536) 24) by lia.
  replace (buffer 3 * 2 ^ 24 + buffer 2 * 65536)
    with (Z.shiftl (buffer 3 * 256 + buffer 2) 16)
    by (rewrite Z.shiftl_mul_pow2 by lia; lia).
  rewrite (lor_shiftl_add _ (buffer 1 * 256) 16) by lia.
  replace ((buffer 3 * 256 + buffer 2) * 2 ^ 16 + buffer 1 * 256)
    with (Z.shiftl (buffer 3 * 65536 + buffer 2 * 256 + buffer 1) 8)
    by (rewrite Z.shiftl_mul_pow2 by lia; lia).
  rewrite (lor_shiftl_add _ (buffer 0) 8) by lia.
  lia.
Qed.

(** ** The conversion of a 16-bit sample to 8 bits *)

Lemma u16_add_u16_l a b : u16 (u16 a + b) = u16 (a + b).
Proof. unfold u16. apply Zplus_mod_idemp_l. Qed.

(** C5.  [downscale] is a function of the sample alone.  For a signed
    16-bit sample [s], held in memory as the [u16] of the same bits, it
    adds 32768 with 16-bit wrap-around and keeps the upper 8 bits of the
    16-bit result, which is [(s + 32768) / 256].  It maps 0 to 128,
    -32768 to 0 and 32767 to 255. *)
Theorem downscale_bias_and_shift (s : Z) :
  -32768 <= s <= 32767 ->
  downscale (u16 s) = Z.shiftr (u16 (s + 32768)) 8 /\
  downscale (u16 s) = (s + 32768) / 256 /\
  (s = 0 -> downscale (u16 s) = 128) /\
  (s = -32768 -> downscale (u16 s) = 0) /\
  (s = 32767 -> downscale (u16 s) = 255).
Proof.
  intros Hs.
  assert (Hshift : downscale (u16 s) = Z.shiftr (u16 (s + 32768)) 8).
  { unfold downscale. rewrite u16_add_u16_l.
    apply u8_small.
    rewrite Z.shiftr_div_pow2 by lia.
    pose proof (u16_range (s + 32768)) as Hr.
    change (2 ^ 8) with 256.
    split; [apply Z.div_pos; lia | apply Z.div_lt_upper_bound; lia]. }
  assert (Hdiv : downscale (u16 s) = (s + 32768) / 256).
  { rewrite Hshift, u16_small by lia.
    rewrite Z.shiftr_div_pow2 by lia. reflexivity. }
  repeat split; try assumption; intros ->; reflexivity.
Qed.

Lemma downscale_bias_and_shift_witness :
  downscale (u16 0) = 128 /\
  downscale (u16 (-32768)) = 0 /\
  downscale (u16 32767) = 255.
Proof.
  split; [| split].
  - apply (downscale_bias_and_shift 0); [lia | reflexivity].
  - apply (downscale_bias_and_shift (-32768)); [lia | reflexivity].
  - apply (downscale_bias_and_shift 32767); [lia | reflexivity].
Defined.

(** ** The length of the second [uart_recv] of [recv_wav] *)

(** C9.  The byte count that [recv_wav] asks for after the header is
    the declared [overall_size] minus 4, computed in [unsigned int]: it
    is [overall_size - 4] whenever the field is at least 4, and a
    header that declares 44 yields 40. *)
Theorem receive_length_is_overall_size_minus_4 (m : Z -> Z) (file : Z) :
  let overall := buf2u32 (Wav.overall_size m file) in
  receive_length m file = u32 (overall - 4) /\
  (4 <= overall -> receive_length m file = overall - 4) /\
  (overall = 44 -> receive_length m file = 40).
Proof.
  intros overall. unfold receive_length. fold overall.
  pose proof (buf2u32_range (Wav.overall_size m file)) as Hr. fold overall in Hr.
  change (2 ^ 32) with 4294967296 in Hr.
  split; [reflexivity | split].
  - intros Hge. apply u32_small. lia.
  - intros ->. reflexivity.
Qed.

Lemma receive_length_is_overall_size_minus_4_witness :
  let m := bytes_at 0x80000000 [82; 73; 70; 70; 44; 0; 0; 0; 87; 65; 86; 69]
             (fun _ => 0) in
  buf2u32 (Wav.overall_size m 0x80000000) = 44 /\
  receive_length m 0x80000000 = 40.
Proof.
  intros m. split; [reflexivity |].
  apply (receive_length_is_overall_size_minus_4 m 0x80000000).
  reflexivity.
Defined.

(** ** The transition step of the main loop *)

(** C7.  The first [switch] of the main loop sets the mode to paused on
    a positive-edge mask of exactly 0x01, to receive on 0x04, to play
    on 0x08 and to the software tone on 0x10; on any other mask, sums
    of these bits included, it changes nothing. *)
Theorem mode_transition_table (pe : Z) (w : World) :
  exists w',
    mode_transition pe w = Some (tt, w') /\
    (pe = 0x01 -> mode w' = DEMO_MODE_PAUSED) /\
    (pe = 0x04 -> mode w' = DEMO_MODE_RECV_WAV_FILE) /\
    (pe = 0x08 -> mode w' = DEMO_MODE_PLAY_WAV_FILE) /\
    (pe = 0x10 -> mode w' = DEMO_MODE_SW_TONE_GEN) /\
    (pe <> 0x01 -> pe <> 0x04 -> pe <> 0x08 -> pe <> 0x10 -> w' = w).
Proof.
  unfold mode_transition.
  destruct (Z.eqb_spec pe 1) as [-> | H1];
    [eexists; split; [reflexivity | repeat split; intros; try lia; reflexivity] |].
  destruct (Z.eqb_spec pe 4) as [-> | H4];
    [eexists; split; [reflexivity | repeat split; intros; try lia; reflexivity] |].
  destruct (Z.eqb_spec pe 8) as [-> | H8];
    [eexists; split; [reflexivity | repeat split; intros; try lia; reflexivity] |].
  destruct (Z.eqb_spec pe 16) as [-> | H16];
    [eexists; split; [reflexivity | repeat split; intros; try lia; reflexivity] |].
  exists w. split; [reflexivity |].
  repeat split; intros; try lia; reflexivity.
Qed.

(** ** [play_wav] on a buffer that was never received *)

(** C6.  When the first byte of the buffer is zero, [play_wav] prints
    its two messages, sets the mode to paused and returns: the trace
    gains no transfer and no allocation, and memory, the input snapshot
    and the script are left as they were. *)
Theorem play_wav_nothing_received (file : Z) (w : World) :
  load8 (mem w) file = 0 ->
  play_wav file w =
    Some (tt,
          {| mode := DEMO_MODE_PAUSED;
             last := last w;
             mem := mem w;
             inputs := inputs w;
             trace := trace w ++
               [EvPrint "preparing for playback\r\n" [];
                EvPrint "Must receive a WAV file to be able to play\r\n" []] |}).
Proof.
  intros Hzero.
  cbv [play_wav mbind M_bind get_mem xil_printf emit].
  cbn [mem with_trace]. rewrite Hzero. cbn.
  rewrite <- app_assoc. reflexivity.
Qed.

Lemma play_wav_nothing_received_witness :
  let w := {| mode := DEMO_MODE_PLAY_WAV_FILE;
              last := mkGpioIn 8 0 8 0 0 0;
              mem := fun _ => 0;
              inputs := [0x80800000; 0; 0; 0; 1];
              trace := [] |} in
  (play_wav 0x80000000 w ≫= λ r, Some (mode r.2, inputs r.2, trace r.2)) =
    Some (DEMO_MODE_PAUSED, [0x80800000; 0; 0; 0; 1],
          [EvPrint "preparing for playback\r\n" [];
           EvPrint "Must receive a WAV file to be able to play\r\n" []]).
Proof.
  intros w.
  rewrite (play_wav_nothing_received 0x80000000 w); reflexivity.
Defined.

(** Runs one step of a computation on a world given by its fields. *)
Ltac monad_run :=
  cbv beta iota zeta delta
    [mbind M_bind mret M_ret emit input get_mem put_mem get_mode set_mode
     get_last set_last with_trace with_inputs with_mem with_mode with_last
     trace inputs mode last mem xil_printf Xil_DCacheFlushRange
     XAxiDma_SimpleTransfer XAxiDma_Busy XAxiDma_ReadReg XAxiDma_Reset
     XAxiDma_ResetIsDone XGpio_DiscreteRead XUartLite_ResetFifos malloc free
     sleep usleep negb].

Lemma loop_fuel_S {S A} fuel (body : S -> M (S + A)) s w :
  loop_fuel (Datatypes.S fuel) body s w =
  match body s w with
  | Some (inl s', w') => loop_fuel fuel body s' w'
  | Some (inr a, w') => Some (a, w')
  | None => None
  end.
Proof.
  cbn [loop_fuel]. unfold mbind, M_bind.
  destruct (body s w) as [[[s' | a] w'] |]; reflexivity.
Qed.

(** ** The fuel of [loop] *)

(** When the body consumes the script, more fuel than the script is
    long changes nothing: [loop] gives no [None] of its own. *)
Lemma loop_fuel_stable {S A} (body : S -> M (S + A)) :
  consumes body ->
  forall n s w fuel1 fuel2,
    (length (inputs w) <= n)%nat -> (n < fuel1)%nat -> (n < fuel2)%nat ->
    loop_fuel fuel1 body s w = loop_fuel fuel2 body s w.
Proof.
  intros Hbody. induction n as [| n IH]; intros s w fuel1 fuel2 Hw H1 H2;
    (destruct fuel1 as [| fuel1]; [lia |]);
    (destruct fuel2 as [| fuel2]; [lia |]);
    rewrite !loop_fuel_S;
    destruct (body s w) as [[[s' | a] w'] |] eqn:Hrun; try reflexivity;
    apply Hbody in Hrun.
  - lia.
  - apply IH; lia.
Qed.

Lemma loop_fuel_enough {S A} (body : S -> M (S + A)) s w fuel :
  consumes body ->
  (length (inputs w) < fuel)%nat ->
  loop_fuel fuel body s w = loop body s w.
Proof.
  intros Hbody Hfuel. unfold loop.
  apply (loop_fuel_stable body Hbody (length (inputs w))); lia.
Qed.

(** Steps that leave the script alone. *)
Ltac keeps_script_pure :=
  let Hrun := fresh "Hrun" in
  intros ? ? ? Hrun;
  cbv [mret M_ret emit get_mem put_mem get_mode set_mode get_last set_last]
    in Hrun;
  injection Hrun as <- <-; cbn; lia.

Lemma keeps_script_ret {A} (a : A) : keeps_script (mret a).
Proof. keeps_script_pure. Qed.

Lemma keeps_script_emit e : keeps_script (emit e).
Proof. keeps_script_pure. Qed.

Lemma uses_script_input : uses_script input.
Proof.
  intros w a w' Hrun. unfold input in Hrun.
  destruct (inputs w) as [| v rest] eqn:Hin; [discriminate |].
  injection Hrun as <- <-. cbn. lia.
Qed.

Lemma uses_keeps {A} (m : M A) : uses_script m -> keeps_script m.
Proof. intros Hm w a w' Hrun. apply Hm in Hrun. lia. Qed.

Lemma keeps_script_bind {A B} (m : M A) (k : A -> M B) :
  keeps_script m -> (forall a, keeps_script (k a)) -> keeps_script (m ≫= k).
Proof.
  intros Hm Hk w b w' Hrun. unfold mbind, M_bind in Hrun.
  destruct (m w) as [[a w1] |] eqn:Hfirst; [| discriminate].
  apply Hm in Hfirst. apply Hk in Hrun. lia.
Qed.

Lemma uses_script_bind_l {A B} (m : M A) (k : A -> M B) :
  uses_script m -> (forall a, keeps_script (k a)) -> uses_script (m ≫= k).
Proof.
  intros Hm Hk w b w' Hrun. unfold mbind, M_bind in Hrun.
  destruct (m w) as [[a w1] |] eqn:Hfirst; [| discriminate].
  apply Hm in Hfirst. apply Hk in Hrun. lia.
Qed.

Lemma uses_script_bind_r {A B} (m : M A) (k : A -> M B) :
  keeps_script m -> (forall a, uses_script (k a)) -> uses_script (m ≫= k).
Proof.
  intros Hm Hk w b w' Hrun. unfold mbind, M_bind in Hrun.
  destruct (m w) as [[a w1] |] eqn:Hfirst; [| discriminate].
  apply Hm in Hfirst. apply Hk in Hrun. lia.
Qed.

Lemma keeps_script_loop_fuel {S A} (body : S -> M (S + A)) :
  (forall s, keeps_script (body s)) ->
  forall fuel s, keeps_script (loop_fuel fuel body s).
Proof.
  intros Hbody fuel. induction fuel as [| fuel IH]; intros s w a w' Hrun.
  - discriminate.
  - rewrite loop_fuel_S in Hrun.
    destruct (body s w) as [[[s' | a'] w1] |] eqn:Hfirst; [| | discriminate].
    + apply Hbody in Hfirst. apply IH in Hrun. lia.
    + injection Hrun as <- <-. apply Hbody in Hfirst. lia.
Qed.

Lemma keeps_script_loop {S A} (body : S -> M (S + A)) s :
  (forall s, keeps_script (body s)) -> keeps_script (loop body s).
Proof.
  intros Hbody w a w' Hrun. unfold loop in Hrun.
  eapply keeps_script_loop_fuel; eauto.
Qed.

Create HintDb script.
#[local] Hint Resolve keeps_script_ret keeps_script_emit uses_script_input
  uses_keeps keeps_script_loop : script.

(** Solves [keeps_script] and [uses_script] goals for straight-line
    code; a bind that must use the script looks for the use on the left
    first. *)
Ltac script :=
  repeat first
    [ progress intros
    | solve [eauto with script]
    | apply keeps_script_bind
    | (apply uses_script_bind_l; solve [script])
    | apply uses_script_bind_r
    | match goal with |- context [if ?b then _ else _] => destruct b end ].

Lemma uses_script_Busy dir : uses_script (XAxiDma_Busy dir).
Proof. unfold XAxiDma_Busy. script. Qed.

Lemma uses_script_ResetIsDone : uses_script XAxiDma_ResetIsDone.
Proof. unfold XAxiDma_ResetIsDone. script. Qed.

Lemma uses_script_SimpleTransfer a l d :
  uses_script (XAxiDma_SimpleTransfer a l d).
Proof. unfold XAxiDma_SimpleTransfer. script. Qed.

Lemma uses_script_ReadReg off : uses_script (XAxiDma_ReadReg off).
Proof. unfold XAxiDma_ReadReg. script. Qed.

Lemma uses_script_DiscreteRead ch : uses_script (XGpio_DiscreteRead ch).
Proof. unfold XGpio_DiscreteRead. script. Qed.

Lemma uses_script_Recv1 p : uses_script (XUartLite_Recv1 p).
Proof.
  unfold XUartLite_Recv1.
  apply uses_script_bind_r; [script |]. intros _.
  apply uses_script_bind_l; [script |]. intros v.
  destruct ((0 <=? v) && (v <? 256)); [| script].
  apply keeps_script_bind; [keeps_script_pure |]. intros m.
  apply keeps_script_bind; [keeps_script_pure | script].
Qed.

#[local] Hint Resolve uses_script_Busy uses_script_ResetIsDone
  uses_script_SimpleTransfer uses_script_ReadReg uses_script_DiscreteRead
  uses_script_Recv1 : script.

Lemma consumes_poll_busy dir : consumes (poll_busy dir).
Proof.
  intros s w s' w' Hrun. revert Hrun. generalize (inl s' : unit + unit).
  intros r Hrun. revert w r w' Hrun.
  change (uses_script (poll_busy dir s)). unfold poll_busy. script.
Qed.

Lemma consumes_poll_reset_done : consumes poll_reset_done.
Proof.
  intros s w s' w' Hrun. revert Hrun. generalize (inl s' : unit + unit).
  intros r Hrun. revert w r w' Hrun.
  change (uses_script (poll_reset_done s)). unfold poll_reset_done. script.
Qed.

Lemma consumes_uart_recv_step buffer length : consumes (uart_recv_step buffer length).
Proof.
  intros s w s' w' Hrun. unfold uart_recv_step in Hrun.
  destruct (s <? length); [| discriminate].
  revert Hrun. generalize (inl s' : Z + Z). intros r Hrun.
  revert w r w' Hrun.
  change (uses_script
            (n ← XUartLite_Recv1 (ptr_add buffer s);
             mret (inl (u32 (s + n)) : Z + Z))).
  script.
Qed.

Lemma keeps_script_wait_not_busy dir : keeps_script (wait_not_busy dir).
Proof.
  unfold wait_not_busy. apply keeps_script_loop. intros s.
  apply uses_keeps. unfold poll_busy. script.
Qed.

#[local] Hint Resolve keeps_script_wait_not_busy : script.

Lemma uses_script_dma_send buffer length : uses_script (dma_send buffer length).
Proof.
  unfold dma_send, Xil_DCacheFlushRange, xil_printf.
  apply uses_script_bind_r; [script |]. intros _.
  apply uses_script_bind_l; [script |]. intros status.
  apply keeps_script_bind; [script |]. intros _.
  apply keeps_script_bind; [script |]. intros _.
  apply keeps_script_bind; [script |]. intros sr. script.
Qed.

Lemma keeps_script_get_gpio_data : keeps_script get_gpio_data.
Proof.
  unfold get_gpio_data.
  apply keeps_script_bind; [keeps_script_pure |]. intros l.
  apply keeps_script_bind; [script |]. intros b.
  apply keeps_script_bind; [script |]. intros sw.
  apply keeps_script_bind; [keeps_script_pure | script].
Qed.

Lemma consumes_send_until_button buffer length :
  consumes (send_until_button buffer length).
Proof.
  intros s w s' w' Hrun. revert Hrun. generalize (inl s' : unit + unit).
  intros r Hrun. revert w r w' Hrun.
  change (uses_script (send_until_button buffer length s)).
  unfold send_until_button.
  apply uses_script_bind_l; [apply uses_script_dma_send |]. intros status.
  apply keeps_script_bind; [apply keeps_script_get_gpio_data | script].
Qed.

(** ** The busy-wait and the two transfer functions *)

Section Transfers.

Variables (buffer len : Z).

Lemma busy_loop_fuel dir polls : forall fuel md l m idle rest tr,
  all_busy polls -> u32 idle = 0 -> (length polls < fuel)%nat ->
  loop_fuel fuel (poll_busy dir) tt
    (mkWorld md l m (polls ++ idle :: rest) tr) =
  Some (tt, mkWorld md l m rest
              (tr ++ replicate (S (length polls)) (EvBusy dir))).
Proof.
  induction polls as [| v polls IH]; intros fuel md l m idle rest tr Hbusy Hidle Hfuel.
  - destruct fuel as [| fuel]; [simpl in Hfuel; lia |].
    rewrite loop_fuel_S. unfold poll_busy. monad_run. cbn [app].
    rewrite Hidle. reflexivity.
  - destruct fuel as [| fuel]; [simpl in Hfuel; lia |].
    apply Forall_cons in Hbusy as [Hv Hbusy].
    rewrite loop_fuel_S. unfold poll_busy. monad_run. cbn [app].
    destruct (Z.eqb_spec (u32 v) 0) as [Heq | _]; [contradiction |].
    rewrite (IH fuel) by (simpl in Hfuel; auto with lia).
    rewrite <- app_assoc. reflexivity.
Qed.

Lemma wait_not_busy_returns dir polls md l m idle rest tr :
  all_busy polls -> u32 idle = 0 ->
  wait_not_busy dir (mkWorld md l m (polls ++ idle :: rest) tr) =
  Some (tt, mkWorld md l m rest
              (tr ++ replicate (S (length polls)) (EvBusy dir))).
Proof.
  intros Hbusy Hidle. unfold wait_not_busy, loop.
  apply busy_loop_fuel; auto.
  monad_run. rewrite length_app. simpl. lia.
Qed.

(** What [dma_send] does, for every answer of the hardware: the
    status of the kick-off decides one message and nothing else. *)
Lemma dma_send_run md l m tr status polls idle sr rest :
  all_busy polls -> u32 idle = 0 ->
  dma_send buffer len
    (mkWorld md l m (status :: polls ++ idle :: sr :: rest) tr) =
  Some (if Z.land (u32 sr) XAXIDMA_IRQ_ERROR_MASK =? 0
        then XST_SUCCESS else XST_FAILURE,
        mkWorld md l m rest
          (tr ++
           [EvCacheFlush buffer len;
            EvSimpleTransfer buffer len XAXIDMA_DMA_TO_DEVICE] ++
           (if u32 status =? XST_SUCCESS then []
            else [EvPrint "ERROR: failed to kick off MM2S transfer\r\n" []]) ++
           replicate (S (length polls)) (EvBusy XAXIDMA_DMA_TO_DEVICE) ++
           [EvReadReg (XAXIDMA_TX_OFFSET + XAXIDMA_SR_OFFSET)] ++
           (if Z.land (u32 sr) XAXIDMA_IRQ_ERROR_MASK =? 0
            then [EvCacheFlush buffer len]
            else [EvPrint
                    "ERROR: AXI DMA returned an error during the MM2S transfer\r\n"
                    []]))).
Proof.
  intros Hbusy Hidle. unfold dma_send.
  monad_run.
  destruct (u32 status =? XST_SUCCESS);
    monad_run;
    rewrite (wait_not_busy_returns _ polls) by assumption;
    monad_run;
    destruct (Z.land (u32 sr) XAXIDMA_IRQ_ERROR_MASK =? 0);
    monad_run;
    repeat rewrite <- app_assoc; reflexivity.
Qed.

(** What [dma_receive] does when the kick-off fails ... *)
Lemma dma_receive_kickoff_failure md l m tr status rest :
  u32 status <> XST_SUCCESS ->
  dma_receive buffer len (mkWorld md l m (status :: rest) tr) =
  Some (XST_FAILURE,
        mkWorld md l m rest
          (tr ++
           [EvCacheFlush buffer len;
            EvSimpleTransfer buffer len XAXIDMA_DEVICE_TO_DMA;
            EvPrint "ERROR: failed to kick off S2MM transfer\r\n" []])).
Proof.
  intros Hst. unfold dma_receive.
  monad_run.
  destruct (Z.eqb_spec (u32 status) XST_SUCCESS) as [Heq | _]; [contradiction |].
  monad_run.
  repeat rewrite <- app_assoc. reflexivity.
Qed.

(** ... and when it succeeds. *)
Lemma dma_receive_run md l m tr status polls idle sr rest :
  u32 status = XST_SUCCESS -> all_busy polls -> u32 idle = 0 ->
  dma_receive buffer len
    (mkWorld md l m (status :: polls ++ idle :: sr :: rest) tr) =
  Some (if Z.land (u32 sr) XAXIDMA_IRQ_ERROR_MASK =? 0
        then XST_SUCCESS else XST_FAILURE,
        mkWorld md l m rest
          (tr ++
           [EvCacheFlush buffer len;
            EvSimpleTransfer buffer len XAXIDMA_DEVICE_TO_DMA] ++
           replicate (S (length polls)) (EvBusy XAXIDMA_DEVICE_TO_DMA) ++
           [EvReadReg (XAXIDMA_RX_OFFSET + XAXIDMA_SR_OFFSET)] ++
           (if Z.land (u32 sr) XAXIDMA_IRQ_ERROR_MASK =? 0
            then [EvCacheFlush buffer len]
            else [EvPrint
                    "ERROR: AXI DMA returned an error during the S2MM transfer\r\n"
                    []]))).
Proof.
  intros Hst Hbusy Hidle. unfold dma_receive.
  monad_run.
  rewrite Hst, Z.eqb_refl.
  monad_run.
  rewrite (wait_not_busy_returns _ polls) by assumption.
  monad_run.
  destruct (Z.land (u32 sr) XAXIDMA_IRQ_ERROR_MASK =? 0);
    monad_run;
    repeat rewrite <- app_assoc; reflexivity.
Qed.

End Transfers.

(** C1.  On a refused kick-off with a clean status register [dma_send]
    returns [XST_SUCCESS]; [dma_receive], on the same answers, returns
    [XST_FAILURE]. *)
Theorem dma_send_refused_kickoff_returns_success :
  fst <$> dma_send 0x80800000 0 refused_kickoff = Some XST_SUCCESS /\
  fst <$> dma_receive 0x80800000 0 refused_kickoff = Some XST_FAILURE.
Proof. split; reflexivity. Qed.

(** C3.  On a refused kick-off [dma_send] goes on to the busy-wait and
    flushes the range a second time before it returns; [dma_receive]
    returns after the message, with the one flush that precedes the
    kick-off. *)
Theorem dma_send_refused_kickoff_flushes_again :
  (trace ∘ snd) <$> dma_send 0x80800000 0 refused_kickoff =
    Some [EvCacheFlush 0x80800000 0;
          EvSimpleTransfer 0x80800000 0 XAXIDMA_DMA_TO_DEVICE;
          EvPrint "ERROR: failed to kick off MM2S transfer\r\n" [];
          EvBusy XAXIDMA_DMA_TO_DEVICE;
          EvReadReg (XAXIDMA_TX_OFFSET + XAXIDMA_SR_OFFSET);
          EvCacheFlush 0x80800000 0] /\
  (trace ∘ snd) <$> dma_receive 0x80800000 0 refused_kickoff =
    Some [EvCacheFlush 0x80800000 0;
          EvSimpleTransfer 0x80800000 0 XAXIDMA_DEVICE_TO_DMA;
          EvPrint "ERROR: failed to kick off S2MM transfer\r\n" []].
Proof. split; reflexivity. Qed.

(** ** [dma_reset] *)

Lemma reset_loop_fuel pending : forall fuel md l m done rest tr,
  Forall (fun v => u32 v = 0) pending -> u32 done <> 0 ->
  (length pending < fuel)%nat ->
  loop_fuel fuel poll_reset_done tt
    (mkWorld md l m (pending ++ done :: rest) tr) =
  Some (tt, mkWorld md l m rest
              (tr ++ replicate (S (length pending)) EvResetIsDone)).
Proof.
  induction pending as [| v pending IH];
    intros fuel md l m done rest tr Hpending Hdone Hfuel;
    (destruct fuel as [| fuel]; [simpl in Hfuel; lia |]);
    rewrite loop_fuel_S; unfold poll_reset_done; monad_run; cbn [app].
  - destruct (Z.eqb_spec (u32 done) 0) as [Heq | _]; [contradiction |].
    reflexivity.
  - apply Forall_cons in Hpending as [Hv Hpending].
    rewrite Hv. cbn [Z.eqb].
    rewrite (IH fuel) by (simpl in Hfuel; auto with lia).
    rewrite <- app_assoc. reflexivity.
Qed.

Lemma dma_reset_returns pending md l m done rest tr :
  Forall (fun v => u32 v = 0) pending -> u32 done <> 0 ->
  dma_reset (mkWorld md l m (pending ++ done :: rest) tr) =
  Some (tt, mkWorld md l m rest
              (tr ++ EvDmaReset :: replicate (S (length pending)) EvResetIsDone)).
Proof.
  intros Hpending Hdone. unfold dma_reset. monad_run. unfold loop.
  rewrite reset_loop_fuel; auto.
  - rewrite <- app_assoc. reflexivity.
  - cbn [inputs]. rewrite length_app. simpl. lia.
Qed.

(** ** The offset of the data chunk *)

(** C2 as the specification states it fails: with a data-chunk offset beyond
    the length of the buffer [play_wav] reports no error; it reads the
    chunk size from beyond the buffer and transfers that many bytes,
    halved. *)
Lemma data_chunk_offset_beyond_buffer_accepted :
  let w := oversized_format_chunk in
  let file := 0x80000000 in
  12 + 8 + buf2u32 (Wav.fmt_chunk_size (mem w) (format_ptr file))
    > max_file_size /\
  (play_wav file w ≫= λ r, Some (mode r.2, trace r.2)) =
    Some (DEMO_MODE_PAUSED,
          [EvPrint "preparing for playback\r\n" [];
           EvMalloc 2;
           EvCacheFlush 0x81000000 2;
           EvSimpleTransfer 0x81000000 2 XAXIDMA_DMA_TO_DEVICE;
           EvBusy XAXIDMA_DMA_TO_DEVICE;
           EvReadReg (XAXIDMA_TX_OFFSET + XAXIDMA_SR_OFFSET);
           EvCacheFlush 0x81000000 2;
           EvPrint "sleep for a while\r\n" [];
           EvSleep 2;
           EvFree 0x81000000;
           EvDmaReset;
           EvResetIsDone;
           EvPrint "Exiting play mode\r\n" []]).
Proof. split; reflexivity. Qed.

(** C2, amended.  The data chunk is taken at [file + 12 + 8 +
    fmt_chunk_size], in the arithmetic of 32-bit pointers, whatever the
    length of the buffer; when the first byte of the buffer is not zero,
    [play_wav] reads the chunk size there and hands that many bytes,
    halved, to [dma_send], and it ends in the paused mode. *)
Theorem data_chunk_offset_unchecked
    (file : Z) (w : World) (dma_data status idle sr done : Z) (rest : list Z) :
  load8 (mem w) file <> 0 ->
  inputs w = dma_data :: status :: idle :: sr :: done :: rest ->
  u32 idle = 0 -> u32 done <> 0 ->
  let fmt_chunk_size := buf2u32 (Wav.fmt_chunk_size (mem w) (ptr_add file 12)) in
  let p_data := ptr_add file (12 + 8 + fmt_chunk_size) in
  let data_length := u32 (buf2u32 (Wav.data_chunk_size (mem w) p_data) * 1) / 2 in
  data_ptr (mem w) file = p_data /\
  exists w',
    play_wav file w = Some (tt, w') /\
    mode w' = DEMO_MODE_PAUSED /\
    inputs w' = rest /\
    EvSimpleTransfer (u32 dma_data) data_length XAXIDMA_DMA_TO_DEVICE
      ∈ trace w'.
Proof.
  intros Hfirst Hinputs Hidle Hdone fmt_chunk_size p_data data_length.
  assert (Hptr : data_ptr (mem w) file = p_data).
  { unfold data_ptr, format_ptr, p_data, fmt_chunk_size.
    rewrite ptr_add_u32_r, ptr_add_assoc. f_equal. lia. }
  split; [exact Hptr |].
  destruct w as [md l m ins tr]. cbn [mem inputs] in *. subst ins.
  unfold play_wav. monad_run.
  destruct (Z.eqb_spec (load8 m file) 0) as [Heq | _]; [contradiction |].
  monad_run.
  unfold dma_data_length. rewrite Hptr. fold data_length.
  rewrite (dma_send_run _ _ _ _ _ _ status [] idle sr (done :: rest))
    by (auto; constructor).
  monad_run.
  rewrite (dma_reset_returns [] _ _ _ done rest) by (auto; constructor).
  monad_run.
  eexists. split; [reflexivity |].
  cbn [mode inputs trace]. split; [reflexivity | split; [reflexivity |]].
  rewrite !elem_of_app. do 5 left. right. left.
  apply elem_of_cons. right. apply elem_of_cons. left. reflexivity.
Qed.

(** ** The word layout of the tone buffer *)

Lemma tone_sample_u8 sine_sample t : is_u8 (tone_sample sine_sample t).
Proof. apply u8_range. Qed.

Lemma pack_word_small hi lo :
  is_u8 hi -> is_u8 lo -> pack_word hi lo = hi * 256 + lo.
Proof.
  unfold is_u8, pack_word. intros Hhi Hlo.
  rewrite Z.shiftl_mul_pow2 by lia. change (2 ^ 8) with 256.
  apply u32_small. lia.
Qed.

Lemma pack_word_lor hi lo :
  is_u8 hi -> is_u8 lo -> pack_word hi lo = Z.lor (Z.shiftl hi 8) lo.
Proof.
  intros Hhi Hlo. rewrite pack_word_small by assumption.
  rewrite lor_shiftl_add by (unfold is_u8 in Hlo; lia). reflexivity.
Qed.

Lemma pack_word_range hi lo :
  is_u8 hi -> is_u8 lo -> 0 <= pack_word hi lo < 2 ^ 16.
Proof.
  intros Hhi Hlo. rewrite pack_word_small by assumption.
  unfold is_u8 in *. lia.
Qed.

Lemma unpack_low hi lo :
  is_u8 hi -> is_u8 lo -> Z.land (pack_word hi lo) 0xFF = lo.
Proof.
  intros Hhi Hlo. rewrite pack_word_small by assumption.
  unfold is_u8 in *.
  change 0xFF with (Z.ones 8). rewrite Z.land_ones by lia.
  change (2 ^ 8) with 256.
  rewrite Z.add_comm, Z_mod_plus_full. apply Z.mod_small. lia.
Qed.

Lemma unpack_high hi lo :
  is_u8 hi -> is_u8 lo -> Z.land (Z.shiftr (pack_word hi lo) 8) 0xFF = hi.
Proof.
  intros Hhi Hlo. rewrite pack_word_small by assumption.
  unfold is_u8 in *.
  rewrite Z.shiftr_div_pow2 by lia. change (2 ^ 8) with 256.
  rewrite Z.add_comm, Z_div_plus_full, (Z.div_small lo) by lia.
  change 0xFF with (Z.ones 8). rewrite Z.land_ones by lia.
  apply Z.mod_small. simpl. lia.
Qed.

(** Lists of [4 * k] samples, group by group. *)
Lemma groups_ind (P : list Z -> Prop) :
  P [] ->
  (forall s0 s1 s2 s3 rest, P rest -> P (s0 :: s1 :: s2 :: s3 :: rest)) ->
  forall samples, (length samples mod 4 = 0)%nat -> P samples.
Proof.
  intros Hnil Hgroup samples Hlen.
  assert (Hk : exists k, length samples = (4 * k)%nat).
  { exists (length samples / 4)%nat.
    pose proof (Nat.div_mod_eq (length samples) 4). lia. }
  destruct Hk as [k Hk]. clear Hlen. revert samples Hk.
  induction k as [| k IH]; intros samples Hk.
  - destruct samples; [exact Hnil | simpl in Hk; lia].
  - destruct samples as [| s0 [| s1 [| s2 [| s3 rest]]]]; simpl in Hk; try lia.
    apply Hgroup, IH. lia.
Qed.

Lemma pack_samples_app l1 l2 :
  (length l1 mod 4 = 0)%nat ->
  pack_samples (l1 ++ l2) = pack_samples l1 ++ pack_samples l2.
Proof.
  intros Hlen. pattern l1. apply groups_ind; [| | exact Hlen].
  - reflexivity.
  - intros s0 s1 s2 s3 rest IH. cbn [app pack_samples]. rewrite IH. reflexivity.
Qed.

Lemma length_pack_samples l :
  (length l mod 4 = 0)%nat ->
  (2 * length (pack_samples l) = length l)%nat.
Proof.
  intros Hlen. pattern l. apply groups_ind; [| | exact Hlen].
  - reflexivity.
  - intros s0 s1 s2 s3 rest IH. cbn [pack_samples length]. lia.
Qed.

Lemma pack_samples_u16 l :
  Forall is_u8 l -> Forall (fun w => 0 <= w < 2 ^ 16) (pack_samples l).
Proof.
  revert l. fix IH 1. intros l Hl.
  destruct l as [| s0 [| s1 [| s2 [| s3 rest]]]]; try constructor.
  - repeat (apply Forall_cons in Hl as [? Hl]).
    apply pack_word_range; assumption.
  - repeat (apply Forall_cons in Hl as [? Hl]).
    constructor; [apply pack_word_range; assumption | apply IH, Hl].
Qed.

(** C4.  For every sequence of 8-bit samples whose length is a multiple
    of 4, the words written for it are, group by group,
    [(s3<<8)|s2] and [(s1<<8)|s0], and reading them back under that
    layout gives the sequence again. *)
Theorem pack_unpack_roundtrip (samples : list Z) :
  Forall is_u8 samples ->
  (length samples mod 4 = 0)%nat ->
  pack_samples samples = pack_samples_spec samples /\
  unpack_words_spec (pack_samples samples) = samples.
Proof.
  intros Hu8 Hlen. revert Hu8. pattern samples.
  apply groups_ind; [| | exact Hlen].
  - intros _. split; reflexivity.
  - intros s0 s1 s2 s3 rest IH Hu8.
    repeat (apply Forall_cons in Hu8 as [? Hu8]).
    destruct (IH Hu8) as [IHpack IHunpack].
    cbn [pack_samples pack_samples_spec unpack_words_spec].
    rewrite IHpack at 1. rewrite IHunpack.
    rewrite !unpack_low, !unpack_high by assumption.
    rewrite !pack_word_lor by assumption.
    split; reflexivity.
Qed.

Lemma pack_unpack_roundtrip_witness :
  pack_samples [0x00; 0x01; 0x02; 0x03; 0xFF; 0x80; 0x7F; 0x10] =
    [0x0302; 0x0100; 0x107F; 0x80FF] /\
  unpack_words_spec [0x0302; 0x0100; 0x107F; 0x80FF] =
    [0x00; 0x01; 0x02; 0x03; 0xFF; 0x80; 0x7F; 0x10].
Proof.
  pose proof (pack_unpack_roundtrip
                [0x00; 0x01; 0x02; 0x03; 0xFF; 0x80; 0x7F; 0x10]) as H.
  destruct H as [_ Hunpack].
  - repeat constructor; unfold is_u8; lia.
  - reflexivity.
  - split; [reflexivity | exact Hunpack].
Defined.

(** ** The sample loop *)

Section ToneLoopFacts.

Variable sine_sample : Z -> Z.

Local Abbreviation sample_at := (tone_sample sine_sample).
Local Abbreviation body := (tone_body sine_sample).
Local Abbreviation inv := (tone_inv sine_sample).

Lemma of_nat_mod_4 q r :
  (r < 4)%nat -> Z.of_nat (4 * q + r) mod 4 = Z.of_nat r.
Proof.
  intros Hr. symmetry.
  apply (Z.mod_unique_pos _ _ (Z.of_nat q)); lia.
Qed.

(** The four branches of the body. *)
Lemma tone_body_store (k : nat) st :
  (k < 3)%nat -> tl_sample st mod 4 = Z.of_nat k ->
  body st =
    {| tl_sample := u16 (tl_sample st + 1);
       tl_time := tl_time st + 1;
       tl_temp := <[k := sample_at (tl_time st)]> (tl_temp st);
       tl_buffer := tl_buffer st;
       tl_i := tl_i st |}.
Proof.
  intros Hk Hmod. unfold tone_body. rewrite Hmod.
  destruct k as [| [| [| k]]]; [reflexivity .. | lia].
Qed.

Lemma tone_body_flush st :
  tl_sample st mod 4 = 3 ->
  body st =
    let temp3 := <[3%nat := sample_at (tl_time st)]> (tl_temp st) in
    {| tl_sample := u16 (tl_sample st + 1);
       tl_time := tl_time st + 1;
       tl_temp := temp3;
       tl_buffer :=
         <[Z.to_nat (tl_i st + 1) :=
             pack_word (temp3 !!! 1%nat) (temp3 !!! 0%nat)]>
           (<[Z.to_nat (tl_i st) :=
                pack_word (temp3 !!! 3%nat) (temp3 !!! 2%nat)]>
              (tl_buffer st));
       tl_i := tl_i st + 2 |}.
Proof.
  intros Hmod. unfold tone_body. rewrite Hmod. reflexivity.
Qed.

(** A pass that starts one of the first three samples of a group
    stores the sample in [temp] and leaves the buffer alone. *)
Lemma tone_inv_store q r st :
  (r < 3)%nat -> (4 * q + r < 256)%nat ->
  inv q r st -> inv q (S r) (body st).
Proof.
  intros Hr Hbound (Hsample & Htime & Hi & Hlen & Htemp & Hbuf).
  assert (Hmod : tl_sample st mod 4 = Z.of_nat r)
    by (rewrite Hsample; apply of_nat_mod_4; lia).
  rewrite (tone_body_store r) by assumption.
  unfold tone_inv. cbn [tl_sample tl_time tl_i tl_temp tl_buffer].
  split; [rewrite Hsample, u16_small by lia; lia |].
  split; [lia |].
  split; [assumption |].
  split; [rewrite length_insert; assumption |].
  split; [| assumption].
  intros j Hj.
  destruct (decide (j = r)) as [-> | Hne].
  - rewrite list_lookup_insert_eq by lia. rewrite Htime. reflexivity.
  - rewrite list_lookup_insert_ne by lia. apply Htemp. lia.
Qed.

Lemma tone_samples_group q :
  tone_samples sine_sample (4 * S q) =
  tone_samples sine_sample (4 * q) ++
    [sample_at (Z.of_nat (4 * q)); sample_at (Z.of_nat (4 * q + 1));
     sample_at (Z.of_nat (4 * q + 2)); sample_at (Z.of_nat (4 * q + 3))].
Proof.
  unfold tone_samples.
  replace (4 * S q)%nat with (4 * q + 4)%nat by lia.
  rewrite seq_app, fmap_app. cbn [seq fmap list_fmap Nat.add].
  repeat f_equal; lia.
Qed.

Lemma length_tone_samples n : length (tone_samples sine_sample n) = n.
Proof. unfold tone_samples. rewrite length_fmap, length_seq. reflexivity. Qed.

(** The pass for the fourth sample of a group writes the two words
    of the group after those of the groups before, and starts the
    next group. *)
Lemma tone_inv_flush q st :
  (4 * q + 3 < 256)%nat ->
  inv q 3 st -> inv (S q) 0 (body st).
Proof.
  intros Hbound (Hsample & Htime & Hi & Hlen & Htemp & Hbuf).
  assert (Hmod : tl_sample st mod 4 = 3)
    by (rewrite Hsample; apply (of_nat_mod_4 q 3); lia).
  rewrite tone_body_flush by assumption.
  unfold tone_inv. cbn zeta. cbn [tl_sample tl_time tl_i tl_temp tl_buffer].
  split; [rewrite Hsample, u16_small by lia; lia |].
  split; [lia |].
  split; [lia |].
  split; [rewrite length_insert; assumption |].
  split; [intros j Hj; lia |].
  rewrite list_lookup_total_insert_eq by lia.
  rewrite !list_lookup_total_insert_ne by lia.
  assert (Hslot : forall j, (j < 3)%nat ->
            tl_temp st !!! j = sample_at (Z.of_nat (4 * q + j)))
    by (intros j Hj; apply list_lookup_total_correct, Htemp, Hj).
  rewrite !Hslot by lia.
  rewrite Htime, Hi, Hbuf.
  set (done := pack_samples (tone_samples sine_sample (4 * q))).
  assert (Hdone : length done = (2 * q)%nat).
  { pose proof (length_pack_samples (tone_samples sine_sample (4 * q))) as H.
    rewrite length_tone_samples in H. unfold done.
    assert (H4 : ((4 * q) mod 4 = 0)%nat)
      by (rewrite Nat.mul_comm; apply Nat.Div0.mod_mul).
    specialize (H H4). lia. }
  replace (128 - 2 * q)%nat with (S (S (128 - 2 * S q))) by lia.
  replace (Z.to_nat (Z.of_nat (2 * q))) with (length done + 0)%nat by lia.
  replace (Z.to_nat (Z.of_nat (2 * q) + 1)) with (length done + 1)%nat by lia.
  rewrite !insert_app_r. cbn [replicate insert list_insert].
  rewrite tone_samples_group, pack_samples_app
    by (rewrite length_tone_samples, Nat.mul_comm; apply Nat.Div0.mod_mul).
  rewrite <- app_assoc. f_equal.
  replace (4 * q + 0)%nat with (4 * q)%nat by lia.
  reflexivity.
Qed.

Lemma tone_iter_S n st :
  tone_iter sine_sample (S n) st = body (tone_iter sine_sample n st).
Proof. reflexivity. Qed.

Lemma tone_iter_body n st :
  tone_iter sine_sample n (body st) = tone_iter sine_sample (S n) st.
Proof. unfold tone_iter. rewrite Nat.iter_succ_r. reflexivity. Qed.

(** The two counters after a pass, whichever branch it takes. *)
Lemma tone_body_counters st :
  tl_sample (body st) = u16 (tl_sample st + 1) /\
  tl_time (body st) = tl_time st + 1.
Proof.
  unfold tone_body.
  destruct (tl_sample st mod 4 =? 0); [split; reflexivity |].
  destruct (tl_sample st mod 4 =? 1); [split; reflexivity |].
  destruct (tl_sample st mod 4 =? 2); [split; reflexivity |].
  destruct (tl_sample st mod 4 =? 3); split; reflexivity.
Qed.

Lemma tone_iter_counters temp n :
  (n <= 256)%nat ->
  tl_sample (tone_iter sine_sample n (tone_init temp)) = Z.of_nat n /\
  tl_time (tone_iter sine_sample n (tone_init temp)) = Z.of_nat n.
Proof.
  induction n as [| n IH]; intros Hn; [split; reflexivity |].
  destruct (IH ltac:(lia)) as [Hsample Htime].
  rewrite tone_iter_S.
  destruct (tone_body_counters (tone_iter sine_sample n (tone_init temp)))
    as [-> ->].
  rewrite Hsample, Htime, u16_small by lia. lia.
Qed.

(** The loop makes exactly the passes for which the guard holds. *)
Lemma tone_loop_run k : forall fuel st,
  (forall j, (j < k)%nat -> tone_guard (tone_iter sine_sample j st) = true) ->
  tone_guard (tone_iter sine_sample k st) = false ->
  (k <= fuel)%nat ->
  tone_loop sine_sample fuel st = Some (tone_iter sine_sample k st).
Proof.
  induction k as [| k IH]; intros fuel st Hgo Hstop Hfuel.
  - change (tone_iter sine_sample 0 st) with st in Hstop.
    destruct fuel; cbn [tone_loop]; rewrite Hstop; reflexivity.
  - destruct fuel as [| fuel]; [lia |].
    pose proof (Hgo 0%nat ltac:(lia)) as Hfirst.
    change (tone_iter sine_sample 0 st) with st in Hfirst.
    cbn [tone_loop]. rewrite Hfirst.
    rewrite <- tone_iter_body. apply IH; [| | lia].
    + intros j Hj. rewrite tone_iter_body. apply Hgo. lia.
    + rewrite tone_iter_body. exact Hstop.
Qed.

Lemma tone_guard_iter temp n :
  (n <= 256)%nat ->
  tone_guard (tone_iter sine_sample n (tone_init temp)) =
    (Z.of_nat n <? 256) && (Z.of_nat n <? 48).
Proof.
  intros Hn. unfold tone_guard.
  destruct (tone_iter_counters temp n Hn) as [-> ->]. reflexivity.
Qed.

Lemma tone_loop_48_passes (temp_init : list Z) (fuel : nat) :
  (48 <= fuel)%nat ->
  exists st,
    tone_loop sine_sample fuel (tone_init temp_init) = Some st /\
    st = tone_iter sine_sample 48 (tone_init temp_init).
Proof.
  intros Hfuel. eexists. split; [| reflexivity].
  apply (tone_loop_run 48); [| | lia].
  - intros j Hj. rewrite tone_guard_iter by lia.
    apply andb_true_intro. split; apply Z.ltb_lt; lia.
  - rewrite tone_guard_iter by lia. reflexivity.
Qed.

(** C8.  The sample loop terminates: any fuel of at least 48 passes
    brings it to its end, after exactly 48 passes.  The guard holds
    before each of them and fails after the last, where [sample] and
    [time] are both 48, within the bound of 256 samples; [time] never
    leaves the integers that a [float] holds exactly.  The result
    does not depend on the values of the sine. *)
Theorem tone_loop_terminates_after_48 (temp_init : list Z) (fuel : nat) :
  (48 <= fuel)%nat ->
  exists st,
    tone_loop sine_sample fuel (tone_init temp_init) = Some st /\
    st = tone_iter sine_sample 48 (tone_init temp_init) /\
    (forall j, (j < 48)%nat ->
       tone_guard (tone_iter sine_sample j (tone_init temp_init)) = true) /\
    tone_guard st = false /\
    tl_sample st = 48 /\ tl_time st = 48 /\
    tl_sample st <= 256 /\ tl_time st < 2 ^ 24.
Proof.
  intros Hfuel.
  assert (Hgo : forall j, (j < 48)%nat ->
            tone_guard (tone_iter sine_sample j (tone_init temp_init)) = true).
  { intros j Hj. rewrite tone_guard_iter by lia.
    apply andb_true_intro. split; apply Z.ltb_lt; lia. }
  assert (Hstop :
            tone_guard (tone_iter sine_sample 48 (tone_init temp_init)) = false).
  { rewrite tone_guard_iter by lia. reflexivity. }
  destruct (tone_iter_counters temp_init 48 ltac:(lia)) as [Hsample Htime].
  eexists. split; [apply (tone_loop_run 48); assumption |].
  split; [reflexivity |].
  split; [exact Hgo |].
  split; [exact Hstop |].
  rewrite Hsample, Htime. repeat split; lia.
Qed.

Section InitialisedTemp.

Variable temp_init : list Z.
Hypothesis temp_init_length : length temp_init = 5%nat.

Lemma tone_inv_init : inv 0 0 (tone_init temp_init).
Proof.
  unfold tone_inv, tone_init. cbn [tl_sample tl_time tl_i tl_temp tl_buffer].
  repeat split; try reflexivity; try assumption.
  intros j Hj. lia.
Qed.

(** The invariant holds after any number of passes that the bound
    on [sample] allows. *)
Lemma tone_iter_inv n :
  (n <= 256)%nat ->
  inv (n / 4) (n mod 4) (tone_iter sine_sample n (tone_init temp_init)).
Proof.
  induction n as [| n IH]; intros Hn.
  - apply tone_inv_init.
  - rewrite tone_iter_S.
    specialize (IH ltac:(lia)).
    pose proof (Nat.div_mod_eq n 4) as Hdm.
    pose proof (Nat.mod_upper_bound n 4 ltac:(lia)) as Hr.
    pose proof (Nat.div_mod_eq (S n) 4) as Hdm'.
    pose proof (Nat.mod_upper_bound (S n) 4 ltac:(lia)) as Hr'.
    destruct (decide (n mod 4 = 3)%nat) as [H3 | Hlt].
    + replace (S n / 4)%nat with (S (n / 4)) by lia.
      replace (S n mod 4)%nat with 0%nat by lia.
      rewrite H3 in IH. apply tone_inv_flush; [lia | exact IH].
    + replace (S n / 4)%nat with (n / 4)%nat by lia.
      replace (S n mod 4)%nat with (S (n mod 4)) by lia.
      apply tone_inv_store; [lia | lia | exact IH].
Qed.

(** C10.  After [n] passes the buffer holds the words of the complete
    groups among the first [n] samples, in order, and behind them the
    zeros it was cleared to: the samples of an incomplete last group
    are in no word.  Every word of the buffer is a [u32] with the
    upper 16 bits clear, and the length that [dma_send] gets is 8
    bytes for each complete group. *)
Theorem tone_buffer_complete_groups (n : nat) :
  (n <= 256)%nat ->
  let st := tone_iter sine_sample n (tone_init temp_init) in
  tl_buffer st =
    pack_samples (tone_samples sine_sample (4 * (n / 4))) ++
    replicate (128 - 2 * (n / 4)) 0 /\
  Forall (fun w => 0 <= w < 2 ^ 32 /\ Z.shiftr w 16 = 0) (tl_buffer st) /\
  tone_send_length st = 8 * Z.of_nat (n / 4).
Proof.
  intros Hn st.
  destruct (tone_iter_inv n Hn) as (_ & _ & Hi & _ & _ & Hbuf).
  fold st in Hi, Hbuf.
  pose proof (Nat.div_mod_eq n 4) as Hdm.
  split; [exact Hbuf |]. split.
  - rewrite Hbuf. apply Forall_app. split.
    + eapply Forall_impl.
      * apply pack_samples_u16. unfold tone_samples.
        apply Forall_fmap, Forall_forall. intros k _.
        apply (tone_sample_u8 sine_sample (Z.of_nat k)).
      * intros w Hw. cbn beta in Hw. split; [lia |].
        rewrite Z.shiftr_div_pow2 by lia. apply Z.div_small. lia.
    + apply Forall_replicate. split; [lia | reflexivity].
  - unfold tone_send_length. rewrite Hi, u32_small by lia. lia.
Qed.

(** The loop as [dma_sw_tone_gen] runs it: 48 samples, 12 groups, 24
    words, 96 bytes. *)
Lemma tone_loop_result :
  exists st,
    tone_loop sine_sample 256 (tone_init temp_init) = Some st /\
    tl_buffer st =
      pack_samples (tone_samples sine_sample 48) ++ replicate 104 0 /\
    tone_send_length st = 96.
Proof.
  destruct (tone_loop_48_passes temp_init 256 ltac:(lia)) as (st & Hrun & ->).
  exists (tone_iter sine_sample 48 (tone_init temp_init)).
  split; [exact Hrun |].
  destruct (tone_iter_inv 48 ltac:(lia)) as (_ & _ & Hi & _ & _ & Hbuf).
  split; [exact Hbuf |].
  unfold tone_send_length. rewrite Hi. reflexivity.
Qed.

End InitialisedTemp.

End ToneLoopFacts.

Lemma tone_loop_terminates_after_48_witness :
  exists st,
    tone_loop sine_table 256 (tone_init [0; 0; 0; 0; 0]) = Some st /\
    tl_sample st = 48 /\ tl_time st = 48.
Proof.
  destruct (tone_loop_terminates_after_48 sine_table [0; 0; 0; 0; 0] 256)
    as (st & Hrun & _ & _ & _ & Hsample & Htime & _).
  - lia.
  - exists st. auto.
Defined.

Lemma tone_buffer_complete_groups_witness :
  let st := tone_iter sine_table 7 (tone_init [0; 0; 0; 0; 0]) in
  tl_buffer st = [0xAF9F; 0x8F7F] ++ replicate 126 0 /\
  tone_send_length st = 8.
Proof.
  destruct (tone_buffer_complete_groups sine_table [0; 0; 0; 0; 0] eq_refl 7)
    as (Hbuf & _ & Hlen).
  - lia.
  - split; [exact Hbuf | exact Hlen].
Defined.

(** A run of [dma_sw_tone_gen]: the buffer is sent twice, 96 bytes each
    time, until the centre button is pressed; then the cleared buffer
    is sent whole. *)
Lemma dma_sw_tone_gen_run :
  let w := {| mode := DEMO_MODE_SW_TONE_GEN;
              last := mkGpioIn 0 0 0 0 0 0;
              mem := fun _ => 0;
              inputs := [0x80900000; 0; 0; 0; 0; 0; 0; 1; 0; 0; 1; 0; 0; 0; 0; 1];
              trace := [] |} in
  (dma_sw_tone_gen sine_table [0; 0; 0; 0; 0] w ≫= λ r, Some (mode r.2, inputs r.2, trace r.2)) =
  Some (DEMO_MODE_PAUSED, [],
        [EvMalloc 512; EvMemset 0x80900000 0 512; EvUsleep 10000;
         EvCacheFlush 0x80900000 96;
         EvSimpleTransfer 0x80900000 96 XAXIDMA_DMA_TO_DEVICE;
         EvBusy XAXIDMA_DMA_TO_DEVICE; EvReadReg 4;
         EvCacheFlush 0x80900000 96;
         EvGpioRead 1; EvGpioRead 2;
         EvCacheFlush 0x80900000 96;
         EvSimpleTransfer 0x80900000 96 XAXIDMA_DMA_TO_DEVICE;
         EvBusy XAXIDMA_DMA_TO_DEVICE; EvBusy XAXIDMA_DMA_TO_DEVICE;
         EvReadReg 4; EvCacheFlush 0x80900000 96;
         EvGpioRead 1; EvGpioRead 2;
         EvPrint "Exiting SW tone gen mode\r\n" [];
         EvMemset 0x80900000 0 512;
         EvCacheFlush 0x80900000 512;
         EvSimpleTransfer 0x80900000 512 XAXIDMA_DMA_TO_DEVICE;
         EvBusy XAXIDMA_DMA_TO_DEVICE; EvReadReg 4;
         EvCacheFlush 0x80900000 512;
         EvFree 0x80900000; EvDmaReset; EvResetIsDone]).
Proof. vm_compute. reflexivity. Qed.

Lemma data_chunk_offset_unchecked_witness :
  data_ptr (mem oversized_format_chunk) 0x80000000 = 0x80800014 /\
  exists w',
    play_wav 0x80000000 oversized_format_chunk = Some (tt, w') /\
    mode w' = DEMO_MODE_PAUSED /\
    inputs w' = [] /\
    EvSimpleTransfer 0x81000000 2 XAXIDMA_DMA_TO_DEVICE ∈ trace w'.
Proof.
  apply (data_chunk_offset_unchecked
           0x80000000 oversized_format_chunk 0x81000000 0 0 0 1 []).
  - vm_compute. discriminate.
  - reflexivity.
  - reflexivity.
  - vm_compute. discriminate.
Defined.

Lemma mode_transition_table_witness :
  let w := {| mode := DEMO_MODE_SW_TONE_GEN;
              last := mkGpioIn 5 0 5 0 0 0;
              mem := fun _ => 0;
              inputs := [];
              trace := [] |} in
  mode_transition 0x05 w = Some (tt, w) /\
  (mode_transition 0x08 w ≫= λ r, Some (mode r.2)) = Some DEMO_MODE_PLAY_WAV_FILE.
Proof.
  intros w. split.
  - destruct (mode_transition_table 0x05 w) as (w' & Hrun & _ & _ & _ & _ & Hsame).
    rewrite Hrun, Hsame by lia. reflexivity.
  - destruct (mode_transition_table 0x08 w) as (w' & Hrun & _ & _ & Hplay & _).
    rewrite Hrun. cbn. rewrite Hplay by reflexivity. reflexivity.
Defined.

(** ** Receiving and playing a file *)

(** [recv_wav] on the 52-byte file: after the 12 bytes of the header it
    asks the UART for the 40 that the header announces, prints the
    fields, and plays the four samples, downscaled to 128, 0, 255 and
    129. *)
Lemma recv_wav_minimal_file :
  (recv_wav 0x80000000 receiving_minimal_wav ≫= λ r,
     Some (mode r.2, inputs r.2, drop 56 (trace r.2),
           (mem r.2 0x81000000, mem r.2 0x81000001,
            mem r.2 0x81000002, mem r.2 0x81000003))) =
  Some (DEMO_MODE_PAUSED, [],
        [EvPrint "file info: \r\n" [];
         EvPrint "  header:\r\n" [];
         EvPrint "    riff: '%s'\r\n" [ArgStr [82; 73; 70; 70; 0]];
         EvPrint "    overall_size: %d\r\n" [ArgInt 44];
         EvPrint "    wave: '%s'\r\n" [ArgStr [87; 65; 86; 69; 0]];
         EvPrint "  format:\r\n" [];
         EvPrint "    fmt_chunk_marker: '%s'\r\n" [ArgStr [102; 109; 116; 32; 0]];
         EvPrint "    fmt_chunk_size: %d\r\n" [ArgInt 16];
         EvPrint "    format_type: %d\r\n" [ArgInt 1];
         EvPrint "    channels: %d\r\n" [ArgInt 1];
         EvPrint "    sample_rate: %d\r\n" [ArgInt 16000];
         EvPrint "    byte_rate: %d\r\n" [ArgInt 32000];
         EvPrint "    block_align: %d\r\n" [ArgInt 2];
         EvPrint "    bits_per_sample: %d\r\n" [ArgInt 16];
         EvPrint "  data:\r\n" [];
         EvPrint "    fmt_chunk_marker: '%s'\r\n" [ArgStr [100; 97; 116; 97; 0]];
         EvPrint "    data_chunk_size: %d\r\n" [ArgInt 8];
         EvPrint "preparing for playback\r\n" [];
         EvMalloc 4;
         EvCacheFlush 0x81000000 4;
         EvSimpleTransfer 0x81000000 4 XAXIDMA_DMA_TO_DEVICE;
         EvBusy XAXIDMA_DMA_TO_DEVICE;
         EvReadReg 4;
         EvCacheFlush 0x81000000 4;
         EvPrint "sleep for a while\r\n" [];
         EvSleep 2;
         EvFree 0x81000000;
         EvDmaReset;
         EvResetIsDone;
         EvPrint "Exiting play mode\r\n" [];
         EvPrint "Exiting receive mode\r\n" []],
        (128, 0, 255, 129)).
Proof. vm_compute. reflexivity. Qed.

(** The edges that [get_gpio_data] reports: buttons 0 and 2 go down
    between two polls, and are released before the next. *)
Lemma get_gpio_data_edges :
  let w := {| mode := DEMO_MODE_PAUSED;
              last := mkGpioIn 0 0 0 0 0 0;
              mem := fun _ => 0;
              inputs := [5; 0; 0; 0];
              trace := [] |} in
  ((first ← get_gpio_data; second ← get_gpio_data;
    mret (button_pe first, button_ne first,
          button_pe second, button_ne second)) w ≫= λ r, Some r.1) =
  Some (5, 0, 0, 5).
Proof. vm_compute. reflexivity. Qed.

(** * Further properties *)

(** ** Runs of a bind, and of the loops *)

Lemma bind_Some {A B} (m : M A) (k : A -> M B) w b w' :
  (m ≫= k) w = Some (b, w') ->
  exists a w1, m w = Some (a, w1) /\ k a w1 = Some (b, w').
Proof.
  unfold mbind, M_bind. intros Hrun.
  destruct (m w) as [[a w1] |]; [eauto | discriminate].
Qed.

(** A loop that returns has left through an [inr] of its body; what
    holds before the loop and is kept by each round holds then. *)
Lemma loop_fuel_inv {S A} (body : S -> M (S + A)) (I : S -> World -> Prop) :
  (forall s w s' w', I s w -> body s w = Some (inl s', w') -> I s' w') ->
  forall fuel s w a w',
    I s w -> loop_fuel fuel body s w = Some (a, w') ->
    exists s1 w1, I s1 w1 /\ body s1 w1 = Some (inr a, w').
Proof.
  intros Hstep fuel. induction fuel as [| fuel IH]; intros s w a w' Hinv Hrun.
  - discriminate.
  - rewrite loop_fuel_S in Hrun.
    destruct (body s w) as [[[s' | a'] w1] |] eqn:Hbody; [| | discriminate].
    + eapply IH; [| exact Hrun]. eapply Hstep; eauto.
    + injection Hrun as <- <-. eauto.
Qed.

Lemma loop_inv {S A} (body : S -> M (S + A)) (I : S -> World -> Prop) s w a w' :
  (forall s w s' w', I s w -> body s w = Some (inl s', w') -> I s' w') ->
  I s w -> loop body s w = Some (a, w') ->
  exists s1 w1, I s1 w1 /\ body s1 w1 = Some (inr a, w').
Proof. intros Hstep Hinv Hrun. eapply loop_fuel_inv; eauto. Qed.


(** ** What the primitives add to the trace and do to the mode *)

(** Steps that touch neither the script nor the trace. *)
Ltac state_step :=
  let Hrun := fresh "Hrun" in
  intros ? ? ? Hrun;
  cbv [mret M_ret get_mem put_mem get_mode set_mode get_last set_last] in Hrun;
  injection Hrun as <- <-.

Lemma emits_ret {A} P (a : A) : emits P (mret a).
Proof. state_step. exists []. rewrite app_nil_r. auto. Qed.

Lemma emits_get_mem P : emits P get_mem.
Proof. state_step. exists []. rewrite app_nil_r. auto. Qed.

Lemma emits_put_mem P m : emits P (put_mem m).
Proof. state_step. exists []. cbn. rewrite app_nil_r. auto. Qed.

Lemma emits_get_mode P : emits P get_mode.
Proof. state_step. exists []. rewrite app_nil_r. auto. Qed.

Lemma emits_set_mode P d : emits P (set_mode d).
Proof. state_step. exists []. cbn. rewrite app_nil_r. auto. Qed.

Lemma emits_get_last P : emits P get_last.
Proof. state_step. exists []. rewrite app_nil_r. auto. Qed.

Lemma emits_set_last P g : emits P (set_last g).
Proof. state_step. exists []. cbn. rewrite app_nil_r. auto. Qed.

Lemma emits_emit (P : Event -> Prop) e : P e -> emits P (emit e).
Proof.
  intros He w a w' Hrun. unfold emit in Hrun. injection Hrun as <- <-.
  exists [e]. cbn. auto.
Qed.

Lemma emits_input P : emits P input.
Proof.
  intros w a w' Hrun. unfold input in Hrun.
  destruct (inputs w); [discriminate |]. injection Hrun as <- <-.
  exists []. cbn. rewrite app_nil_r. auto.
Qed.

Lemma emits_bind {A B} P (m : M A) (k : A -> M B) :
  emits P m -> (forall a, emits P (k a)) -> emits P (m ≫= k).
Proof.
  intros Hm Hk w b w' Hrun.
  apply bind_Some in Hrun as (a & w1 & Hfirst & Hrest).
  apply Hm in Hfirst as (t1 & Ht1 & HP1).
  apply Hk in Hrest as (t2 & Ht2 & HP2).
  exists (t1 ++ t2). rewrite Ht2, Ht1, app_assoc.
  split; [reflexivity | apply Forall_app; auto].
Qed.

Lemma emits_loop_fuel {S A} P (body : S -> M (S + A)) :
  (forall s, emits P (body s)) ->
  forall fuel s, emits P (loop_fuel fuel body s).
Proof.
  intros Hbody fuel. induction fuel as [| fuel IH]; intros s w a w' Hrun.
  - discriminate.
  - rewrite loop_fuel_S in Hrun.
    destruct (body s w) as [[[s' | a'] w1] |] eqn:Hfirst; [| | discriminate].
    + apply Hbody in Hfirst as (t1 & Ht1 & HP1).
      apply IH in Hrun as (t2 & Ht2 & HP2).
      exists (t1 ++ t2). rewrite Ht2, Ht1, app_assoc.
      split; [reflexivity | apply Forall_app; auto].
    + injection Hrun as <- <-. apply Hbody in Hfirst. exact Hfirst.
Qed.

Lemma emits_loop {S A} P (body : S -> M (S + A)) s :
  (forall s, emits P (body s)) -> emits P (loop body s).
Proof. intros Hbody w a w' Hrun. eapply emits_loop_fuel; eauto. Qed.

Lemma emits_mono {A} (P Q : Event -> Prop) (m : M A) :
  (forall e, P e -> Q e) -> emits P m -> emits Q m.
Proof.
  intros HPQ Hm w a w' Hrun. apply Hm in Hrun as (t & Ht & HP).
  exists t. split; [exact Ht | eapply Forall_impl; eauto].
Qed.

Lemma keeps_bind {B A C} (f : World -> B) (m : M A) (k : A -> M C) :
  keeps f m -> (forall a, keeps f (k a)) -> keeps f (m ≫= k).
Proof.
  intros Hm Hk w b w' Hrun.
  apply bind_Some in Hrun as (a & w1 & Hfirst & Hrest).
  apply Hm in Hfirst. apply Hk in Hrest. congruence.
Qed.

Lemma keeps_loop {B S A} (f : World -> B) (body : S -> M (S + A)) s :
  (forall s, keeps f (body s)) -> keeps f (loop body s).
Proof.
  intros Hbody w a w' Hrun.
  apply (loop_inv body (fun _ w1 => f w1 = f w)) in Hrun
    as (s1 & w1 & Hsame & Hlast).
  - apply Hbody in Hlast. congruence.
  - intros s0 w0 s' w0' Hsame Hstep. apply Hbody in Hstep. congruence.
  - reflexivity.
Qed.

(** The steps that change one field of the state keep the others. *)
Ltac keeps_field :=
  let Hrun := fresh "Hrun" in
  intros ? ? ? Hrun;
  cbv [mret M_ret emit input get_mem put_mem get_mode set_mode get_last
       set_last] in Hrun;
  try match type of Hrun with
      | match inputs ?w with _ => _ end = _ =>
          destruct (inputs w); [discriminate |]
      end;
  injection Hrun as <- <-; reflexivity.

Lemma ends_paused_set_mode : ends_paused (set_mode DEMO_MODE_PAUSED).
Proof. state_step. reflexivity. Qed.

Lemma ends_paused_bind_r {A B} (m : M A) (k : A -> M B) :
  (forall a, ends_paused (k a)) -> ends_paused (m ≫= k).
Proof.
  intros Hk w b w' Hrun.
  apply bind_Some in Hrun as (a & w1 & _ & Hrest). eapply Hk; eauto.
Qed.

Lemma ends_paused_bind_l {A B} (m : M A) (k : A -> M B) :
  ends_paused m -> (forall a, keeps mode (k a)) -> ends_paused (m ≫= k).
Proof.
  intros Hm Hk w b w' Hrun.
  apply bind_Some in Hrun as (a & w1 & Hfirst & Hrest).
  apply Hm in Hfirst. apply Hk in Hrest. congruence.
Qed.

Create HintDb runs.
#[local] Hint Resolve emits_ret emits_get_mem emits_put_mem emits_get_mode
  emits_set_mode emits_get_last emits_set_last emits_input
  ends_paused_set_mode : runs.
#[local] Hint Extern 1 (keeps _ _) => solve [keeps_field] : runs.
#[local] Hint Extern 1 (emits _ (emit _)) =>
  apply emits_emit; exact I : runs.

(** Walks through straight-line code, bind by bind and branch by
    branch. *)
Ltac walk :=
  repeat first
    [ progress intros
    | solve [eauto with runs]
    | apply emits_bind
    | apply keeps_bind
    | apply emits_loop
    | apply keeps_loop
    | match goal with
      | |- context [if ?b then _ else _] => destruct b
      | |- context [match ?x with _ => _ end] => destruct x
      end ].

Lemma emits_Busy dir : emits not_s2mm (XAxiDma_Busy dir).
Proof. unfold XAxiDma_Busy. walk. Qed.


Lemma emits_SimpleTransfer_send P a l :
  P (EvSimpleTransfer a l XAXIDMA_DMA_TO_DEVICE) ->
  emits P (XAxiDma_SimpleTransfer a l XAXIDMA_DMA_TO_DEVICE).
Proof.
  intros HP. unfold XAxiDma_SimpleTransfer.
  apply emits_bind; [apply emits_emit, HP | walk].
Qed.


(** ** The mode after an action *)

Section ModeAndTrace.

Variable sine_sample : Z -> Z.
Variable temp_init : list Z.

Lemma keeps_mode_wait_not_busy dir : keeps mode (wait_not_busy dir).
Proof. unfold wait_not_busy, poll_busy, XAxiDma_Busy. walk. Qed.

Lemma keeps_mode_dma_send buffer len : keeps mode (dma_send buffer len).
Proof.
  pose proof keeps_mode_wait_not_busy.
  unfold dma_send, Xil_DCacheFlushRange, XAxiDma_SimpleTransfer,
    XAxiDma_ReadReg, xil_printf.
  walk.
Qed.

Lemma keeps_mode_dma_reset : keeps mode dma_reset.
Proof.
  unfold dma_reset, poll_reset_done, XAxiDma_Reset, XAxiDma_ResetIsDone. walk.
Qed.

Lemma keeps_mode_get_gpio_data : keeps mode get_gpio_data.
Proof. unfold get_gpio_data, XGpio_DiscreteRead. walk. Qed.

Lemma keeps_mode_memset a v l : keeps mode (memset a v l).
Proof. unfold memset. walk. Qed.

Lemma keeps_mode_uart_recv buffer len : keeps mode (uart_recv buffer len).
Proof. unfold uart_recv, uart_recv_step, XUartLite_Recv1. walk. Qed.

Lemma ends_paused_play_wav file : ends_paused (play_wav file).
Proof.
  pose proof keeps_mode_dma_send. pose proof keeps_mode_dma_reset.
  unfold play_wav.
  apply ends_paused_bind_r. intros m.
  apply ends_paused_bind_r. intros _.
  destruct (load8 m file =? 0).
  - apply ends_paused_bind_r. intros _. apply ends_paused_set_mode.
  - do 7 (apply ends_paused_bind_r; intros ?).
    apply ends_paused_bind_l; [apply ends_paused_set_mode |].
    unfold xil_printf. walk.
Qed.

Lemma ends_paused_recv_wav file : ends_paused (recv_wav file).
Proof.
  unfold recv_wav. destruct (file =? 0).
  - apply ends_paused_bind_r. intros _. apply ends_paused_set_mode.
  - do 24 (apply ends_paused_bind_r; intros ?).
    apply ends_paused_bind_l; [apply ends_paused_play_wav |].
    unfold xil_printf. walk.
Qed.

Lemma ends_paused_dma_sw_tone_gen :
  ends_paused (dma_sw_tone_gen sine_sample temp_init).
Proof.
  pose proof keeps_mode_dma_send. pose proof keeps_mode_dma_reset.
  pose proof keeps_mode_memset.
  unfold dma_sw_tone_gen.
  do 3 (apply ends_paused_bind_r; intros ?).
  destruct (tone_loop sine_sample 256 (tone_init temp_init));
    [| intros ? ? ? Hrun; discriminate].
  do 3 (apply ends_paused_bind_r; intros ?).
  apply ends_paused_bind_l; [apply ends_paused_set_mode |].
  unfold xil_printf, free. walk.
Qed.

End ModeAndTrace.


(** ** Every returning run of the busy-wait, of the reset and of the
    transfers *)

Ltac monad_run_in H :=
  cbv beta iota zeta delta
    [mbind M_bind mret M_ret emit input get_mem put_mem get_mode set_mode
     get_last set_last with_trace with_inputs with_mem with_mode with_last
     trace inputs mode last mem xil_printf Xil_DCacheFlushRange
     XAxiDma_SimpleTransfer XAxiDma_Busy XAxiDma_ReadReg XAxiDma_Reset
     XAxiDma_ResetIsDone XGpio_DiscreteRead XUartLite_ResetFifos malloc free
     sleep usleep negb] in H.

Lemma busy_loop_fuel_inv dir : forall fuel w w',
  loop_fuel fuel (poll_busy dir) tt w = Some (tt, w') ->
  exists polls idle,
    inputs w = polls ++ idle :: inputs w' /\
    all_busy polls /\ u32 idle = 0 /\
    w' = mkWorld (mode w) (last w) (mem w) (inputs w')
           (trace w ++ replicate (S (length polls)) (EvBusy dir)).
Proof.
  induction fuel as [| fuel IH]; intros w w' Hrun; [discriminate |].
  rewrite loop_fuel_S in Hrun. destruct w as [md l m ins tr].
  unfold poll_busy in Hrun at 1. monad_run_in Hrun.
  destruct ins as [| v rest]; [discriminate |].
  destruct (Z.eqb_spec (u32 v) 0) as [Hidle | Hbusy].
  - injection Hrun as <-. exists [], v. cbn. auto using Forall_nil.
    repeat split; auto. constructor.
  - apply IH in Hrun as (polls & idle & Hins & Hpolls & Hidle & ->).
    cbn [inputs mode last mem trace] in *.
    exists (v :: polls), idle. cbn [app length]. rewrite Hins.
    repeat split; auto.
    + constructor; assumption.
    + rewrite <- app_assoc. reflexivity.
Qed.

Lemma wait_not_busy_inv dir w w' :
  wait_not_busy dir w = Some (tt, w') ->
  exists polls idle,
    inputs w = polls ++ idle :: inputs w' /\
    all_busy polls /\ u32 idle = 0 /\
    w' = mkWorld (mode w) (last w) (mem w) (inputs w')
           (trace w ++ replicate (S (length polls)) (EvBusy dir)).
Proof. apply busy_loop_fuel_inv. Qed.

Lemma reset_loop_fuel_inv : forall fuel w w',
  loop_fuel fuel poll_reset_done tt w = Some (tt, w') ->
  exists pending done,
    inputs w = pending ++ done :: inputs w' /\
    all_pending pending /\ u32 done <> 0 /\
    w' = mkWorld (mode w) (last w) (mem w) (inputs w')
           (trace w ++ replicate (S (length pending)) EvResetIsDone).
Proof.
  induction fuel as [| fuel IH]; intros w w' Hrun; [discriminate |].
  rewrite loop_fuel_S in Hrun. destruct w as [md l m ins tr].
  unfold poll_reset_done in Hrun at 1. monad_run_in Hrun.
  destruct ins as [| v rest]; [discriminate |].
  destruct (Z.eqb_spec (u32 v) 0) as [Hpending | Hdone].
  - apply IH in Hrun as (pending & done & Hins & Hall & Hdone & ->).
    cbn [inputs mode last mem trace] in *.
    exists (v :: pending), done. cbn [app length]. rewrite Hins.
    repeat split; auto.
    + constructor; assumption.
    + rewrite <- app_assoc. reflexivity.
  - injection Hrun as <-. exists [], v. cbn.
    repeat split; auto. constructor.
Qed.

Lemma dma_reset_inv w w' :
  dma_reset w = Some (tt, w') ->
  exists pending done,
    inputs w = pending ++ done :: inputs w' /\
    all_pending pending /\ u32 done <> 0 /\
    w' = mkWorld (mode w) (last w) (mem w) (inputs w')
           (trace w ++ EvDmaReset :: replicate (S (length pending)) EvResetIsDone).
Proof.
  intros Hrun. destruct w as [md l m ins tr].
  unfold dma_reset in Hrun. monad_run_in Hrun.
  apply reset_loop_fuel_inv in Hrun as (pending & done & Hins & Hall & Hdone & ->).
  cbn [inputs mode last mem trace] in *.
  exists pending, done. repeat split; auto.
  rewrite <- app_assoc. reflexivity.
Qed.

(** The script of a returning run of [dma_send] is the answer to the
    kick-off, the polls of the busy flag and the status register. *)
Lemma dma_send_inv buffer len w r w' :
  dma_send buffer len w = Some (r, w') ->
  exists status polls idle sr,
    inputs w = status :: polls ++ idle :: sr :: inputs w' /\
    all_busy polls /\ u32 idle = 0.
Proof.
  intros Hrun. destruct w as [md l m ins tr].
  unfold dma_send in Hrun. monad_run_in Hrun.
  destruct ins as [| status rest]; [discriminate |].
  assert (Hwait : exists w1,
             wait_not_busy XAXIDMA_DMA_TO_DEVICE
               (mkWorld md l m rest
                  (if u32 status =? XST_SUCCESS
                   then (tr ++ [EvCacheFlush buffer len]) ++
                        [EvSimpleTransfer buffer len XAXIDMA_DMA_TO_DEVICE]
                   else ((tr ++ [EvCacheFlush buffer len]) ++
                         [EvSimpleTransfer buffer len XAXIDMA_DMA_TO_DEVICE]) ++
                        [EvPrint "ERROR: failed to kick off MM2S transfer\r\n" []]))
             = Some (tt, w1) /\ exists sr, inputs w1 = sr :: inputs w').
  { destruct (u32 status =? XST_SUCCESS); monad_run_in Hrun;
      match type of Hrun with
      | match wait_not_busy ?d ?W with _ => _ end = _ =>
          destruct (wait_not_busy d W) as [[[] w1] |] eqn:Hwait; [| discriminate]
      end;
      exists w1; (split; [reflexivity |]);
      destruct w1 as [md1 l1 m1 ins1 tr1]; monad_run_in Hrun;
      (destruct ins1 as [| sr rest1]; [discriminate |]);
      exists sr; cbn [inputs];
      destruct (Z.land (u32 sr) XAXIDMA_IRQ_ERROR_MASK =? 0);
      monad_run_in Hrun; injection Hrun as <- <-; reflexivity. }
  destruct Hwait as (w1 & Hwait & sr & Hsr).
  apply wait_not_busy_inv in Hwait as (polls & idle & Hins & Hbusy & Hidle & _).
  cbn [inputs] in *. exists status, polls, idle, sr.
  rewrite Hins, Hsr. auto.
Qed.


(** Every returning run of [dma_send], with the state it ends in. *)
Lemma dma_send_returns buffer len w r w' :
  dma_send buffer len w = Some (r, w') ->
  exists status polls idle sr,
    inputs w = status :: polls ++ idle :: sr :: inputs w' /\
    all_busy polls /\ u32 idle = 0 /\
    r = (if Z.land (u32 sr) XAXIDMA_IRQ_ERROR_MASK =? 0
         then XST_SUCCESS else XST_FAILURE) /\
    w' = mkWorld (mode w) (last w) (mem w) (inputs w')
           (trace w ++
            [EvCacheFlush buffer len;
             EvSimpleTransfer buffer len XAXIDMA_DMA_TO_DEVICE] ++
            (if u32 status =? XST_SUCCESS then []
             else [EvPrint "ERROR: failed to kick off MM2S transfer\r\n" []]) ++
            replicate (S (length polls)) (EvBusy XAXIDMA_DMA_TO_DEVICE) ++
            [EvReadReg (XAXIDMA_TX_OFFSET + XAXIDMA_SR_OFFSET)] ++
            (if Z.land (u32 sr) XAXIDMA_IRQ_ERROR_MASK =? 0
             then [EvCacheFlush buffer len]
             else [EvPrint
                     "ERROR: AXI DMA returned an error during the MM2S transfer\r\n"
                     []])).
Proof.
  intros Hrun.
  destruct (dma_send_inv _ _ _ _ _ Hrun)
    as (status & polls & idle & sr & Hins & Hbusy & Hidle).
  exists status, polls, idle, sr.
  destruct w as [md l m ins tr]. cbn [inputs mode last mem trace] in *.
  subst ins.
  rewrite (dma_send_run buffer len md l m tr status polls idle sr (inputs w'))
    in Hrun by assumption.
  injection Hrun as <- <-. cbn [inputs]. auto 10.
Qed.

(** X1.  Every returning run of [dma_send] takes from the script the
    answer to the kick-off, the polls of the busy flag up to the first
    idle one, and the status register.  It returns [XST_FAILURE] when
    the register has an error bit and [XST_SUCCESS] otherwise: the
    answer to the kick-off decides one message and nothing else.  The
    range is flushed before the kick-off, and again only on success;
    mode, snapshot and memory are untouched. *)
Theorem dma_send_every_run (buffer len : Z) (w : World) (r : Z) (w' : World) :
  dma_send buffer len w = Some (r, w') ->
  exists status polls idle sr,
    inputs w = status :: polls ++ idle :: sr :: inputs w' /\
    all_busy polls /\ u32 idle = 0 /\
    r = (if Z.land (u32 sr) XAXIDMA_IRQ_ERROR_MASK =? 0
         then XST_SUCCESS else XST_FAILURE) /\
    mode w' = mode w /\ last w' = last w /\ mem w' = mem w /\
    trace w' =
      trace w ++
      [EvCacheFlush buffer len;
       EvSimpleTransfer buffer len XAXIDMA_DMA_TO_DEVICE] ++
      (if u32 status =? XST_SUCCESS then []
       else [EvPrint "ERROR: failed to kick off MM2S transfer\r\n" []]) ++
      replicate (S (length polls)) (EvBusy XAXIDMA_DMA_TO_DEVICE) ++
      [EvReadReg (XAXIDMA_TX_OFFSET + XAXIDMA_SR_OFFSET)] ++
      (if Z.land (u32 sr) XAXIDMA_IRQ_ERROR_MASK =? 0
       then [EvCacheFlush buffer len]
       else [EvPrint
               "ERROR: AXI DMA returned an error during the MM2S transfer\r\n"
               []]).
Proof.
  intros Hrun.
  apply dma_send_returns in Hrun
    as (status & polls & idle & sr & Hins & Hbusy & Hidle & Hr & ->).
  exists status, polls, idle, sr. cbn [mode last mem trace inputs] in *.
  auto 10.
Qed.

Lemma dma_send_every_run_witness :
  exists status polls idle sr,
    [XST_SUCCESS; 1; 1; 0; 0x4000; 7] = status :: polls ++ idle :: sr :: [7] /\
    all_busy polls /\ u32 idle = 0 /\
    XST_FAILURE = (if Z.land (u32 sr) XAXIDMA_IRQ_ERROR_MASK =? 0
                   then XST_SUCCESS else XST_FAILURE).
Proof.
  destruct (dma_send_every_run 0x80900000 96 failing_transfer XST_FAILURE
              (mkWorld DEMO_MODE_SW_TONE_GEN (mkGpioIn 0 0 0 0 0 0) (fun _ => 0) [7]
                 [EvCacheFlush 0x80900000 96;
                  EvSimpleTransfer 0x80900000 96 XAXIDMA_DMA_TO_DEVICE;
                  EvBusy XAXIDMA_DMA_TO_DEVICE; EvBusy XAXIDMA_DMA_TO_DEVICE;
                  EvBusy XAXIDMA_DMA_TO_DEVICE;
                  EvReadReg (XAXIDMA_TX_OFFSET + XAXIDMA_SR_OFFSET);
                  EvPrint
                    "ERROR: AXI DMA returned an error during the MM2S transfer\r\n"
                    []]))
    as (status & polls & idle & sr & Hins & Hbusy & Hidle & Hr & _).
  - reflexivity.
  - exists status, polls, idle, sr. auto.
Defined.

Lemma dma_receive_inv buffer len w r w' :
  dma_receive buffer len w = Some (r, w') ->
  exists status,
    (u32 status <> XST_SUCCESS /\ inputs w = status :: inputs w') \/
    (u32 status = XST_SUCCESS /\
     exists polls idle sr,
       inputs w = status :: polls ++ idle :: sr :: inputs w' /\
       all_busy polls /\ u32 idle = 0).
Proof.
  intros Hrun. destruct w as [md l m ins tr].
  unfold dma_receive in Hrun. monad_run_in Hrun.
  destruct ins as [| status rest]; [discriminate |].
  exists status.
  destruct (Z.eqb_spec (u32 status) XST_SUCCESS) as [Hok | Hrefused].
  - right. split; [exact Hok |]. monad_run_in Hrun.
    match type of Hrun with
    | match wait_not_busy ?d ?W with _ => _ end = _ =>
        destruct (wait_not_busy d W) as [[[] w1] |] eqn:Hwait; [| discriminate]
    end.
    apply wait_not_busy_inv in Hwait as (polls & idle & Hins & Hbusy & Hidle & _).
    destruct w1 as [md1 l1 m1 ins1 tr1].
    cbn [inputs mode last mem trace] in *. monad_run_in Hrun.
    destruct ins1 as [| sr rest1]; [discriminate |].
    exists polls, idle, sr. rewrite Hins.
    destruct (Z.land (u32 sr) XAXIDMA_IRQ_ERROR_MASK =? 0);
      monad_run_in Hrun; injection Hrun as <- <-; auto.
  - left. monad_run_in Hrun. injection Hrun as <- <-. auto.
Qed.

(** X2.  Every returning run of [dma_receive] is one of two.  When the
    kick-off is refused it returns [XST_FAILURE] at once: one flush,
    the kick-off, the message, never a poll of the busy flag nor a read
    of the status register.  When the kick-off is accepted it polls
    until the engine is idle and returns [XST_SUCCESS] with a second
    flush if the status register has no error bit, [XST_FAILURE] with
    a message and no second flush if it has one. *)
Theorem dma_receive_every_run (buffer len : Z) (w : World) (r : Z) (w' : World) :
  dma_receive buffer len w = Some (r, w') ->
  mode w' = mode w /\ last w' = last w /\ mem w' = mem w /\
  exists status,
    (u32 status <> XST_SUCCESS /\
     inputs w = status :: inputs w' /\
     r = XST_FAILURE /\
     trace w' =
       trace w ++
       [EvCacheFlush buffer len;
        EvSimpleTransfer buffer len XAXIDMA_DEVICE_TO_DMA;
        EvPrint "ERROR: failed to kick off S2MM transfer\r\n" []]) \/
    (u32 status = XST_SUCCESS /\
     exists polls idle sr,
       inputs w = status :: polls ++ idle :: sr :: inputs w' /\
       all_busy polls /\ u32 idle = 0 /\
       r = (if Z.land (u32 sr) XAXIDMA_IRQ_ERROR_MASK =? 0
            then XST_SUCCESS else XST_FAILURE) /\
       trace w' =
         trace w ++
         [EvCacheFlush buffer len;
          EvSimpleTransfer buffer len XAXIDMA_DEVICE_TO_DMA] ++
         replicate (S (length polls)) (EvBusy XAXIDMA_DEVICE_TO_DMA) ++
         [EvReadReg (XAXIDMA_RX_OFFSET + XAXIDMA_SR_OFFSET)] ++
         (if Z.land (u32 sr) XAXIDMA_IRQ_ERROR_MASK =? 0
          then [EvCacheFlush buffer len]
          else [EvPrint
                  "ERROR: AXI DMA returned an error during the S2MM transfer\r\n"
                  []])).
Proof.
  intros Hrun.
  destruct (dma_receive_inv _ _ _ _ _ Hrun)
    as (status & [(Hrefused & Hins) |
                  (Hok & polls & idle & sr & Hins & Hbusy & Hidle)]);
    destruct w as [md l m ins tr]; cbn [inputs mode last mem trace] in *;
    subst ins.
  - rewrite (dma_receive_kickoff_failure buffer len md l m tr status (inputs w'))
      in Hrun by assumption.
    injection Hrun as <- <-. cbn [mode last mem trace].
    repeat split. exists status. left. auto.
  - rewrite (dma_receive_run buffer len md l m tr status polls idle sr (inputs w'))
      in Hrun by assumption.
    injection Hrun as <- <-. cbn [mode last mem trace].
    repeat split. exists status. right. split; [exact Hok |].
    exists polls, idle, sr. auto 10.
Qed.

Lemma dma_receive_every_run_witness :
  exists status,
    (u32 status <> XST_SUCCESS /\ [XST_INVALID_PARAM; 0; 0] = status :: [0; 0]) \/
    u32 status = XST_SUCCESS.
Proof.
  destruct (dma_receive_every_run 0x80800000 0 refused_kickoff XST_FAILURE
              (mkWorld DEMO_MODE_PLAY_WAV_FILE (mkGpioIn 8 0 8 0 0 0) (fun _ => 0)
                 [0; 0]
                 [EvCacheFlush 0x80800000 0;
                  EvSimpleTransfer 0x80800000 0 XAXIDMA_DEVICE_TO_DMA;
                  EvPrint "ERROR: failed to kick off S2MM transfer\r\n" []]))
    as (_ & _ & _ & status & [(Hrefused & Hins & _) | (Hok & _)]).
  - reflexivity.
  - exists status. left. auto.
  - exists status. right. exact Hok.
Defined.

(** ** Waiting without a timeout *)

Lemma busy_loop_never dir : forall fuel md l m polls tr,
  all_busy polls ->
  loop_fuel fuel (poll_busy dir) tt (mkWorld md l m polls tr) = None.
Proof.
  induction fuel as [| fuel IH]; intros md l m polls tr Hbusy; [reflexivity |].
  rewrite loop_fuel_S. unfold poll_busy at 1. monad_run.
  destruct polls as [| v polls]; [reflexivity |].
  apply Forall_cons in Hbusy as [Hv Hbusy].
  destruct (Z.eqb_spec (u32 v) 0) as [Heq | _]; [contradiction |].
  apply IH, Hbusy.
Qed.


(** X3.  There is no timeout on a transfer.  However long the engine
    answers busy after the kick-off, [dma_send] does not return, and
    neither does [dma_receive] once its kick-off is accepted. *)
Theorem transfers_wait_forever
    (buffer len status : Z) (polls : list Z) (w : World) :
  inputs w = status :: polls -> all_busy polls ->
  dma_send buffer len w = None /\
  (u32 status = XST_SUCCESS -> dma_receive buffer len w = None).
Proof.
  intros Hins Hbusy. destruct w as [md l m ins tr]. cbn [inputs] in *. subst ins.
  split.
  - unfold dma_send. monad_run.
    destruct (u32 status =? XST_SUCCESS); monad_run;
      unfold wait_not_busy, loop; rewrite busy_loop_never by assumption;
      reflexivity.
  - intros Hok. unfold dma_receive. monad_run. rewrite Hok, Z.eqb_refl.
    monad_run. unfold wait_not_busy, loop.
    rewrite busy_loop_never by assumption. reflexivity.
Qed.

Lemma transfers_wait_forever_witness :
  let w := mkWorld DEMO_MODE_SW_TONE_GEN (mkGpioIn 0 0 0 0 0 0) (fun _ => 0)
             [0; 1; 1; 1; 1; 1; 1; 1; 1] [] in
  dma_send 0x80900000 96 w = None /\ dma_receive 0x80900000 96 w = None.
Proof.
  intros w.
  destruct (transfers_wait_forever 0x80900000 96 0
              [1; 1; 1; 1; 1; 1; 1; 1] w) as (Hsend & Hrecv).
  - reflexivity.
  - repeat constructor; vm_compute; discriminate.
  - split; [exact Hsend | apply Hrecv; reflexivity].
Defined.




(** ** The snapshot of the inputs *)

Lemma testbit_u8 x i : Z.testbit (u8 x) i = (i <? 8) && Z.testbit x i.
Proof. unfold u8. apply Z.testbit_mod_pow2. lia. Qed.

Lemma testbit_u16 x i : Z.testbit (u16 x) i = (i <? 16) && Z.testbit x i.
Proof. unfold u16. apply Z.testbit_mod_pow2. lia. Qed.

Lemma u8_u32 x : u8 (u32 x) = u8 x.
Proof. unfold u8, u32. apply Z.mod_mod_divide. exists (2 ^ 24). reflexivity. Qed.

Lemma u16_u32 x : u16 (u32 x) = u16 x.
Proof. unfold u16, u32. apply Z.mod_mod_divide. exists (2 ^ 16). reflexivity. Qed.

(** X5.  [get_gpio_data] reads the buttons and then the switches,
    keeps the low 8 and 16 bits, and stores the result as the new
    snapshot.  A bit of [button_pe] is set exactly when the button is
    down now and was not in the previous snapshot, a bit of
    [button_ne] exactly when it was down and is not now, and likewise
    for the switches; no bit is in both. *)
Theorem get_gpio_data_edge_bits (w : World) (b s : Z) (rest : list Z) :
  inputs w = b :: s :: rest ->
  exists data,
    get_gpio_data w =
      Some (data,
            mkWorld (mode w) data (mem w) rest
              (trace w ++ [EvGpioRead 1; EvGpioRead 2])) /\
    buttons data = u8 b /\ switches data = u16 s /\
    (forall i, 0 <= i ->
       Z.testbit (button_pe data) i =
         (i <? 8) && Z.testbit b i && negb (Z.testbit (buttons (last w)) i)) /\
    (forall i, 0 <= i ->
       Z.testbit (button_ne data) i =
         (i <? 8) && negb (Z.testbit b i) && Z.testbit (buttons (last w)) i) /\
    (forall i, 0 <= i ->
       Z.testbit (switch_pe data) i =
         (i <? 16) && Z.testbit s i && negb (Z.testbit (switches (last w)) i)) /\
    (forall i, 0 <= i ->
       Z.testbit (switch_ne data) i =
         (i <? 16) && negb (Z.testbit s i) && Z.testbit (switches (last w)) i) /\
    Z.land (button_pe data) (button_ne data) = 0 /\
    Z.land (switch_pe data) (switch_ne data) = 0.
Proof.
  intros Hins. destruct w as [md l m ins tr]. cbn [inputs mode last mem trace] in *.
  subst ins. eexists. split.
  { unfold get_gpio_data. monad_run. rewrite <- app_assoc. reflexivity. }
  cbn [buttons switches button_pe button_ne switch_pe switch_ne].
  assert (Hu32b : forall i, i < 32 -> Z.testbit (u32 b) i = Z.testbit b i).
  { intros i Hi. unfold u32. apply Z.mod_pow2_bits_low. lia. }
  assert (Hu32s : forall i, i < 32 -> Z.testbit (u32 s) i = Z.testbit s i).
  { intros i Hi. unfold u32. apply Z.mod_pow2_bits_low. lia. }
  assert (Hpe : forall i, 0 <= i ->
            Z.testbit (u8 (Z.land (u8 (u32 b)) (Z.lnot (buttons l)))) i =
              (i <? 8) && Z.testbit b i && negb (Z.testbit (buttons l) i)).
  { intros i Hi. rewrite testbit_u8, Z.land_spec, testbit_u8, Z.lnot_spec by lia.
    destruct (Z.ltb_spec i 8); [rewrite Hu32b by lia | reflexivity].
    reflexivity. }
  assert (Hne : forall i, 0 <= i ->
            Z.testbit (u8 (Z.land (Z.lnot (u8 (u32 b))) (buttons l))) i =
              (i <? 8) && negb (Z.testbit b i) && Z.testbit (buttons l) i).
  { intros i Hi. rewrite testbit_u8, Z.land_spec, Z.lnot_spec, testbit_u8 by lia.
    destruct (Z.ltb_spec i 8); [rewrite Hu32b by lia | reflexivity].
    reflexivity. }
  assert (Hspe : forall i, 0 <= i ->
            Z.testbit (u16 (Z.land (u16 (u32 s)) (Z.lnot (switches l)))) i =
              (i <? 16) && Z.testbit s i && negb (Z.testbit (switches l) i)).
  { intros i Hi. rewrite testbit_u16, Z.land_spec, testbit_u16, Z.lnot_spec by lia.
    destruct (Z.ltb_spec i 16); [rewrite Hu32s by lia | reflexivity].
    reflexivity. }
  assert (Hsne : forall i, 0 <= i ->
            Z.testbit (u16 (Z.land (Z.lnot (u16 (u32 s))) (switches l))) i =
              (i <? 16) && negb (Z.testbit s i) && Z.testbit (switches l) i).
  { intros i Hi. rewrite testbit_u16, Z.land_spec, Z.lnot_spec, testbit_u16 by lia.
    destruct (Z.ltb_spec i 16); [rewrite Hu32s by lia | reflexivity].
    reflexivity. }
  split; [apply u8_u32 |].
  split; [apply u16_u32 |].
  repeat split; try assumption.
  - apply Z.bits_inj'. intros i Hi.
    rewrite Z.land_spec, Hpe, Hne, Z.bits_0 by lia.
    destruct (i <? 8), (Z.testbit b i), (Z.testbit (buttons l) i); reflexivity.
  - apply Z.bits_inj'. intros i Hi.
    rewrite Z.land_spec, Hspe, Hsne, Z.bits_0 by lia.
    destruct (i <? 16), (Z.testbit s i), (Z.testbit (switches l) i); reflexivity.
Qed.

Lemma get_gpio_data_edge_bits_witness :
  let w := mkWorld DEMO_MODE_PAUSED (mkGpioIn 0x05 0 0 0 0 0) (fun _ => 0)
             [0x0C; 0x10003] [] in
  exists data,
    (get_gpio_data w ≫= λ r, Some r.1) = Some data /\
    buttons data = 0x0C /\ switches data = 3 /\
    button_pe data = 0x08 /\ button_ne data = 0x01.
Proof.
  intros w.
  destruct (get_gpio_data_edge_bits w 0x0C 0x10003 [] eq_refl)
    as (data & Hrun & Hb & Hs & _).
  exists data. rewrite Hrun. cbn.
  injection Hrun as <-. repeat split.
Defined.


(** ** One iteration of the main loop *)

Section MainIteration.

Variable sine_sample : Z -> Z.
Variable temp_init : list Z.

Local Abbreviation iteration := (main_iteration sine_sample temp_init).

Lemma mode_transition_mode pe w w' :
  mode_transition pe w = Some (tt, w') ->
  (mode w' = mode w /\ pe <> 0x01 /\ pe <> 0x04 /\ pe <> 0x08 /\ pe <> 0x10) \/
  mode w' <> DEMO_MODE_HW_TONE_GEN.
Proof.
  unfold mode_transition. intros Hrun.
  destruct (Z.eqb_spec pe 1);
    [monad_run_in Hrun; injection Hrun as <-; right; discriminate |].
  destruct (Z.eqb_spec pe 4);
    [monad_run_in Hrun; injection Hrun as <-; right; discriminate |].
  destruct (Z.eqb_spec pe 8);
    [monad_run_in Hrun; injection Hrun as <-; right; discriminate |].
  destruct (Z.eqb_spec pe 16);
    [monad_run_in Hrun; injection Hrun as <-; right; discriminate |].
  monad_run_in Hrun. injection Hrun as <-. left. auto.
Qed.

Lemma mode_action_mode file w w' :
  mode_action sine_sample temp_init file w = Some (tt, w') ->
  mode w' = DEMO_MODE_PAUSED \/
  (mode w' = DEMO_MODE_HW_TONE_GEN /\ mode w = DEMO_MODE_HW_TONE_GEN).
Proof.
  unfold mode_action. intros Hrun.
  apply bind_Some in Hrun as (d & w1 & Hget & Hrun).
  unfold get_mode in Hget. injection Hget as <- <-.
  destruct (mode w) eqn:Hmode.
  - injection Hrun as <-. auto.
  - injection Hrun as <-. auto.
  - left. eapply ends_paused_dma_sw_tone_gen; eauto.
  - left. eapply ends_paused_recv_wav; eauto.
  - left. eapply ends_paused_play_wav; eauto.
Qed.

(** An iteration that does not start in the hardware-tone mode ends
    paused. *)
Lemma main_iteration_pauses file w w' :
  iteration file w = Some (tt, w') ->
  mode w <> DEMO_MODE_HW_TONE_GEN ->
  mode w' = DEMO_MODE_PAUSED.
Proof.
  unfold main_iteration. intros Hrun Hmode.
  apply bind_Some in Hrun as (data & w1 & Hgpio & Hrun).
  apply bind_Some in Hrun as ([] & w2 & Htrans & Hact).
  apply keeps_mode_get_gpio_data in Hgpio.
  apply mode_transition_mode in Htrans.
  apply mode_action_mode in Hact as [Hpaused | [_ Hhw]]; [exact Hpaused |].
  destruct Htrans as [(Hsame & _) | Hnot]; [congruence | contradiction].
Qed.


End MainIteration.



(** ** The channel that the demo uses *)

Section Channel.

Variable sine_sample : Z -> Z.
Variable temp_init : list Z.

Ltac unfold_calls :=
  unfold xil_printf, Xil_DCacheFlushRange, XAxiDma_SimpleTransfer,
    XAxiDma_Busy, XAxiDma_ReadReg, XAxiDma_Reset, XAxiDma_ResetIsDone,
    XGpio_DiscreteRead, XUartLite_ResetFifos, XUartLite_Recv1, malloc, free,
    sleep, usleep, memset.

Lemma emits_dma_send buffer len : emits not_s2mm (dma_send buffer len).
Proof. unfold dma_send, wait_not_busy, poll_busy. unfold_calls. walk. Qed.

Lemma emits_dma_reset : emits not_s2mm dma_reset.
Proof. unfold dma_reset, poll_reset_done. unfold_calls. walk. Qed.

Lemma emits_get_gpio_data : emits not_s2mm get_gpio_data.
Proof. unfold get_gpio_data. unfold_calls. walk. Qed.

Lemma emits_uart_recv buffer len : emits not_s2mm (uart_recv buffer len).
Proof. unfold uart_recv, uart_recv_step. unfold_calls. walk. Qed.

Lemma emits_play_wav file : emits not_s2mm (play_wav file).
Proof.
  pose proof emits_dma_send. pose proof emits_dma_reset.
  unfold play_wav. unfold_calls. walk.
Qed.

Lemma emits_recv_wav file : emits not_s2mm (recv_wav file).
Proof.
  pose proof emits_uart_recv. pose proof emits_play_wav.
  unfold recv_wav. unfold_calls. walk.
Qed.

Lemma emits_dma_sw_tone_gen :
  emits not_s2mm (dma_sw_tone_gen sine_sample temp_init).
Proof.
  pose proof emits_dma_send. pose proof emits_dma_reset.
  pose proof emits_get_gpio_data.
  unfold dma_sw_tone_gen, send_until_button. unfold_calls.
  do 3 (apply emits_bind; [walk |]; intros ?).
  destruct (tone_loop sine_sample 256 (tone_init temp_init));
    [walk | intros ? ? ? Hrun; discriminate].
Qed.

Lemma emits_mode_transition pe : emits not_s2mm (mode_transition pe).
Proof. unfold mode_transition. unfold_calls. walk. Qed.

Lemma emits_main_iteration file :
  emits not_s2mm (main_iteration sine_sample temp_init file).
Proof.
  pose proof emits_get_gpio_data. pose proof emits_mode_transition.
  pose proof emits_recv_wav. pose proof emits_play_wav.
  pose proof emits_dma_sw_tone_gen.
  unfold main_iteration, mode_action. walk.
Qed.

(** X7.  No iteration of the main loop starts a transfer from the
    device to memory: play-back, reception over the UART and the tone
    use the to-device channel alone, and [dma_receive] is never
    reached. *)
Theorem main_iteration_never_receives_dma (file : Z) (w w' : World) :
  main_iteration sine_sample temp_init file w = Some (tt, w') ->
  exists t,
    trace w' = trace w ++ t /\
    forall addr len, EvSimpleTransfer addr len XAXIDMA_DEVICE_TO_DMA ∉ t.
Proof.
  intros Hrun.
  apply emits_main_iteration in Hrun as (t & Ht & Hall).
  exists t. split; [exact Ht |].
  intros addr len Hin.
  rewrite Forall_forall in Hall. apply (Hall _ Hin).
Qed.

End Channel.

Lemma main_iteration_never_receives_dma_witness :
  exists w' t,
    main_iteration sine_table [0; 0; 0; 0; 0] 0x80000000 pressing_receive =
      Some (tt, w') /\
    trace w' = t /\
    EvSimpleTransfer 0x81000000 4 XAXIDMA_DEVICE_TO_DMA ∉ t.
Proof.
  assert (Hreturns :
            (main_iteration sine_table [0; 0; 0; 0; 0] 0x80000000 pressing_receive
               ≫= λ r, Some (inputs r.2)) = Some [])
    by (vm_compute; reflexivity).
  destruct (main_iteration sine_table [0; 0; 0; 0; 0] 0x80000000 pressing_receive)
    as [[[] w'] |] eqn:Hrun; [| discriminate Hreturns].
  destruct (main_iteration_never_receives_dma _ _ _ _ _ Hrun)
    as (t & Ht & Hnever).
  exists w', t. split; [reflexivity |].
  split; [rewrite Ht; reflexivity | apply Hnever].
Defined.


(** ** Buttons that are held *)

Lemma no_new_button b l :
  (forall i, 0 <= i < 8 -> Z.testbit b i = true -> Z.testbit l i = true) ->
  u8 (Z.land (u8 (u32 b)) (Z.lnot l)) = 0.
Proof.
  intros Hheld. apply Z.bits_inj'. intros i Hi.
  rewrite testbit_u8, Z.land_spec, testbit_u8, Z.lnot_spec, Z.bits_0 by lia.
  destruct (Z.ltb_spec i 8) as [Hlt | Hge]; [| reflexivity].
  unfold u32. rewrite Z.mod_pow2_bits_low by lia.
  destruct (Z.testbit b i) eqn:Hb; [| reflexivity].
  rewrite (Hheld i) by (auto; lia). reflexivity.
Qed.

Section HeldButtons.

Variable sine_sample : Z -> Z.
Variable temp_init : list Z.

(** An iteration without a new button, in a mode without an action. *)
Lemma main_iteration_idle file md l m b s rest tr :
  (forall i, 0 <= i < 8 ->
     Z.testbit b i = true -> Z.testbit (buttons l) i = true) ->
  md = DEMO_MODE_PAUSED \/ md = DEMO_MODE_HW_TONE_GEN ->
  exists data,
    main_iteration sine_sample temp_init file (mkWorld md l m (b :: s :: rest) tr) =
      Some (tt, mkWorld md data m rest (tr ++ [EvGpioRead 1; EvGpioRead 2])) /\
    buttons data = u8 b /\ button_pe data = 0.
Proof.
  intros Hheld Hmode. eexists. split; [| split].
  - unfold main_iteration, get_gpio_data. monad_run.
    cbn [button_pe]. rewrite (no_new_button b (buttons l) Hheld).
    unfold mode_transition. cbn [Z.eqb]. unfold mode_action. monad_run.
    destruct Hmode as [-> | ->]; monad_run; rewrite <- app_assoc; reflexivity.
  - apply u8_u32.
  - reflexivity.
Qed.

(** X8.  While no button goes down that was not down at the previous
    poll, a paused demo stays paused: the iteration reads the two GPIO
    channels, stores the snapshot and does nothing else.  Holding a
    button does not start its action again. *)
Theorem held_buttons_start_nothing
    (file : Z) (w : World) (b s : Z) (rest : list Z) :
  inputs w = b :: s :: rest ->
  (forall i, 0 <= i < 8 ->
     Z.testbit b i = true -> Z.testbit (buttons (last w)) i = true) ->
  mode w = DEMO_MODE_PAUSED ->
  exists data,
    main_iteration sine_sample temp_init file w =
      Some (tt, mkWorld DEMO_MODE_PAUSED data (mem w) rest
                  (trace w ++ [EvGpioRead 1; EvGpioRead 2])) /\
    buttons data = u8 b /\ button_pe data = 0.
Proof.
  intros Hins Hheld Hmode. destruct w as [md l m ins tr].
  cbn [inputs mode last mem trace] in *. subst ins md.
  apply main_iteration_idle; auto.
Qed.

Lemma keeps_last_dma_send buffer len : keeps last (dma_send buffer len).
Proof.
  unfold dma_send, wait_not_busy, poll_busy, Xil_DCacheFlushRange,
    XAxiDma_SimpleTransfer, XAxiDma_Busy, XAxiDma_ReadReg, xil_printf.
  walk.
Qed.

Lemma keeps_last_dma_reset : keeps last dma_reset.
Proof.
  unfold dma_reset, poll_reset_done, XAxiDma_Reset, XAxiDma_ResetIsDone. walk.
Qed.

Lemma get_gpio_data_last w data w' :
  get_gpio_data w = Some (data, w') -> last w' = data.
Proof.
  intros Hrun. destruct w as [md l m ins tr].
  unfold get_gpio_data in Hrun. monad_run_in Hrun.
  destruct ins as [| b [| s rest]]; try discriminate.
  injection Hrun as <- <-. reflexivity.
Qed.

(** The snapshot when [dma_sw_tone_gen] returns is the one that ended
    its loop: it shows a button that went down. *)
Lemma dma_sw_tone_gen_last w w' :
  dma_sw_tone_gen sine_sample temp_init w = Some (tt, w') ->
  button_pe (last w') <> 0.
Proof.
  pose proof keeps_last_dma_send. pose proof keeps_last_dma_reset.
  unfold dma_sw_tone_gen. intros Hrun.
  do 3 (apply bind_Some in Hrun as (? & ? & _ & Hrun)).
  destruct (tone_loop sine_sample 256 (tone_init temp_init)) as [st |];
    [| discriminate].
  do 2 (apply bind_Some in Hrun as (? & ? & _ & Hrun)).
  apply bind_Some in Hrun as ([] & w1 & Hloop & Hrun).
  assert (Hpressed : button_pe (last w1) <> 0).
  { apply (loop_inv _ (fun _ _ => True)) in Hloop as (? & w0 & _ & Hbody); auto.
    unfold send_until_button in Hbody.
    apply bind_Some in Hbody as (status & w2 & _ & Hbody).
    apply bind_Some in Hbody as (gpio & w3 & Hgpio & Hret).
    apply get_gpio_data_last in Hgpio.
    cbv [mret M_ret] in Hret.
    destruct (Z.eqb_spec (button_pe gpio) 0) as [| Hne];
      cbn [negb] in Hret; [discriminate |].
    injection Hret as <-. rewrite Hgpio. exact Hne. }
  assert (Hkeeps : keeps last
            (set_mode DEMO_MODE_PAUSED;;
             xil_printf "Exiting SW tone gen mode\r\n" [];;
             memset x 0 (buffer_size * 4);;
             _ ← dma_send x (u32 (buffer_size * 4));
             free x;; dma_reset)).
  { unfold xil_printf, memset, free. walk. }
  apply Hkeeps in Hrun. rewrite Hrun. exact Hpressed.
Qed.

(** X9.  The button that stops the tone starts nothing.  When
    [dma_sw_tone_gen] returns, the press that ended it is already in
    the snapshot; if the button is still down at the next poll of the
    main loop it is no edge, and the iteration leaves the demo paused
    without running an action, whichever button it was. *)
Theorem tone_stop_press_starts_nothing
    (file : Z) (w w1 : World) (b s : Z) (rest : list Z) :
  dma_sw_tone_gen sine_sample temp_init w = Some (tt, w1) ->
  inputs w1 = b :: s :: rest ->
  u8 b = buttons (last w1) ->
  button_pe (last w1) <> 0 /\
  exists data,
    main_iteration sine_sample temp_init file w1 =
      Some (tt, mkWorld DEMO_MODE_PAUSED data (mem w1) rest
                  (trace w1 ++ [EvGpioRead 1; EvGpioRead 2])) /\
    button_pe data = 0.
Proof.
  intros Hrun Hins Hheld.
  split; [eapply dma_sw_tone_gen_last; eauto |].
  pose proof (ends_paused_dma_sw_tone_gen _ _ _ _ _ Hrun) as Hpaused.
  destruct w1 as [md l m ins tr]. cbn [inputs mode last mem trace] in *.
  subst ins md.
  destruct (main_iteration_idle file DEMO_MODE_PAUSED l m b s rest tr)
    as (data & Hiter & _ & Hpe); auto.
  - intros i Hi Hb. rewrite <- Hheld, testbit_u8.
    apply andb_true_intro. split; [apply Z.ltb_lt; lia | exact Hb].
  - eauto.
Qed.

End HeldButtons.

Lemma held_buttons_start_nothing_witness :
  let w := mkWorld DEMO_MODE_PAUSED (mkGpioIn 0x08 0 0 0 0 0) (fun _ => 0)
             [0x08; 0] [] in
  exists data,
    (main_iteration sine_table [0; 0; 0; 0; 0] 0x80000000 w ≫= λ r,
       Some (mode r.2, trace r.2)) =
      Some (DEMO_MODE_PAUSED, [EvGpioRead 1; EvGpioRead 2]) /\
    button_pe data = 0.
Proof.
  intros w.
  destruct (held_buttons_start_nothing sine_table [0; 0; 0; 0; 0]
              0x80000000 w 0x08 0 []) as (data & Hrun & _ & Hpe).
  - reflexivity.
  - intros i Hi Hb. exact Hb.
  - reflexivity.
  - exists data. rewrite Hrun. split; [reflexivity | exact Hpe].
Defined.

Lemma tone_stop_press_starts_nothing_witness :
  exists w1 w2,
    dma_sw_tone_gen sine_table [0; 0; 0; 0; 0] stopping_the_tone = Some (tt, w1) /\
    buttons (last w1) = 0x08 /\
    main_iteration sine_table [0; 0; 0; 0; 0] 0x80000000 w1 = Some (tt, w2) /\
    mode w2 = DEMO_MODE_PAUSED.
Proof.
  assert (Hreturns :
            (dma_sw_tone_gen sine_table [0; 0; 0; 0; 0] stopping_the_tone
               ≫= λ r, Some (inputs r.2, buttons (last r.2))) =
            Some ([0x08; 0], 0x08))
    by (vm_compute; reflexivity).
  destruct (dma_sw_tone_gen sine_table [0; 0; 0; 0; 0] stopping_the_tone)
    as [[[] w1] |] eqn:Hrun; [| discriminate Hreturns].
  cbn in Hreturns. injection Hreturns as Hins Hlast.
  destruct (tone_stop_press_starts_nothing sine_table [0; 0; 0; 0; 0]
              0x80000000 stopping_the_tone w1 0x08 0 [] Hrun Hins)
    as (_ & data & Hiter & _).
  - rewrite Hlast. reflexivity.
  - exists w1. eexists. split; [reflexivity |].
    split; [exact Hlast |]. split; [exact Hiter | reflexivity].
Defined.


(** ** [uart_recv] *)

Lemma ptr_add_inj p a b :
  0 <= a < 2 ^ 32 -> 0 <= b < 2 ^ 32 -> ptr_add p a = ptr_add p b -> a = b.
Proof.
  unfold ptr_add, u32. change (2 ^ 32) with 4294967296. intros Ha Hb Heq.
  pose proof (Z.div_mod (p + a) 4294967296 ltac:(lia)) as Hda.
  pose proof (Z.div_mod (p + b) 4294967296 ltac:(lia)) as Hdb.
  rewrite Heq in Hda. lia.
Qed.

Lemma u32_ptr_add p k : u32 (ptr_add p k) = ptr_add p k.
Proof. unfold ptr_add, u32. apply Z.mod_mod. lia. Qed.

Lemma load8_store8_eq m p v : load8 (store8 m p v) p = u8 v.
Proof.
  unfold load8, store8. rewrite Z.eqb_refl.
  unfold u8. apply Z.mod_mod. lia.
Qed.

Lemma load8_store8_ne m p q v :
  u32 p <> u32 q -> load8 (store8 m p v) q = load8 m q.
Proof.
  intros Hne. unfold load8, store8.
  destruct (Z.eqb_spec (u32 q) (u32 p)); [congruence | reflexivity].
Qed.

(** Bytes stored at consecutive addresses are read back in order, and
    no other address changes. *)
Lemma store_bytes_from_read bs : forall m p rc,
  0 <= rc -> rc + Z.of_nat (length bs) <= 2 ^ 32 ->
  Forall (fun v => 0 <= v < 256) bs ->
  (forall i, (i < length bs)%nat ->
     Some (load8 (store_bytes_from m p rc bs) (ptr_add p (rc + Z.of_nat i))) =
       bs !! i) /\
  (forall q, (forall k, rc <= k < rc + Z.of_nat (length bs) ->
                u32 q <> ptr_add p k) ->
     load8 (store_bytes_from m p rc bs) q = load8 m q).
Proof.
  induction bs as [| b bs IH]; intros m p rc Hrc Hlen Hbytes.
  - cbn. split; [intros i Hi; lia | reflexivity].
  - apply Forall_cons in Hbytes as [Hb Hbytes].
    cbn [length] in Hlen. cbn [store_bytes_from].
    destruct (IH (store8 m (ptr_add p rc) b) p (rc + 1)) as [IHread IHother];
      [lia | lia | assumption |].
    split.
    + intros [| i] Hi.
      * cbn [lookup list_lookup]. rewrite Z.add_0_r, IHother.
        -- rewrite load8_store8_eq, u8_small by lia. reflexivity.
        -- intros k Hk Heq. rewrite u32_ptr_add in Heq.
           apply ptr_add_inj in Heq; lia.
      * cbn [lookup list_lookup]. rewrite <- IHread by (cbn in Hi; lia).
        do 3 f_equal. lia.
    + intros q Hq. rewrite IHother.
      * apply load8_store8_ne. rewrite u32_ptr_add.
        intros Heq. apply (Hq rc); [cbn [length]; lia | auto].
      * intros k Hk. apply Hq. cbn [length]. lia.
Qed.

Lemma arrived_cons v polls :
  arrived (v :: polls) =
    if (0 <=? v) && (v <? 256) then v :: arrived polls else arrived polls.
Proof.
  unfold arrived. rewrite filter_cons.
  destruct (Z.leb_spec 0 v), (Z.ltb_spec v 256); cbn [andb];
    destruct (decide (0 <= v < 256)); try reflexivity; lia.
Qed.

(** The loop of [uart_recv], from any count on. *)
Lemma uart_loop_inv buffer len : forall fuel rc w r w',
  0 <= rc <= len -> len < 2 ^ 32 ->
  loop_fuel fuel (uart_recv_step buffer len) rc w = Some (r, w') ->
  exists polls,
    inputs w = polls ++ inputs w' /\
    rc + Z.of_nat (length (arrived polls)) = len /\
    r = len /\
    mem w' = store_bytes_from (mem w) buffer rc (arrived polls) /\
    mode w' = mode w /\ last w' = last w /\
    exists t, trace w' = trace w ++ t /\ length t = length polls.
Proof.
  induction fuel as [| fuel IH]; intros rc w r w' Hrc Hlen Hrun; [discriminate |].
  assert (Hlen' : len < 4294967296) by exact Hlen.
  rewrite loop_fuel_S in Hrun. unfold uart_recv_step in Hrun at 1.
  destruct (Z.ltb_spec rc len) as [Hlt | Hge].
  - destruct w as [md l m ins tr]. unfold XUartLite_Recv1 in Hrun.
    monad_run_in Hrun.
    destruct ins as [| v rest]; [discriminate |].
    cbn [inputs mode last mem trace].
    destruct ((0 <=? v) && (v <? 256)) eqn:Hbyte; monad_run_in Hrun.
    + rewrite (u32_small (rc + 1)) in Hrun by lia.
      apply IH in Hrun
        as (polls & Hins & Hcount & Hr & Hmem & Hmode & Hlast & t & Ht & Hlt');
        [| lia | exact Hlen].
      cbn [inputs mode last mem trace] in *.
      exists (v :: polls). rewrite arrived_cons, Hbyte.
      cbn [app length store_bytes_from]. rewrite Hins.
      split; [reflexivity |]. split; [lia |]. split; [exact Hr |].
      split; [exact Hmem |]. split; [exact Hmode |]. split; [exact Hlast |].
      exists (EvUartRecv (ptr_add buffer rc) :: t).
      rewrite Ht, <- app_assoc. cbn [app length]. split; [reflexivity | lia].
    + rewrite Z.add_0_r, (u32_small rc) in Hrun by lia.
      apply IH in Hrun
        as (polls & Hins & Hcount & Hr & Hmem & Hmode & Hlast & t & Ht & Hlt');
        [| lia | exact Hlen].
      cbn [inputs mode last mem trace] in *.
      exists (v :: polls). rewrite arrived_cons, Hbyte.
      cbn [app length]. rewrite Hins.
      split; [reflexivity |]. split; [lia |]. split; [exact Hr |].
      split; [exact Hmem |]. split; [exact Hmode |]. split; [exact Hlast |].
      exists (EvUartRecv (ptr_add buffer rc) :: t).
      rewrite Ht, <- app_assoc. cbn [app length]. split; [reflexivity | lia].
  - injection Hrun as <- <-. exists []. cbn.
    repeat split; try lia. exists []. rewrite app_nil_r. auto.
Qed.


(** X10.  [uart_recv] never returns short: a run that returns has
    taken exactly [length] bytes from the UART, however many polls
    found the FIFO empty, and returns [length].  Byte [i] is stored at
    [buffer + i], every other address keeps its content, and mode and
    snapshot are untouched.  With a length of zero it returns at once
    and the UART is not polled. *)
Theorem uart_recv_every_run (buffer len : Z) (w : World) (r : Z) (w' : World) :
  0 <= len < 2 ^ 32 ->
  uart_recv buffer len w = Some (r, w') ->
  r = len /\
  (exists polls,
     inputs w = polls ++ inputs w' /\
     Z.of_nat (length (arrived polls)) = len /\
     (forall i, (i < length (arrived polls))%nat ->
        Some (load8 (mem w') (ptr_add buffer (Z.of_nat i))) = arrived polls !! i) /\
     (forall q, (forall k, 0 <= k < len -> u32 q <> ptr_add buffer k) ->
        load8 (mem w') q = load8 (mem w) q)) /\
  mode w' = mode w /\ last w' = last w /\
  (len = 0 -> w' = w).
Proof.
  intros Hlen Hrun.
  assert (Hzero : len = 0 -> w' = w).
  { intros ->. unfold uart_recv, loop in Hrun. rewrite loop_fuel_S in Hrun.
    unfold uart_recv_step in Hrun at 1. cbn [Z.ltb Z.compare] in Hrun.
    injection Hrun as _ <-. reflexivity. }
  apply uart_loop_inv in Hrun
    as (polls & Hins & Hcount & Hr & Hmem & Hmode & Hlast & _); [| lia | lia].
  rewrite Z.add_0_l in Hcount.
  destruct (store_bytes_from_read (arrived polls) (mem w) buffer 0)
    as [Hread Hother]; [lia | lia | apply Forall_forall; intros v Hv | ].
  { unfold arrived in Hv. apply list_elem_of_filter in Hv. tauto. }
  repeat split; auto.
  exists polls. repeat split; auto.
  - intros i Hi. rewrite Hmem, <- Hread by assumption. reflexivity.
  - intros q Hq. rewrite Hmem. apply Hother.
    intros k Hk. apply Hq. lia.
Qed.

Lemma uart_recv_every_run_witness :
  let w := mkWorld DEMO_MODE_RECV_WAV_FILE (mkGpioIn 4 0 4 0 0 0) (fun _ => 0)
             [82; -1; -1; 73; 70; -1; 70; 44] [] in
  exists w',
    uart_recv 0x80000000 4 w = Some (4, w') /\
    inputs w' = [44] /\
    load8 (mem w') 0x80000001 = 73.
Proof.
  intros w.
  assert (Hreturns :
            (uart_recv 0x80000000 4 w
               ≫= λ r, Some (inputs r.2, load8 (mem r.2) 0x80000001)) =
            Some ([44], 73))
    by (vm_compute; reflexivity).
  destruct (uart_recv 0x80000000 4 w) as [[r w'] |] eqn:Hrun;
    [| discriminate Hreturns].
  cbn in Hreturns. injection Hreturns as Hins Hbyte.
  destruct (uart_recv_every_run 0x80000000 4 w r w') as (-> & _);
    [lia | exact Hrun |].
  exists w'. auto.
Defined.


(** ** The loop that fills [dma_data] *)

Lemma u8_downscale x : u8 (downscale x) = downscale x.
Proof. unfold downscale, u8. apply Z.mod_mod. lia. Qed.

Lemma load16_store8_ne m p v q :
  u32 p <> ptr_add q 0 -> u32 p <> ptr_add q 1 ->
  load16 (store8 m p v) q = load16 m q.
Proof.
  intros H0 H1. unfold load16.
  rewrite !load8_store8_ne; [reflexivity | |].
  - unfold ptr_add in H0. rewrite Z.add_0_r in H0. exact H0.
  - rewrite u32_ptr_add. exact H1.
Qed.

(** When the samples and [dma_data] do not overlap, the loop leaves in
    [dma_data[j]] the conversion of [wav_data[j]], and changes no
    address outside [dma_data]. *)
Lemma downscale_loop_fills n : forall i m wav_data dma_data,
  0 <= i -> i + Z.of_nat n <= 2 ^ 32 ->
  (forall j k, i <= j < i + Z.of_nat n ->
     2 * i <= k < 2 * (i + Z.of_nat n) ->
     ptr_add dma_data j <> ptr_add wav_data k) ->
  (forall j, i <= j < i + Z.of_nat n ->
     load8 (downscale_loop n i wav_data dma_data m) (ptr_add dma_data j) =
       downscale (load16 m (ptr_add wav_data (2 * j)))) /\
  (forall q, (forall j, i <= j < i + Z.of_nat n -> u32 q <> ptr_add dma_data j) ->
     load8 (downscale_loop n i wav_data dma_data m) q = load8 m q).
Proof.
  induction n as [| n IH]; intros i m wav_data dma_data Hi Hlen Hdisjoint.
  - cbn [downscale_loop]. split; [intros j Hj; lia | reflexivity].
  - cbn [downscale_loop].
    set (m1 := store8 m (ptr_add dma_data i)
                 (downscale (load16 m (ptr_add wav_data (2 * i))))).
    destruct (IH (i + 1) m1 wav_data dma_data) as [IHfill IHother];
      [lia | lia | intros j k Hj Hk; apply Hdisjoint; lia |].
    assert (Hsamples : forall j, i <= j < i + Z.of_nat (S n) ->
              load16 m1 (ptr_add wav_data (2 * j)) =
                load16 m (ptr_add wav_data (2 * j))).
    { intros j Hj. unfold m1. apply load16_store8_ne;
        rewrite u32_ptr_add, ptr_add_assoc; apply Hdisjoint; lia. }
    split.
    + intros j Hj. destruct (Z.eq_dec j i) as [-> | Hne].
      * rewrite IHother.
        -- unfold m1. rewrite load8_store8_eq. apply u8_downscale.
        -- intros j Hj' Heq. rewrite u32_ptr_add in Heq.
           apply ptr_add_inj in Heq; lia.
      * rewrite IHfill by lia. rewrite Hsamples by lia. reflexivity.
    + intros q Hq. rewrite IHother by (intros j Hj; apply Hq; lia).
      unfold m1. apply load8_store8_ne. rewrite u32_ptr_add.
      intros Heq. apply (Hq i); [lia | auto].
Qed.


(** ** Every returning run of [play_wav] *)

(** Names the first step of a run that returned. *)
Ltac first_step Hrun a w1 Hfirst :=
  match type of Hrun with
  | match ?m ?w with _ => _ end = Some _ =>
      destruct (m w) as [[a w1] |] eqn:Hfirst; [| discriminate Hrun]
  end.

Lemma play_wav_returns file w w' :
  load8 (mem w) file <> 0 ->
  play_wav file w = Some (tt, w') ->
  exists p status polls idle sr pending done,
    inputs w =
      p :: status :: polls ++ idle :: sr :: pending ++ done :: inputs w' /\
    all_busy polls /\ u32 idle = 0 /\ all_pending pending /\ u32 done <> 0 /\
    let n := dma_data_length (mem w) file in
    let dma_data := u32 p in
    w' =
      mkWorld DEMO_MODE_PAUSED (last w)
        (downscale_loop (Z.to_nat n) 0
           (ptr_add (data_ptr (mem w) file) 8) dma_data (mem w))
        (inputs w')
        (trace w ++
         [EvPrint "preparing for playback\r\n" []; EvMalloc n] ++
         [EvCacheFlush dma_data n;
          EvSimpleTransfer dma_data n XAXIDMA_DMA_TO_DEVICE] ++
         (if u32 status =? XST_SUCCESS then []
          else [EvPrint "ERROR: failed to kick off MM2S transfer\r\n" []]) ++
         replicate (S (length polls)) (EvBusy XAXIDMA_DMA_TO_DEVICE) ++
         [EvReadReg (XAXIDMA_TX_OFFSET + XAXIDMA_SR_OFFSET)] ++
         (if Z.land (u32 sr) XAXIDMA_IRQ_ERROR_MASK =? 0
          then [EvCacheFlush dma_data n]
          else [EvPrint
                  "ERROR: AXI DMA returned an error during the MM2S transfer\r\n"
                  []]) ++
         [EvPrint "sleep for a while\r\n" []; EvSleep 2; EvFree dma_data;
          EvDmaReset] ++
         replicate (S (length pending)) EvResetIsDone ++
         [EvPrint "Exiting play mode\r\n" []]).
Proof.
  intros Hfirst Hrun. destruct w as [md l m ins tr].
  cbn [inputs mode last mem trace] in *.
  unfold play_wav in Hrun. monad_run_in Hrun.
  destruct (Z.eqb_spec (load8 m file) 0) as [Heq | _]; [contradiction |].
  monad_run_in Hrun.
  destruct ins as [| p rest]; [discriminate |].
  first_step Hrun r w1 Hsend.
  destruct w1 as [md1 l1 m1 ins1 tr1].
  apply dma_send_returns in Hsend
    as (status & polls & idle & sr & Hins & Hbusy & Hidle & _ & Hw1).
  cbn [inputs mode last mem trace] in *.
  injection Hw1 as -> -> -> ->. monad_run_in Hrun.
  first_step Hrun u w2 Hreset.
  destruct u, w2 as [md2 l2 m2 ins2 tr2].
  apply dma_reset_inv in Hreset
    as (pending & done & Hins2 & Hpending & Hdone & Hw2).
  cbn [inputs mode last mem trace] in *.
  injection Hw2 as -> -> -> ->. monad_run_in Hrun.
  injection Hrun as <-. cbn [inputs].
  exists p, status, polls, idle, sr, pending, done.
  rewrite Hins, Hins2.
  repeat split; auto.
  cbv zeta. f_equal.
  rewrite !replicate_S.
  repeat (progress (rewrite <- ?app_assoc; cbn [app])). reflexivity.
Qed.

(** X11.  What [play_wav] hands to the DMA.  When the block that
    [malloc] answered does not overlap the samples of the file, a
    returning run has asked for a transfer of [dma_data_length] bytes
    from that block, byte [j] of the block is the conversion of the
    16-bit sample [j] of the data chunk, and every address outside the
    block (the file among them) keeps its content.  The length is the
    number of whole 16-bit samples in the declared size of the chunk:
    an odd last byte is left out. *)
Theorem play_wav_sends_downscaled_samples
    (file : Z) (w w' : World) (p : Z) :
  let n := dma_data_length (mem w) file in
  let wav_data := ptr_add (data_ptr (mem w) file) 8 in
  let dma_data := u32 p in
  load8 (mem w) file <> 0 ->
  head (inputs w) = Some p ->
  (forall j k, 0 <= j < n -> 0 <= k < 2 * n ->
     ptr_add dma_data j <> ptr_add wav_data k) ->
  play_wav file w = Some (tt, w') ->
  EvSimpleTransfer dma_data n XAXIDMA_DMA_TO_DEVICE ∈ trace w' /\
  (forall j, 0 <= j < n ->
     load8 (mem w') (ptr_add dma_data j) =
       downscale (load16 (mem w) (ptr_add wav_data (2 * j)))) /\
  (forall q, (forall j, 0 <= j < n -> u32 q <> ptr_add dma_data j) ->
     load8 (mem w') q = load8 (mem w) q) /\
  0 <= buf2u32 (Wav.data_chunk_size (mem w) (data_ptr (mem w) file)) - 2 * n
    <= 1.
Proof.
  intros n wav_data dma_data Hfirst Hhead Hapart Hrun.
  apply play_wav_returns in Hrun
    as (p' & status & polls & idle & sr & pending & done & Hins & _ & _ & _ & _
        & Hw'); [| exact Hfirst].
  rewrite Hins in Hhead. injection Hhead as ->.
  cbv zeta in Hw'. fold n dma_data wav_data in Hw'.
  assert (Hn : 0 <= n < 2 ^ 31).
  { unfold n, dma_data_length.
    pose proof (u32_range
      (buf2u32 (Wav.data_chunk_size (mem w) (data_ptr (mem w) file)) * 1)).
    change (2 ^ 31) with 2147483648. split.
    - apply Z.div_pos; lia.
    - apply Z.div_lt_upper_bound; lia. }
  destruct (downscale_loop_fills (Z.to_nat n) 0 (mem w) wav_data dma_data)
    as [Hfill Hother].
  { lia. }
  { change (2 ^ 31) with 2147483648 in Hn. change (2 ^ 32) with 4294967296. lia. }
  { intros j k Hj Hk. apply Hapart; lia. }
  rewrite Hw'. cbn [mem trace]. split; [| split; [| split]].
  - rewrite !elem_of_app. right. right. left. rewrite !elem_of_cons. auto.
  - intros j Hj. apply Hfill. lia.
  - intros q Hq. apply Hother. intros j Hj. apply Hq. lia.
  - unfold n, dma_data_length. rewrite Z.mul_1_r.
    pose proof (buf2u32_range
      (Wav.data_chunk_size (mem w) (data_ptr (mem w) file))) as Hsize.
    change (2 ^ 32) with 4294967296 in Hsize.
    rewrite u32_small by lia.
    pose proof (Z.div_mod
      (buf2u32 (Wav.data_chunk_size (mem w) (data_ptr (mem w) file))) 2
      ltac:(lia)).
    pose proof (Z.mod_pos_bound
      (buf2u32 (Wav.data_chunk_size (mem w) (data_ptr (mem w) file))) 2
      ltac:(lia)).
    lia.
Qed.

Lemma play_wav_sends_downscaled_samples_witness :
  exists w',
    play_wav 0x80000000 holding_minimal_wav = Some (tt, w') /\
    (load8 (mem w') 0x81000000, load8 (mem w') 0x81000001,
     load8 (mem w') 0x81000002, load8 (mem w') 0x81000003) =
      (128, 0, 255, 129).
Proof.
  assert (Hreturns :
            (play_wav 0x80000000 holding_minimal_wav
               ≫= λ r, Some (inputs r.2)) = Some [])
    by (vm_compute; reflexivity).
  destruct (play_wav 0x80000000 holding_minimal_wav) as [[[] w'] |] eqn:Hrun;
    [| discriminate Hreturns].
  exists w'. split; [reflexivity |].
  assert (Hn : dma_data_length (mem holding_minimal_wav) 0x80000000 = 4)
    by (vm_compute; reflexivity).
  destruct (play_wav_sends_downscaled_samples
              0x80000000 holding_minimal_wav w' 0x81000000)
    as (_ & Hfill & _ & _).
  - vm_compute. discriminate.
  - reflexivity.
  - rewrite Hn. intros j k Hj Hk.
    assert (Hj' : j = 0 \/ j = 1 \/ j = 2 \/ j = 3) by lia.
    assert (Hk' : k = 0 \/ k = 1 \/ k = 2 \/ k = 3 \/
                  k = 4 \/ k = 5 \/ k = 6 \/ k = 7) by lia.
    destruct Hj' as [-> | [-> | [-> | ->]]];
      destruct Hk' as [-> | [-> | [-> | [-> | [-> | [-> | [-> | ->]]]]]]];
      vm_compute; discriminate.
  - exact Hrun.
  - rewrite Hn in Hfill.
    change 0x81000000 with (ptr_add (u32 0x81000000) 0) at 1.
    change 0x81000001 with (ptr_add (u32 0x81000000) 1).
    change 0x81000002 with (ptr_add (u32 0x81000000) 2).
    change 0x81000003 with (ptr_add (u32 0x81000000) 3).
    rewrite !Hfill by lia. vm_compute. reflexivity.
Defined.

(** X12.  The life of the block in [play_wav].  A returning run on a
    received file calls [malloc] once, for [dma_data_length] bytes,
    and uses the answer unchecked, a null pointer included: it starts
    one transfer of that length from it, waits, sleeps 2 seconds,
    frees that same pointer once and only then resets the engine.
    The run ends paused and leaves the snapshot of the inputs as it
    was. *)
Theorem play_wav_block_lifetime (file : Z) (w w' : World) :
  load8 (mem w) file <> 0 ->
  play_wav file w = Some (tt, w') ->
  exists p waiting resetting,
    let n := dma_data_length (mem w) file in
    head (inputs w) = Some p /\
    trace w' =
      trace w ++
      [EvPrint "preparing for playback\r\n" []; EvMalloc n;
       EvCacheFlush (u32 p) n;
       EvSimpleTransfer (u32 p) n XAXIDMA_DMA_TO_DEVICE] ++
      waiting ++
      [EvPrint "sleep for a while\r\n" []; EvSleep 2; EvFree (u32 p);
       EvDmaReset] ++
      resetting ++ [EvPrint "Exiting play mode\r\n" []] /\
    Forall quiet waiting /\
    Forall (eq EvResetIsDone) resetting /\
    mode w' = DEMO_MODE_PAUSED /\ last w' = last w.
Proof.
  intros Hfirst Hrun.
  apply play_wav_returns in Hrun
    as (p & status & polls & idle & sr & pending & done & Hins & _ & _ & _ & _
        & Hw'); [| exact Hfirst].
  cbv zeta in Hw'.
  exists p,
    ((if u32 status =? XST_SUCCESS then []
      else [EvPrint "ERROR: failed to kick off MM2S transfer\r\n" []]) ++
     replicate (S (length polls)) (EvBusy XAXIDMA_DMA_TO_DEVICE) ++
     [EvReadReg (XAXIDMA_TX_OFFSET + XAXIDMA_SR_OFFSET)] ++
     (if Z.land (u32 sr) XAXIDMA_IRQ_ERROR_MASK =? 0
      then [EvCacheFlush (u32 p) (dma_data_length (mem w) file)]
      else [EvPrint
              "ERROR: AXI DMA returned an error during the MM2S transfer\r\n"
              []])),
    (replicate (S (length pending)) EvResetIsDone).
  cbv zeta. rewrite Hins, Hw'. cbn [head mode last trace].
  split; [reflexivity |]. split.
  { f_equal. repeat (progress (rewrite <- ?app_assoc; cbn [app])). reflexivity. }
  split.
  { repeat apply Forall_app_2.
    - destruct (u32 status =? XST_SUCCESS); repeat constructor.
    - apply Forall_replicate. exact I.
    - repeat constructor.
    - destruct (Z.land (u32 sr) XAXIDMA_IRQ_ERROR_MASK =? 0); repeat constructor. }
  split; [apply Forall_replicate; reflexivity | auto].
Qed.

Lemma play_wav_block_lifetime_witness :
  exists w',
    play_wav 0x80000000 holding_minimal_wav = Some (tt, w') /\
    EvFree 0x81000000 ∈ trace w' /\ mode w' = DEMO_MODE_PAUSED.
Proof.
  assert (Hreturns :
            (play_wav 0x80000000 holding_minimal_wav
               ≫= λ r, Some (inputs r.2)) = Some [])
    by (vm_compute; reflexivity).
  destruct (play_wav 0x80000000 holding_minimal_wav) as [[[] w'] |] eqn:Hrun;
    [| discriminate Hreturns].
  exists w'. split; [reflexivity |].
  destruct (play_wav_block_lifetime 0x80000000 holding_minimal_wav w')
    as (p & waiting & resetting & Hp & Htrace & _ & _ & Hmode & _).
  - vm_compute. discriminate.
  - exact Hrun.
  - injection Hp as <-. split; [| exact Hmode].
    rewrite Htrace, !elem_of_app. do 3 right. left.
    rewrite !elem_of_cons. auto.
Defined.

(** ** What [recv_wav] takes from the UART *)






(** ** The transfers of [dma_sw_tone_gen] *)

Lemma transfers_app t1 t2 : transfers (t1 ++ t2) = transfers t1 ++ transfers t2.
Proof. apply omap_app. Qed.

Lemma transfers_cons e t : transfers (e :: t) = transfers [e] ++ transfers t.
Proof. apply (transfers_app [e] t). Qed.

Lemma transfers_replicate n e :
  transfers [e] = [] -> transfers (replicate n e) = [].
Proof.
  intros He. induction n as [| n IH]; [reflexivity |].
  change (replicate (S n) e) with ([e] ++ replicate n e).
  rewrite transfers_app, He, IH. reflexivity.
Qed.

(** A returning [dma_send] has started one transfer, the one it was
    asked for, and has left mode and memory alone. *)
Lemma dma_send_transfers buffer len w r w' :
  dma_send buffer len w = Some (r, w') ->
  transfers (trace w') =
    transfers (trace w) ++ [(buffer, len, XAXIDMA_DMA_TO_DEVICE)] /\
  mem w' = mem w /\ mode w' = mode w.
Proof.
  intros Hrun.
  apply dma_send_returns in Hrun
    as (status & polls & idle & sr & _ & _ & _ & _ & ->).
  cbn [trace mem mode]. split; [| auto].
  rewrite !transfers_app, transfers_replicate by reflexivity.
  destruct (u32 status =? XST_SUCCESS),
    (Z.land (u32 sr) XAXIDMA_IRQ_ERROR_MASK =? 0); reflexivity.
Qed.




Lemma load8_mem_fill m p val len j :
  0 <= j < len -> len <= 2 ^ 32 ->
  load8 (mem_fill m p val len) (ptr_add p j) = u8 val.
Proof.
  intros Hj Hlen. unfold load8, mem_fill.
  rewrite u32_ptr_add. unfold ptr_add, u32.
  rewrite Zminus_mod_idemp_l.
  replace (p + j - p) with j by lia.
  change (2 ^ 32) with 4294967296 in *.
  rewrite Z.mod_small by lia.
  destruct (Z.ltb_spec j len); [| lia].
  unfold u8. apply Z.mod_mod. lia.
Qed.

Section ToneTransfers.

Variable sine_sample : Z -> Z.
Variable temp_init : list Z.



End ToneTransfers.


(** ** [dma_forward] *)

Lemma transfers_cons_other e t :
  transfers [e] = [] -> transfers (e :: t) = transfers t.
Proof. intros He. rewrite transfers_cons, He. reflexivity. Qed.

Lemma transfers_cons_kickoff addr len dir t :
  transfers (EvSimpleTransfer addr len dir :: t) =
    (addr, len, dir) :: transfers t.
Proof. reflexivity. Qed.

(** A returning [dma_receive] has started one transfer, the one it was
    asked for, whether or not it went through, and has left mode and
    memory alone. *)
Lemma dma_receive_transfers buffer len w r w' :
  dma_receive buffer len w = Some (r, w') ->
  transfers (trace w') =
    transfers (trace w) ++ [(buffer, len, XAXIDMA_DEVICE_TO_DMA)] /\
  mem w' = mem w /\ mode w' = mode w.
Proof.
  intros Hrun.
  destruct (dma_receive_inv _ _ _ _ _ Hrun)
    as (status & [(Hrefused & Hins) |
                  (Hok & polls & idle & sr & Hins & Hbusy & Hidle)]);
    destruct w as [md l m ins tr]; cbn [inputs mode last mem trace] in *;
    subst ins.
  - rewrite (dma_receive_kickoff_failure buffer len md l m tr status (inputs w'))
      in Hrun by assumption.
    injection Hrun as _ <-. cbn [mode mem trace]. split; [| auto].
    rewrite transfers_app. reflexivity.
  - rewrite (dma_receive_run buffer len md l m tr status polls idle sr (inputs w'))
      in Hrun by assumption.
    injection Hrun as _ <-. cbn [mode mem trace]. split; [| auto].
    rewrite transfers_app, (transfers_cons_other (EvCacheFlush _ _)),
      transfers_cons_kickoff, (transfers_cons_other (EvBusy _)),
      transfers_app, transfers_replicate,
      (transfers_cons_other (EvReadReg _)) by reflexivity.
    destruct (Z.land (u32 sr) XAXIDMA_IRQ_ERROR_MASK =? 0); reflexivity.
Qed.

Lemma word_requests_S buffer i n :
  word_requests buffer i (S n) =
    (ptr_add buffer (4 * i), 4, XAXIDMA_DEVICE_TO_DMA) ::
    word_requests buffer (i + 1) n.
Proof.
  unfold word_requests. rewrite seqZ_cons by lia. cbn [fmap list_fmap].
  do 3 f_equal; lia.
Qed.

(** The loop asks for every word, whatever the calls return. *)
Lemma forward_receives_transfers buffer n : forall i w w',
  forward_receives n buffer i w = Some (tt, w') ->
  transfers (trace w') = transfers (trace w) ++ word_requests buffer i n /\
  mem w' = mem w /\ mode w' = mode w.
Proof.
  induction n as [| n IH]; intros i w w' Hrun.
  - injection Hrun as <-. unfold word_requests. cbn.
    rewrite app_nil_r. auto.
  - cbn [forward_receives] in Hrun.
    apply bind_Some in Hrun as (status & w1 & Hreceive & Hrun).
    apply dma_receive_transfers in Hreceive as (Ht1 & Hm1 & Hmd1).
    apply IH in Hrun as (Ht & Hm & Hmd).
    rewrite Ht, Ht1, Hm, Hm1, Hmd, Hmd1, word_requests_S, <- app_assoc.
    auto.
Qed.

(** X15.  [dma_forward], which [main] no longer calls, asks the engine
    for 256 words from the device, one transfer of 4 bytes for each
    word of the block, in order, and goes on to the next whatever the
    call before returned; it then sends the 1024 bytes of the block
    with one transfer and frees the block.  The program itself writes
    only the zeros of the [memset] to memory, and the mode is left as
    it was: nothing here pauses the demo. *)
Theorem dma_forward_transfers (w w' : World) :
  dma_forward w = Some (tt, w') ->
  exists p before,
    head (inputs w) = Some p /\
    transfers (trace w') =
      transfers (trace w) ++
      word_requests (u32 p) 0 256 ++
      [(u32 p, 1024, XAXIDMA_DMA_TO_DEVICE)] /\
    trace w' = before ++ [EvPrint "  3.\r\n" []; EvFree (u32 p)] /\
    mem w' = mem_fill (mem w) (u32 p) 0 1024 /\
    mode w' = mode w.
Proof.
  intros Hrun. destruct w as [md l m ins tr].
  unfold dma_forward, VERBOSE, memset in Hrun. monad_run_in Hrun.
  destruct ins as [| p rest]; [discriminate Hrun |].
  first_step Hrun u w1 Hreceives. destruct u.
  apply forward_receives_transfers in Hreceives as (Ht1 & Hm1 & Hmd1).
  destruct w1 as [md1 l1 m1 ins1 tr1]. cbn [trace mem mode] in Ht1, Hm1, Hmd1.
  monad_run_in Hrun.
  first_step Hrun status w2 Hsend.
  apply dma_send_transfers in Hsend as (Ht2 & Hm2 & Hmd2).
  destruct w2 as [md2 l2 m2 ins2 tr2]. cbn [trace mem mode] in Ht2, Hm2, Hmd2.
  monad_run_in Hrun. injection Hrun as <-.
  exists p, tr2. cbn [head inputs trace mem mode].
  split; [reflexivity |]. split.
  - rewrite <- app_assoc, transfers_app. cbn [app].
    change (transfers [_; _]) with (@nil (Z * Z * Direction)).
    rewrite app_nil_r, Ht2, transfers_app, Ht1, !transfers_app.
    cbn. rewrite !app_nil_r, <- !app_assoc. reflexivity.
  - split; [rewrite <- app_assoc; reflexivity |].
    split; [rewrite Hm2, Hm1; reflexivity | rewrite Hmd2, Hmd1; reflexivity].
Qed.

Lemma dma_forward_transfers_witness :
  exists w',
    dma_forward forwarding = Some (tt, w') /\
    length (transfers (trace w')) = 257%nat /\
    mode w' = DEMO_MODE_HW_TONE_GEN.
Proof.
  assert (Hreturns : (dma_forward forwarding ≫= λ r, Some (inputs r.2)) = Some [])
    by (vm_compute; reflexivity).
  destruct (dma_forward forwarding) as [[[] w'] |] eqn:Hrun;
    [| discriminate Hreturns].
  destruct (dma_forward_transfers forwarding w' Hrun)
    as (p & before & _ & Htransfers & _ & _ & Hmode).
  exists w'. split; [reflexivity |]. split; [| exact Hmode].
  rewrite Htransfers. unfold word_requests.
  rewrite !length_app, length_fmap, length_seqZ. reflexivity.
Defined.

(** ** [init_dma] and [init] *)

Ltac unfold_setup :=
  unfold XAxiDma_LookupConfig, XAxiDma_CfgInitialize, XAxiDma_HasSg,
    XAxiDma_IntrDisable, MaxTransferLen, XGpio_Initialize,
    XGpio_SetDataDirection, XGpio_GetDataDirection, XUartLite_Initialize,
    XUartLite_DisableInterrupt.

Ltac unfold_setup_in H :=
  unfold XAxiDma_LookupConfig, XAxiDma_CfgInitialize, XAxiDma_HasSg,
    XAxiDma_IntrDisable, MaxTransferLen, XGpio_Initialize,
    XGpio_SetDataDirection, XGpio_GetDataDirection, XUartLite_Initialize,
    XUartLite_DisableInterrupt in H.

(** The run of [init_dma] on a board whose engine is found,
    initialises, is not in scatter-gather mode and completes its
    reset. *)
Lemma init_dma_run id md l m tr cfg status sg pending done len rest :
  u32 cfg <> 0 -> u32 status = XST_SUCCESS -> u32 sg = 0 ->
  all_pending pending -> u32 done <> 0 ->
  init_dma id
    (mkWorld md l m (cfg :: status :: sg :: pending ++ done :: len :: rest) tr) =
  Some (XST_SUCCESS,
        mkWorld md l m rest
          (tr ++ EvDmaReset :: replicate (S (length pending)) EvResetIsDone ++
           [EvPrint "Note: MaxTransferLen=%d\r\n" [ArgInt (u32 len)]])).
Proof.
  intros Hcfg Hstatus Hsg Hpending Hdone.
  unfold init_dma. unfold_setup. monad_run.
  destruct (Z.eqb_spec (u32 cfg) 0) as [| _]; [contradiction |].
  monad_run. rewrite Hstatus. cbn [Z.eqb XST_SUCCESS]. monad_run.
  rewrite Hsg. cbn [Z.eqb]. monad_run.
  unfold loop. cbn [inputs].
  rewrite reset_loop_fuel; auto.
  - monad_run. do 3 f_equal.
    repeat (progress (rewrite <- ?app_assoc; cbn [app])). reflexivity.
  - rewrite length_app. cbn [length]. lia.
Qed.

(** Every returning run of [init_dma]. *)
Lemma init_dma_returns id w r w' :
  init_dma id w = Some (r, w') ->
  exists cfg,
    head (inputs w) = Some cfg /\
    ((r = XST_SUCCESS /\ u32 cfg <> 0 /\
      exists status sg pending done len,
        inputs w =
          cfg :: status :: sg :: pending ++ done :: len :: inputs w' /\
        u32 status = XST_SUCCESS /\ u32 sg = 0 /\
        all_pending pending /\ u32 done <> 0 /\
        w' = mkWorld (mode w) (last w) (mem w) (inputs w')
               (trace w ++
                EvDmaReset :: replicate (S (length pending)) EvResetIsDone ++
                [EvPrint "Note: MaxTransferLen=%d\r\n" [ArgInt (u32 len)]])) \/
     (r = XST_FAILURE /\
      exists message args,
        w' = mkWorld (mode w) (last w) (mem w) (inputs w')
               (trace w ++ [EvPrint message args]) /\
        ((u32 cfg = 0 /\ inputs w = cfg :: inputs w') \/
         (u32 cfg <> 0 /\
          exists status,
            u32 status <> XST_SUCCESS /\
            inputs w = cfg :: status :: inputs w') \/
         (u32 cfg <> 0 /\
          exists status sg,
            u32 status = XST_SUCCESS /\ u32 sg <> 0 /\
            inputs w = cfg :: status :: sg :: inputs w')))).
Proof.
  intros Hrun. destruct w as [md l m ins tr].
  unfold init_dma in Hrun. unfold_setup_in Hrun. monad_run_in Hrun.
  destruct ins as [| cfg ins]; [discriminate Hrun |].
  exists cfg. cbn [head inputs mode last mem trace]. split; [reflexivity |].
  destruct (Z.eqb_spec (u32 cfg) 0) as [Hcfg | Hcfg].
  { monad_run_in Hrun. injection Hrun as <- <-. right.
    split; [reflexivity |]. do 2 eexists. cbn [inputs]. eauto. }
  monad_run_in Hrun.
  destruct ins as [| status ins]; [discriminate Hrun |].
  destruct (Z.eqb_spec (u32 status) XST_SUCCESS) as [Hstatus | Hstatus].
  2: { monad_run_in Hrun. injection Hrun as <- <-. right.
       split; [reflexivity |]. do 2 eexists. cbn [inputs].
       split; [reflexivity |]. right. left. eauto. }
  monad_run_in Hrun.
  destruct ins as [| sg ins]; [discriminate Hrun |].
  destruct (Z.eqb_spec (u32 sg) 0) as [Hsg | Hsg].
  2: { monad_run_in Hrun. injection Hrun as <- <-. right.
       split; [reflexivity |]. do 2 eexists. cbn [inputs].
       split; [reflexivity |]. right. right. eauto 10. }
  monad_run_in Hrun.
  first_step Hrun u w1 Hreset. destruct u.
  apply reset_loop_fuel_inv in Hreset
    as (pending & done & Hins & Hpending & Hdone & Hw1).
  destruct w1 as [md1 l1 m1 ins1 tr1].
  cbn [inputs mode last mem trace] in Hins, Hw1.
  injection Hw1 as -> -> -> ->. monad_run_in Hrun.
  destruct ins1 as [| len ins1]; [discriminate Hrun |].
  injection Hrun as <- <-. left. cbn [inputs].
  split; [reflexivity |]. split; [exact Hcfg |].
  exists status, sg, pending, done, len. rewrite Hins.
  repeat split; auto. f_equal.
  rewrite ?replicate_S.
  repeat (progress (rewrite <- ?app_assoc; cbn [app])). reflexivity.
Qed.

(** X16.  [init_dma] succeeds on one path only.  It returns
    [XST_SUCCESS] when the configuration is found, the driver
    initialises and the engine is not in scatter-gather mode; it has
    then reset the engine once, polled until the reset was done and
    printed the maximal transfer length.  In every other returning run
    it returns [XST_FAILURE] at the first step that fails, after one
    message and nothing else: the later steps are not tried and the
    engine is not reset.  No status of a driver is passed on, and
    mode, snapshot and memory stay as they were. *)
Theorem init_dma_every_run (id : Z) (w : World) (r : Z) (w' : World) :
  init_dma id w = Some (r, w') ->
  mode w' = mode w /\ last w' = last w /\ mem w' = mem w /\
  exists cfg,
    head (inputs w) = Some cfg /\
    ((r = XST_SUCCESS /\ u32 cfg <> 0 /\
      exists status sg pending done len,
        inputs w =
          cfg :: status :: sg :: pending ++ done :: len :: inputs w' /\
        u32 status = XST_SUCCESS /\ u32 sg = 0 /\
        all_pending pending /\ u32 done <> 0 /\
        trace w' =
          trace w ++
          EvDmaReset :: replicate (S (length pending)) EvResetIsDone ++
          [EvPrint "Note: MaxTransferLen=%d\r\n" [ArgInt (u32 len)]]) \/
     (r = XST_FAILURE /\
      (exists message args, trace w' = trace w ++ [EvPrint message args]) /\
      ((u32 cfg = 0 /\ inputs w = cfg :: inputs w') \/
       (u32 cfg <> 0 /\
        exists status,
          u32 status <> XST_SUCCESS /\
          inputs w = cfg :: status :: inputs w') \/
       (u32 cfg <> 0 /\
        exists status sg,
          u32 status = XST_SUCCESS /\ u32 sg <> 0 /\
          inputs w = cfg :: status :: sg :: inputs w')))).
Proof.
  intros Hrun. destruct w' as [md' l' m' ins' tr'].
  apply init_dma_returns in Hrun
    as (cfg & Hhead &
        [(-> & Hcfg & status & sg & pending & done & len & Hins & Hstatus & Hsg
          & Hpending & Hdone & Hw') |
         (-> & message & args & Hw' & Hcases)]);
    cbn [inputs] in *; injection Hw' as -> -> -> ->;
    cbn [mode last mem trace]; repeat split; exists cfg;
    (split; [exact Hhead |]).
  - left. repeat split; auto. exists status, sg, pending, done, len. auto 10.
  - right. split; [reflexivity |]. split; [| exact Hcases].
    exists message, args. reflexivity.
Qed.

Lemma init_dma_every_run_witness :
  let w := mkWorld DEMO_MODE_PAUSED (mkGpioIn 0 0 0 0 0 0) (fun _ => 0)
             [0x4000; XST_SUCCESS; 1; 0; 1] [] in
  exists w',
    init_dma 4 w = Some (XST_FAILURE, w') /\
    mode w' = DEMO_MODE_PAUSED /\
    exists message args, trace w' = [EvPrint message args].
Proof.
  intros w.
  assert (Hreturns : (init_dma 4 w ≫= λ r, Some r.1) = Some XST_FAILURE)
    by (vm_compute; reflexivity).
  destruct (init_dma 4 w) as [[r w'] |] eqn:Hrun; [| discriminate Hreturns].
  injection Hreturns as Hr. cbn in Hr. subst r.
  exists w'. split; [reflexivity |].
  destruct (init_dma_every_run 4 w XST_FAILURE w' Hrun)
    as (Hmode & _ & _ & cfg & _ & [(Hr & _) | (_ & Hmessage & _)]).
  - discriminate Hr.
  - split; [exact Hmode | exact Hmessage].
Defined.

Section BoardSetup.

Variable XPAR_GPIO_OUT_DEVICE_ID : Z.
Variable XPAR_GPIO_IN_DEVICE_ID : Z.
Variable XPAR_AXI_UARTLITE_0_DEVICE_ID : Z.
Variable XPAR_AXI_DMA_0_DEVICE_ID : Z.

Local Abbreviation init_board :=
  (init XPAR_GPIO_OUT_DEVICE_ID XPAR_GPIO_IN_DEVICE_ID
     XPAR_AXI_UARTLITE_0_DEVICE_ID XPAR_AXI_DMA_0_DEVICE_ID).

(** The two lines that show the data directions. *)
Local Abbreviation directions d1 d2 d3 d4 :=
  [EvPrint "%08x %08x\r\n" [ArgInt (u32 d1); ArgInt (u32 d2)];
   EvPrint "%08x %08x\r\n" [ArgInt (u32 d3); ArgInt (u32 d4)]].

(** [init] hands over to [init_dma] when both GPIO drivers
    initialise, whatever the UART driver answers. *)
Lemma init_run md l m tr out d1 d2 inn d3 d4 uart rest :
  u32 out = XST_SUCCESS -> u32 inn = XST_SUCCESS ->
  init_board (mkWorld md l m (out :: d1 :: d2 :: inn :: d3 :: d4 :: uart :: rest) tr) =
  match init_dma XPAR_AXI_DMA_0_DEVICE_ID
          (mkWorld md l m rest (tr ++ directions d1 d2 d3 d4)) with
  | Some (status, w') =>
      Some (if status =? XST_SUCCESS then XST_SUCCESS else XST_FAILURE, w')
  | None => None
  end.
Proof.
  intros Hout Hinn. unfold init. unfold_setup. monad_run.
  rewrite Hout. cbn [Z.eqb XST_SUCCESS]. monad_run.
  rewrite Hinn. cbn [Z.eqb XST_SUCCESS]. monad_run.
  rewrite <- app_assoc. cbn [app].
  destruct (init_dma _ _) as [[status w'] |]; [| reflexivity].
  destruct (status =? XST_SUCCESS); reflexivity.
Qed.

(** Every returning run of [init]. *)
Lemma init_returns w r w' :
  init_board w = Some (r, w') ->
  exists out,
    head (inputs w) = Some out /\
    ((u32 out <> XST_SUCCESS /\ r = XST_FAILURE /\
      w' = mkWorld (mode w) (last w) (mem w) (tail (inputs w)) (trace w)) \/
     (u32 out = XST_SUCCESS /\
      exists d1 d2 inn rest,
        inputs w = out :: d1 :: d2 :: inn :: rest /\
        ((u32 inn <> XST_SUCCESS /\ r = XST_FAILURE /\
          w' = mkWorld (mode w) (last w) (mem w) rest
                 (trace w ++
                  [EvPrint "%08x %08x\r\n" [ArgInt (u32 d1); ArgInt (u32 d2)]])) \/
         (u32 inn = XST_SUCCESS /\
          exists d3 d4 uart rest' status,
            rest = d3 :: d4 :: uart :: rest' /\
            init_dma XPAR_AXI_DMA_0_DEVICE_ID
              (mkWorld (mode w) (last w) (mem w) rest'
                 (trace w ++ directions d1 d2 d3 d4)) = Some (status, w') /\
            r = (if status =? XST_SUCCESS then XST_SUCCESS
                 else XST_FAILURE))))).
Proof.
  intros Hrun. destruct w as [md l m ins tr].
  cbn [inputs mode last mem trace].
  destruct ins as [| out ins];
    [unfold init in Hrun; unfold_setup_in Hrun; monad_run_in Hrun;
     discriminate Hrun |].
  exists out. split; [reflexivity |].
  destruct (Z.eqb_spec (u32 out) XST_SUCCESS) as [Hout | Hout].
  2: { left. unfold init in Hrun. unfold_setup_in Hrun.
       monad_run_in Hrun.
       destruct (Z.eqb_spec (u32 out) XST_SUCCESS) as [| _]; [contradiction |].
       monad_run_in Hrun. injection Hrun as <- <-. auto. }
  right. split; [exact Hout |].
  destruct ins as [| d1 [| d2 [| inn ins]]];
    try (unfold init in Hrun; unfold_setup_in Hrun;
         monad_run_in Hrun; rewrite Hout in Hrun; discriminate Hrun).
  exists d1, d2, inn, ins. split; [reflexivity |].
  destruct (Z.eqb_spec (u32 inn) XST_SUCCESS) as [Hinn | Hinn].
  2: { left. unfold init in Hrun. unfold_setup_in Hrun.
       monad_run_in Hrun. rewrite Hout in Hrun.
       cbn [Z.eqb XST_SUCCESS] in Hrun. monad_run_in Hrun.
       destruct (Z.eqb_spec (u32 inn) XST_SUCCESS) as [| _]; [contradiction |].
       monad_run_in Hrun. injection Hrun as <- <-. auto. }
  right. split; [exact Hinn |].
  destruct ins as [| d3 [| d4 [| uart ins]]];
    try (unfold init in Hrun; unfold_setup_in Hrun;
         monad_run_in Hrun; rewrite Hout in Hrun;
         cbn [Z.eqb XST_SUCCESS] in Hrun; monad_run_in Hrun;
         rewrite Hinn in Hrun; discriminate Hrun).
  rewrite init_run in Hrun by assumption.
  destruct (init_dma _ _) as [[status w1] |] eqn:Hdma; [| discriminate Hrun].
  injection Hrun as <- <-.
  exists d3, d4, uart, ins, status. auto.
Qed.

(** X17.  [init] succeeds on one path only.  It returns
    [XST_SUCCESS] exactly when both GPIO drivers initialise and
    [init_dma] succeeds; what [XUartLite_Initialize] returns plays no
    part.  Every other returning run returns [XST_FAILURE], and no
    status of a driver is passed on.  When the first driver fails
    nothing else is set up: no line is printed and no further call
    asks the board anything.  Mode, snapshot and memory stay as they
    were. *)
Theorem init_every_run (w : World) (r : Z) (w' : World) :
  init_board w = Some (r, w') ->
  (r = XST_SUCCESS \/ r = XST_FAILURE) /\
  mode w' = mode w /\ last w' = last w /\ mem w' = mem w /\
  (r = XST_SUCCESS <->
   exists out d1 d2 inn d3 d4 uart cfg status sg pending done len,
     inputs w =
       out :: d1 :: d2 :: inn :: d3 :: d4 :: uart ::
       cfg :: status :: sg :: pending ++ done :: len :: inputs w' /\
     u32 out = XST_SUCCESS /\ u32 inn = XST_SUCCESS /\
     u32 cfg <> 0 /\ u32 status = XST_SUCCESS /\ u32 sg = 0 /\
     all_pending pending /\ u32 done <> 0) /\
  (forall out, head (inputs w) = Some out -> u32 out <> XST_SUCCESS ->
     r = XST_FAILURE /\ trace w' = trace w /\ inputs w = out :: inputs w').
Proof.
  intros Hrun.
  assert (Hback :
    (exists out d1 d2 inn d3 d4 uart cfg status sg pending done len,
       inputs w =
         out :: d1 :: d2 :: inn :: d3 :: d4 :: uart ::
         cfg :: status :: sg :: pending ++ done :: len :: inputs w' /\
       u32 out = XST_SUCCESS /\ u32 inn = XST_SUCCESS /\
       u32 cfg <> 0 /\ u32 status = XST_SUCCESS /\ u32 sg = 0 /\
       all_pending pending /\ u32 done <> 0) -> r = XST_SUCCESS).
  { intros (out & d1 & d2 & inn & d3 & d4 & uart & cfg & status & sg & pending
            & done & len & Hins & Hout & Hinn & Hcfg & Hstatus & Hsg & Hpending
            & Hdone).
    destruct w as [md l m ins tr]. cbn [inputs] in Hins. subst ins.
    rewrite init_run in Hrun by assumption.
    rewrite init_dma_run in Hrun by assumption.
    injection Hrun as <- _. reflexivity. }
  destruct w' as [md' l' m' ins' tr'].
  apply init_returns in Hrun
    as (out & Hhead &
        [(Hout & -> & Hw') |
         (Hout & d1 & d2 & inn & rest & Hins &
          [(Hinn & -> & Hw') |
           (Hinn & d3 & d4 & uart & rest' & status & -> & Hdma & ->)])]).
  - injection Hw' as -> -> -> -> ->. cbn [mode last mem trace inputs].
    split; [auto |]. do 3 (split; [reflexivity |]).
    split; [split; [discriminate | exact Hback] |].
    intros out' Hhead' _. split; [reflexivity |]. split; [reflexivity |].
    destruct (inputs w); [discriminate Hhead' |].
    injection Hhead' as ->. reflexivity.
  - injection Hw' as -> -> -> -> ->. cbn [mode last mem trace inputs].
    split; [auto |]. do 3 (split; [reflexivity |]).
    split; [split; [discriminate | exact Hback] |].
    intros out' Hhead' Hrefused. rewrite Hhead in Hhead'.
    injection Hhead' as <-. contradiction.
  - apply init_dma_returns in Hdma
      as (cfg & Hcfg &
          [(-> & Hcfg' & status & sg & pending & done & len & Hins' & Hstatus
            & Hsg & Hpending & Hdone & Hw') |
           (-> & message & args & Hw' & _)]);
      cbn [inputs mode last mem trace] in *;
      injection Hw' as -> -> -> ->; cbn [Z.eqb XST_SUCCESS XST_FAILURE].
    + split; [auto |]. do 3 (split; [reflexivity |]).
      split.
      * split; [intros _ | reflexivity].
        exists out, d1, d2, inn, d3, d4, uart, cfg, status, sg, pending, done, len.
        rewrite Hins, Hins'. auto 10.
      * intros out' Hhead' Hrefused. rewrite Hhead in Hhead'.
        injection Hhead' as <-. contradiction.
    + split; [auto |]. do 3 (split; [reflexivity |]).
      split; [split; [discriminate | exact Hback] |].
      intros out' Hhead' Hrefused. rewrite Hhead in Hhead'.
      injection Hhead' as <-. contradiction.
Qed.

End BoardSetup.

Lemma init_every_run_witness :
  let w := mkWorld DEMO_MODE_PAUSED (mkGpioIn 0 0 0 0 0 0) (fun _ => 0)
             [XST_SUCCESS; 0xFF; 0; XST_SUCCESS; 0; 0xFFFF; XST_FAILURE;
              0x4000; XST_SUCCESS; 0; 0; 1; 0x3FFF; 7] [] in
  exists w',
    init 1 2 3 4 w = Some (XST_SUCCESS, w') /\
    inputs w' = [7] /\ mode w' = DEMO_MODE_PAUSED /\
    exists uart, w.(inputs) !! 6%nat = Some uart /\ u32 uart <> XST_SUCCESS.
Proof.
  intros w.
  assert (Hreturns :
            (init 1 2 3 4 w ≫= λ r, Some (r.1, inputs r.2)) =
            Some (XST_SUCCESS, [7]))
    by (vm_compute; reflexivity).
  destruct (init 1 2 3 4 w) as [[r w'] |] eqn:Hrun; [| discriminate Hreturns].
  injection Hreturns as Hr Hins. cbn in Hr, Hins. subst r.
  destruct (init_every_run 1 2 3 4 w XST_SUCCESS w' Hrun)
    as (_ & Hmode & _ & _ & _ & _).
  exists w'. split; [reflexivity |]. split; [exact Hins |].
  split; [exact Hmode |].
  exists XST_FAILURE. split; [reflexivity | discriminate].
Defined.

(** ** [main] *)

Section Main.

Variable XPAR_GPIO_OUT_DEVICE_ID : Z.
Variable XPAR_GPIO_IN_DEVICE_ID : Z.
Variable XPAR_AXI_UARTLITE_0_DEVICE_ID : Z.
Variable XPAR_AXI_DMA_0_DEVICE_ID : Z.
Variable sine_sample : Z -> Z.
Variable temp_init : list Z.

Local Abbreviation init_board :=
  (init XPAR_GPIO_OUT_DEVICE_ID XPAR_GPIO_IN_DEVICE_ID
     XPAR_AXI_UARTLITE_0_DEVICE_ID XPAR_AXI_DMA_0_DEVICE_ID).

Local Abbreviation start :=
  (main_start XPAR_GPIO_OUT_DEVICE_ID XPAR_GPIO_IN_DEVICE_ID
     XPAR_AXI_UARTLITE_0_DEVICE_ID XPAR_AXI_DMA_0_DEVICE_ID).

Local Abbreviation rounds := (main_rounds sine_sample temp_init).

Local Abbreviation main_cut :=
  (main XPAR_GPIO_OUT_DEVICE_ID XPAR_GPIO_IN_DEVICE_ID
     XPAR_AXI_UARTLITE_0_DEVICE_ID XPAR_AXI_DMA_0_DEVICE_ID
     sine_sample temp_init).

Ltac unfold_init :=
  unfold init, init_dma, poll_reset_done, XAxiDma_Reset, XAxiDma_ResetIsDone,
    xil_printf;
  unfold_setup.

Lemma keeps_mem_init : keeps mem init_board.
Proof. unfold_init. walk. Qed.

Lemma keeps_last_init : keeps last init_board.
Proof. unfold_init. walk. Qed.

Lemma emits_init : emits not_s2mm init_board.
Proof. unfold_init. walk. Qed.

Lemma emits_main_start : emits not_s2mm start.
Proof.
  pose proof emits_init.
  unfold main_start, malloc, memset, xil_printf, sleep. walk.
Qed.

(** Every returning run of [main] up to its loop. *)
Lemma main_start_returns w file w' :
  start w = Some (file, w') ->
  exists p status,
    head (inputs w) = Some p /\ file = u32 p /\
    mode w' = DEMO_MODE_SW_TONE_GEN /\ last w' = last w /\
    mem w' = mem_fill (mem w) file 0 max_file_size /\
    exists before,
      trace w' =
        before ++
        (if status =? XST_SUCCESS then [EvPrint "Demo started\r\n" []]
         else [EvPrint "ERROR: Demo not initialized correctly\r\n" [];
               EvSleep 1]).
Proof.
  intros Hrun. destruct w as [md l m ins tr].
  unfold main_start, memset in Hrun. monad_run_in Hrun.
  destruct ins as [| p rest]; [discriminate Hrun |].
  first_step Hrun status w1 Hinit.
  pose proof (keeps_mem_init _ _ _ Hinit) as Hmem.
  pose proof (keeps_last_init _ _ _ Hinit) as Hlast.
  destruct w1 as [md1 l1 m1 ins1 tr1]. cbn [mem last] in Hmem, Hlast.
  exists p, status. cbn [head inputs mode last mem].
  destruct (status =? XST_SUCCESS); monad_run_in Hrun;
    injection Hrun as <- <-; cbn [mode last mem trace];
    (split; [reflexivity |]); (split; [reflexivity |]);
    (split; [reflexivity |]); (split; [exact Hlast |]);
    (split; [exact Hmem |]).
  - exists tr1. reflexivity.
  - exists tr1. rewrite <- app_assoc. reflexivity.
Qed.

(** X18.  [main] goes on whatever [init] returned.  Every returning
    run of its start ends in the software-tone mode, after the line
    that the demo has started or after the message that it has not and
    a second of sleep.  The [max_file_size] bytes of the file buffer
    are zero, its first byte in particular, so that a request to play
    before a file was received is refused with a message and pauses
    the demo. *)
Theorem main_start_every_run (w : World) (file : Z) (w' : World) :
  start w = Some (file, w') ->
  mode w' = DEMO_MODE_SW_TONE_GEN /\
  last w' = last w /\
  (exists p, head (inputs w) = Some p /\ file = u32 p) /\
  (forall j, 0 <= j < max_file_size ->
     load8 (mem w') (ptr_add file j) = 0) /\
  (exists before,
     trace w' = before ++ [EvPrint "Demo started\r\n" []] \/
     trace w' =
       before ++
       [EvPrint "ERROR: Demo not initialized correctly\r\n" []; EvSleep 1]) /\
  play_wav file w' =
    Some (tt, mkWorld DEMO_MODE_PAUSED (last w') (mem w') (inputs w')
                (trace w' ++
                 [EvPrint "preparing for playback\r\n" [];
                  EvPrint "Must receive a WAV file to be able to play\r\n" []])).
Proof.
  intros Hrun.
  apply main_start_returns in Hrun
    as (p & status & Hhead & Hfile & Hmode & Hlast & Hmem & before & Htrace).
  assert (Hzero : forall j, 0 <= j < max_file_size ->
            load8 (mem w') (ptr_add file j) = 0).
  { intros j Hj. rewrite Hmem. rewrite load8_mem_fill; [reflexivity | exact Hj |].
    unfold max_file_size. change (2 ^ 32) with 4294967296. lia. }
  split; [exact Hmode |]. split; [exact Hlast |].
  split; [eauto |]. split; [exact Hzero |]. split.
  - exists before. rewrite Htrace.
    destruct (status =? XST_SUCCESS); auto.
  - assert (Hfirst : load8 (mem w') file = 0).
    { specialize (Hzero 0 ltac:(unfold max_file_size; lia)).
      unfold ptr_add in Hzero. rewrite Z.add_0_r in Hzero.
      unfold load8 in Hzero |- *. rewrite Hfile in Hzero |- *.
      unfold u32 in Hzero |- *. rewrite Z.mod_mod in Hzero by lia.
      exact Hzero. }
    destruct w' as [md' l' m' ins' tr']. cbn [mode last mem inputs trace] in *.
    unfold play_wav. monad_run. rewrite Hfirst. cbn [Z.eqb]. monad_run.
    rewrite <- app_assoc. reflexivity.
Qed.

Lemma emits_main_rounds file n : emits not_s2mm (rounds n file).
Proof.
  induction n as [| n IH]; cbn [main_rounds].
  - apply emits_ret.
  - apply emits_bind; [apply emits_main_iteration | intros _; exact IH].
Qed.

Lemma main_rounds_mode file n : forall w w',
  rounds n file w = Some (tt, w') ->
  mode w <> DEMO_MODE_HW_TONE_GEN ->
  mode w' = match n with O => mode w | S _ => DEMO_MODE_PAUSED end.
Proof.
  induction n as [| n IH]; intros w w' Hrun Hmode; cbn [main_rounds] in Hrun.
  - injection Hrun as <-. reflexivity.
  - apply bind_Some in Hrun as ([] & w1 & Hround & Hrun).
    apply main_iteration_pauses in Hround; [| exact Hmode].
    rename Hround into Hpaused.
    apply IH in Hrun; [| rewrite Hpaused; discriminate].
    rewrite Hrun. destruct n; [exact Hpaused | reflexivity].
Qed.

(** X19.  The modes of [main].  However many rounds of its loop have
    returned, the demo is in the software-tone mode before the first
    and paused after each: the hardware-tone mode, whose action the
    loop leaves out, is never entered, and every action ends by
    pausing the demo.  In all that time no transfer from the device to
    memory is started. *)
Theorem main_modes (n : nat) (w w' : World) :
  main_cut n w = Some (tt, w') ->
  mode w' =
    match n with
    | O => DEMO_MODE_SW_TONE_GEN
    | S _ => DEMO_MODE_PAUSED
    end /\
  exists t,
    trace w' = trace w ++ t /\
    forall addr len, EvSimpleTransfer addr len XAXIDMA_DEVICE_TO_DMA ∉ t.
Proof.
  unfold main. intros Hrun.
  assert (Hemits : emits not_s2mm (main_cut n)).
  { unfold main. apply emits_bind; [apply emits_main_start |].
    intros file. apply emits_main_rounds. }
  split.
  - apply bind_Some in Hrun as (file & w1 & Hstart & Hrounds).
    apply main_start_returns in Hstart as (_ & _ & _ & _ & Hmode & _).
    apply main_rounds_mode in Hrounds; [| rewrite Hmode; discriminate].
    rewrite Hrounds, Hmode. destruct n; reflexivity.
  - apply Hemits in Hrun as (t & Ht & Hall).
    exists t. split; [exact Ht |].
    intros addr len Hin.
    rewrite Forall_forall in Hall. apply (Hall _ Hin).
Qed.

End Main.

Lemma main_start_every_run_witness :
  exists file w',
    main_start 1 2 3 4 powering_up_without_dma = Some (file, w') /\
    file = 0x80000000 /\
    mode w' = DEMO_MODE_SW_TONE_GEN /\
    load8 (mem w') 0x80000000 = 0.
Proof.
  assert (Hreturns :
            (main_start 1 2 3 4 powering_up_without_dma ≫= λ r, Some r.1) =
            Some 0x80000000)
    by (vm_compute; reflexivity).
  destruct (main_start 1 2 3 4 powering_up_without_dma)
    as [[file w'] |] eqn:Hrun; [| discriminate Hreturns].
  injection Hreturns as Hfile. cbn in Hfile. subst file.
  destruct (main_start_every_run 1 2 3 4 powering_up_without_dma _ w' Hrun)
    as (Hmode & _ & _ & Hzero & _).
  exists 0x80000000, w'. split; [reflexivity |]. split; [reflexivity |].
  split; [exact Hmode |].
  apply (Hzero 0). unfold max_file_size. lia.
Defined.

Lemma main_modes_witness :
  exists w',
    main 1 2 3 4 sine_table [0; 0; 0; 0; 0] 1 powering_up_without_dma =
      Some (tt, w') /\
    mode w' = DEMO_MODE_PAUSED.
Proof.
  assert (Hreturns :
            (main 1 2 3 4 sine_table [0; 0; 0; 0; 0] 1 powering_up_without_dma
               ≫= λ r, Some (inputs r.2)) = Some [])
    by (vm_compute; reflexivity).
  destruct (main 1 2 3 4 sine_table [0; 0; 0; 0; 0] 1 powering_up_without_dma)
    as [[[] w'] |] eqn:Hrun; [| discriminate Hreturns].
  destruct (main_modes 1 2 3 4 sine_table [0; 0; 0; 0; 0] 1
              powering_up_without_dma w' Hrun) as (Hmode & _).
  exists w'. split; [reflexivity | exact Hmode].
Defined.

(** ** The decoders of the WAV fields *)

Lemma load8_range m p : 0 <= load8 m p < 256.
Proof. apply u8_range. Qed.

Lemma array_at_0 m p : array_at m p 0 = load8 m p.
Proof.
  unfold array_at, load8, ptr_add, u32.
  rewrite Z.add_0_r, Z.mod_mod by lia. reflexivity.
Qed.

(** X20.  The decoders read least significant byte first.  On the
    bytes of memory at [p], [buf2u32] is the number that the four
    bytes at [p] to [p + 3] spell in little-endian order and [buf2u16]
    the one of the two bytes at [p] and [p + 1]; the second is what a
    read through a [u16*] gives on this machine.  Both stay within
    their type. *)
Theorem decoders_little_endian (m : Z -> Z) (p : Z) :
  buf2u32 (array_at m p) =
    load8 m p + 2 ^ 8 * load8 m (ptr_add p 1) +
    2 ^ 16 * load8 m (ptr_add p 2) + 2 ^ 24 * load8 m (ptr_add p 3) /\
  buf2u16 (array_at m p) = load8 m p + 2 ^ 8 * load8 m (ptr_add p 1) /\
  buf2u16 (array_at m p) = load16 m p /\
  0 <= buf2u32 (array_at m p) < 2 ^ 32 /\
  0 <= buf2u16 (array_at m p) < 2 ^ 16.
Proof.
  assert (H16 : buf2u16 (array_at m p) =
                  load8 m p + 2 ^ 8 * load8 m (ptr_add p 1)).
  { unfold buf2u16. rewrite array_at_0. unfold array_at.
    pose proof (load8_range m p) as H0.
    pose proof (load8_range m (ptr_add p 1)) as H1.
    rewrite (u16_small (load8 m p)), (u16_small (load8 m (ptr_add p 1)))
      by lia.
    rewrite (lor_shiftl_add _ (load8 m p) 8) by lia.
    change (2 ^ 8) with 256. rewrite u16_small by lia. lia. }
  split.
  - rewrite buf2u32_little_endian by (intros k; apply load8_range).
    rewrite array_at_0. reflexivity.
  - split; [exact H16 |]. split.
    + rewrite H16. unfold load16.
      pose proof (load8_range m p) as H0.
      rewrite (lor_shiftl_add _ (load8 m p) 8) by lia. lia.
    + split; [apply buf2u32_range |].
      unfold buf2u16. pose proof (u16_range
        (Z.lor (Z.shiftl (u16 (array_at m p 1)) 8) (u16 (array_at m p 0)))).
      change (2 ^ 16) with 65536. lia.
Qed.
